(** * Bank consolidator: column mapping, date normalisation, rule engine, import

    A shallow embedding of the import pipeline of [src/app.js]
    ([mapTransaction], [normalizeDate], [parseAmount],
    [applyTransactionRules], [insertTransaction], [processUploadedFiles],
    [applyRulesToExisting]) and the properties the specification states
    about it; then of the operations around it (rule, category, profile
    and import maintenance, manual edits and manual transactions, the
    import preview) with further properties of the code.

    Conventions of the embedding.
    - A JavaScript string is a [string]; a character is a code unit below
      256 (ASCII and Latin-1), which is what the ASCII-only patterns of the
      source inspect.
    - [undefined] and [null] of a string-valued expression are [None].
    - An integer-valued JavaScript number is a [Z] ([NaN] is [None] where it
      can arise); this is exact below 2^53.  An amount is a [JSNumber]: the
      exact decimal value read by [parseFloat], or an infinity, or NaN
      (binary64 rounding is not modelled).
    - The SQLite tables the code reads and writes are lists of row records;
      the code's own SQL statements are the functions over them. *)

From Stdlib Require Import ZArith QArith Qabs Lia Ascii String.
From stdpp Require Import gmap strings list sorting.

Close Scope Q_scope.
Local Open Scope Z_scope.

(** ** JavaScript primitives used by the source *)

Module JS.

(** The code unit of a character. *)
Definition code (c : ascii) : Z := Z.of_N (N_of_ascii c).

Definition inRange (lo hi : Z) (c : ascii) : bool :=
  (lo <=? code c) && (code c <=? hi).

(** [\d] *)
Definition isDigit (c : ascii) : bool := inRange 48 57 c.
(** [[A-Z]] and [[a-z]] *)
Definition isUpper (c : ascii) : bool := inRange 65 90 c.
Definition isLower (c : ascii) : bool := inRange 97 122 c.
(** [[A-Za-z]] *)
Definition isLetter (c : ascii) : bool := isUpper c || isLower c.
(** [\w], which is [[A-Za-z0-9_]] also under the [i] flag. *)
Definition isWordChar (c : ascii) : bool :=
  isLetter c || isDigit c || (code c =? 95).

(** White space and line terminators below 256: TAB, LF, VT, FF, CR, SP,
    NBSP.  [String.prototype.trim], [parseInt] and [parseFloat] strip
    these. *)
Definition isWhiteSpace (c : ascii) : bool :=
  inRange 9 13 c || (code c =? 32) || (code c =? 160).

Definition ofCode (n : Z) : ascii := ascii_of_N (Z.to_N n).

(** [toLowerCase] on one code unit below 256. *)
Definition toLowerChar (c : ascii) : ascii :=
  if isUpper c then ofCode (code c + 32)
  else if inRange 192 222 c && negb (code c =? 215) then ofCode (code c + 32)
  else c.

(** The [Canonicalize] operation of a case-insensitive, non-unicode
    regular expression: the upper-case form when that is one code unit.
    [0xDF] upper-cases to two units, [0xB5] and [0xFF] upper-case outside
    Latin-1 to units that no other Latin-1 character reaches, so all three
    compare as themselves. *)
Definition canonicalize (c : ascii) : ascii :=
  if isLower c then ofCode (code c - 32)
  else if inRange 224 254 c && negb (code c =? 247) then ofCode (code c - 32)
  else c.

Fixpoint mapChars (f : ascii -> ascii) (s : string) : string :=
  match s with
  | EmptyString => EmptyString
  | String c r => String (f c) (mapChars f r)
  end.

Definition toLowerCase : string -> string := mapChars toLowerChar.

Fixpoint allChars (p : ascii -> bool) (s : string) : bool :=
  match s with
  | EmptyString => true
  | String c r => p c && allChars p r
  end.

Definition isEmpty (s : string) : bool :=
  match s with EmptyString => true | _ => false end.

(** Truthiness of a value that is a string or undefined/null. *)
Definition truthy (v : option string) : bool :=
  match v with
  | Some s => negb (isEmpty s)
  | None => false
  end.

(** [a || b] on strings. *)
Definition orElse (a b : string) : string := if isEmpty a then b else a.

Fixpoint trimStart (s : string) : string :=
  match s with
  | String c r => if isWhiteSpace c then trimStart r else s
  | EmptyString => EmptyString
  end.

Fixpoint trimEnd (s : string) : string :=
  match s with
  | EmptyString => EmptyString
  | String c r =>
      let t := trimEnd r in
      if isEmpty t && isWhiteSpace c then EmptyString else String c t
  end.

Definition trim (s : string) : string := trimEnd (trimStart s).

(** [s.includes(c)] for a one-character needle. *)
Fixpoint includesChar (c : ascii) (s : string) : bool :=
  match s with
  | EmptyString => false
  | String d r => (d =? c)%char || includesChar c r
  end.

(** [s.split(sep)] for a one-character separator. *)
Fixpoint split (sep : ascii) (s : string) : list string :=
  match s with
  | EmptyString => [EmptyString]
  | String c r =>
      if (c =? sep)%char then EmptyString :: split sep r
      else match split sep r with
           | w :: ws => String c w :: ws
           | [] => [String c EmptyString]
           end
  end.

(** [parts.join(sep)] *)
Fixpoint join (sep : string) (parts : list string) : string :=
  match parts with
  | [] => EmptyString
  | [p] => p
  | p :: ps => p +:+ sep +:+ join sep ps
  end.

(** [s.replace(/,/g, '')] *)
Fixpoint removeCommas (s : string) : string :=
  match s with
  | EmptyString => EmptyString
  | String c r =>
      if (c =? ",")%char then removeCommas r else String c (removeCommas r)
  end.

(** *** Integers *)

Definition digitVal (c : ascii) : Z := code c - 48.

(** The value of a hexadecimal digit, if it is one. *)
Definition hexVal (c : ascii) : option Z :=
  if isDigit c then Some (code c - 48)
  else if inRange 65 70 c then Some (code c - 55)
  else if inRange 97 102 c then Some (code c - 87)
  else None.

(** The longest prefix of decimal digits, read left to right; [None] when
    the first character is no digit. *)
Fixpoint readDigits (acc : option Z) (s : string) : option Z :=
  match s with
  | String c r =>
      if isDigit c
      then readDigits (Some (10 * default 0 acc + digitVal c)) r
      else acc
  | EmptyString => acc
  end.

Fixpoint readHex (acc : option Z) (s : string) : option Z :=
  match s with
  | String c r =>
      match hexVal c with
      | Some d => readHex (Some (16 * default 0 acc + d)) r
      | None => acc
      end
  | EmptyString => acc
  end.

(** An optional sign, as [parseInt] and [parseFloat] read it. *)
Definition readSign (s : string) : bool * string :=
  match s with
  | String "-" r => (true, r)
  | String "+" r => (false, r)
  | _ => (false, s)
  end.

Definition applySign (neg : bool) (v : Z) : Z := if neg then - v else v.

(** [parseInt(s, 10)]: leading white space, a sign, decimal digits;
    [None] is NaN. *)
Definition parseInt10 (s : string) : option Z :=
  let '(neg, r) := readSign (trimStart s) in
  applySign neg <$> readDigits None r.

(** [parseInt(s)]: as above, but a [0x]/[0X] prefix selects radix 16. *)
Definition parseInt (s : string) : option Z :=
  let '(neg, r) := readSign (trimStart s) in
  match r with
  | String "0" (String "x" h) | String "0" (String "X" h) =>
      applySign neg <$> readHex None h
  | _ => applySign neg <$> readDigits None r
  end.

(** [parseInt(v, 10)] of a value that may be undefined: the string
    ["undefined"] has no digits. *)
Definition parseInt10Opt (v : option string) : option Z :=
  match v with
  | Some s => parseInt10 s
  | None => None
  end.

Definition digitChar (d : Z) : ascii := ofCode (48 + d).

Fixpoint digitsAux (fuel : nat) (n : Z) (acc : string) : string :=
  match fuel with
  | O => acc
  | S k =>
      let acc' := String (digitChar (n mod 10)) acc in
      if n / 10 =? 0 then acc' else digitsAux k (n / 10) acc'
  end.

(** The decimal digits of a non-negative integer. *)
Definition digits (n : Z) : string :=
  digitsAux (S (Z.to_nat (Z.log2 n))) n EmptyString.

(** [String(n)] for an integer-valued number. *)
Definition numToString (n : Z) : string :=
  if n <? 0 then String "-" (digits (- n)) else digits n.

(** [s.padStart(2, '0')] *)
Definition padStart2 (s : string) : string :=
  match s with
  | EmptyString => "00"
  | String c EmptyString => String "0" s
  | _ => s
  end.

(** *** Numbers with a fraction *)

(** A number as [parseFloat] and [-] produce it.  [Num q] keeps the exact
    value, normalised by [Qred] (so equal values are equal terms); [-0] is
    [Num 0], the two being indistinguishable to [||] and to [-]'s callers
    here. *)
Inductive JSNumber : Type :=
| Num (q : Q)
| PosInf
| NegInf
| NaN.

Definition num (q : Q) : JSNumber := Num (Qred q).

Definition ofZ (z : Z) : JSNumber := num (inject_Z z).

(** The digits at the front of a string, and what follows them. *)
Fixpoint spanDigits (s : string) : string * string :=
  match s with
  | String c r =>
      if isDigit c
      then let '(d, t) := spanDigits r in (String c d, t)
      else (EmptyString, s)
  | EmptyString => (EmptyString, EmptyString)
  end.

Definition digitsValue (d : string) : Z := default 0 (readDigits None d).

Fixpoint startsWith (p s : string) : bool :=
  match p, s with
  | EmptyString, _ => true
  | String a p', String b s' => (a =? b)%char && startsWith p' s'
  | String _ _, EmptyString => false
  end.

(** The exponent part [e], [e+] or [e-] followed by at least one digit;
    0 when there is none. *)
Definition readExponent (s : string) : Z :=
  match s with
  | String "e" r | String "E" r =>
      let '(neg, t) := readSign r in
      match readDigits None t with
      | Some v => applySign neg v
      | None => 0
      end
  | _ => 0
  end.

(** The number after the sign: [Infinity], or the longest decimal literal
    (digits, an optional fraction, an optional exponent); NaN when there
    is no such prefix. *)
Definition readNumber (neg : bool) (r : string) : JSNumber :=
  if startsWith "Infinity" r then (if neg then NegInf else PosInf)
  else
    let '(ip, r1) := spanDigits r in
    let '(fp, r2) :=
      match r1 with
      | String "." t => spanDigits t
      | _ => (EmptyString, r1)
      end in
    if isEmpty ip && isEmpty fp then NaN
    else
      let mant := digitsValue (ip +:+ fp) in
      let e := readExponent r2 - Z.of_nat (String.length fp) in
      num (inject_Z (applySign neg mant) * Qpower (inject_Z 10) e).

(** [parseFloat(s)]: leading white space, a sign, then the number. *)
Definition parseFloat (s : string) : JSNumber :=
  let '(neg, r) := readSign (trimStart s) in
  readNumber neg r.

(** [a - b] *)
Definition sub (a b : JSNumber) : JSNumber :=
  match a, b with
  | NaN, _ | _, NaN => NaN
  | Num x, Num y => num (x - y)
  | PosInf, PosInf | NegInf, NegInf => NaN
  | PosInf, _ => PosInf
  | NegInf, _ => NegInf
  | Num _, PosInf => NegInf
  | Num _, NegInf => PosInf
  end.

(** [-a] and [Math.abs(a)] *)
Definition neg (a : JSNumber) : JSNumber :=
  match a with
  | Num x => num (- x)
  | PosInf => NegInf
  | NegInf => PosInf
  | NaN => NaN
  end.

Definition abs (a : JSNumber) : JSNumber :=
  match a with
  | Num x => num (Qabs x)
  | PosInf | NegInf => PosInf
  | NaN => NaN
  end.

(** [a || 0] on numbers: NaN and zero are falsy. *)
Definition orZero (a : JSNumber) : JSNumber :=
  match a with
  | NaN => Num 0
  | Num q => if Qeq_bool q 0 then Num 0 else a
  | _ => a
  end.

End JS.

(** ** Date Normalizer: [normalizeDate] *)

(** The [MONTHS] table. *)
Definition MONTHS : list (string * Z) :=
  [("jan", 1); ("feb", 2); ("mar", 3); ("apr", 4); ("may", 5); ("jun", 6);
   ("jul", 7); ("aug", 8); ("sep", 9); ("oct", 10); ("nov", 11); ("dec", 12)].

(** [MONTHS[k]] *)
Definition monthOf (k : string) : option Z :=
  snd <$> List.find (fun e => String.eqb (fst e) k) MONTHS.

(** The three-part string [`${year}-${mm}-${dd}`] with month and day padded
    to two characters. *)
Definition fmtDate (year month day : Z) : string :=
  JS.numToString year +:+ "-" +:+ JS.padStart2 (JS.numToString month)
    +:+ "-" +:+ JS.padStart2 (JS.numToString day).

(** [s.match(/^(\d{1,2})-([A-Za-z]{3})-(\d{2,4})$/)]: the three groups. *)
Definition matchDayMonYear (s : string) : option (string * string * string) :=
  let '(d, r1) := JS.spanDigits s in
  if negb ((1 <=? String.length d)%nat && (String.length d <=? 2)%nat)
  then None
  else match r1 with
  | String "-" (String a (String b (String c (String "-" r3)))) =>
      if JS.isLetter a && JS.isLetter b && JS.isLetter c then
        let '(y, r4) := JS.spanDigits r3 in
        if (2 <=? String.length y)%nat && (String.length y <=? 4)%nat
           && JS.isEmpty r4
        then Some (d, String a (String b (String c EmptyString)), y)
        else None
      else None
  | _ => None
  end.

(** [s.match(/^(\d{4})-(\d{2})-(\d{2})/)]: the three groups. *)
Definition matchIsoPrefix (s : string) : option (string * string * string) :=
  match s with
  | String y1 (String y2 (String y3 (String y4 (String "-"
      (String m1 (String m2 (String "-" (String d1 (String d2 _))))))))) =>
      if forallb JS.isDigit [y1; y2; y3; y4; m1; m2; d1; d2]
      then Some (String y1 (String y2 (String y3 (String y4 EmptyString))),
                 String m1 (String m2 EmptyString),
                 String d1 (String d2 EmptyString))
      else None
  | _ => None
  end.

(** The two-digit-year pivot [year < 50 ? 2000 + year : 1900 + year]. *)
Definition pivot (v : Z) : Z := if v <? 50 then 2000 + v else 1900 + v.

(** The branch shared by the explicit and the automatic
    [DD-Mon-YY]/[DD-Mon-YYYY] cases, from the match groups on: [None] when
    the month name is unknown. *)
Definition dayMonYearDate (g : string * string * string) : option string :=
  let '(g1, g2, g3) := g in
  let day := default 0 (JS.parseInt10 g1) in
  let year := default 0 (JS.parseInt10 g3) in
  match monthOf (JS.toLowerCase g2) with
  | None => None
  | Some month =>
      let year := if year <? 100 then pivot year else year in
      Some (fmtDate year month day)
  end.

(** The variables [day], [month], [year] of the explicit branch; [None] is
    undefined or NaN. *)
Record DateFields : Type := mkDateFields {
  f_day : option Z;
  f_month : option Z;
  f_year : option Z
}.

(** One step of [fmt.forEach((token, i) => ...)]. *)
Definition assignToken (parts : list string) (acc : DateFields)
    (it : nat * string) : DateFields :=
  let '(i, token) := it in
  let val := JS.parseInt10Opt (parts !! i) in
  if String.eqb token "DD" then mkDateFields val (f_month acc) (f_year acc)
  else if String.eqb token "MM" then mkDateFields (f_day acc) val (f_year acc)
  else if String.eqb token "YYYY" then mkDateFields (f_day acc) (f_month acc) val
  else if String.eqb token "YY"
  then mkDateFields (f_day acc) (f_month acc) (pivot <$> val)
  else acc.

(** [!v] for a number that may be undefined or NaN. *)
Definition falsyNum (v : option Z) : bool :=
  match v with
  | Some z => z =? 0
  | None => true
  end.

(** The explicit branch for the formats made of [DD], [MM], [YYYY], [YY]
    and one separator. *)
Definition explicitNumericDate (s format : string) : option string :=
  let sep := if JS.includesChar "/" format then "/"%char else "-"%char in
  let parts := JS.split sep s in
  if negb (length parts =? 3)%nat then None
  else
    let fmt := JS.split sep format in
    let r := foldl (assignToken parts) (mkDateFields None None None)
               (imap (fun i t => (i, t)) fmt) in
    if falsyNum (f_day r) || falsyNum (f_month r) || falsyNum (f_year r)
    then None
    else Some (fmtDate (default 0 (f_year r)) (default 0 (f_month r))
                 (default 0 (f_day r))).

(** The explicit and the automatic [DD-Mon-YY]/[DD-Mon-YYYY] match. *)
Definition dayMonYearMatch (s : string) : option string :=
  match matchDayMonYear s with
  | Some g => dayMonYearDate g
  | None => None
  end.

Section DateNormalizer.

(** [new Date(s)] with its local calendar fields
    [(getFullYear(), getMonth(), getDate())], or [None] when the date is
    invalid.  What the browser accepts is implementation-defined, so the
    parser is a parameter. *)
Variable browserDate : string -> option (Z * Z * Z).

(** The automatic branch: ISO prefix, then the month-name pattern, then
    the browser's parser. *)
Definition autoDetectDate (s : string) : option string :=
  match matchIsoPrefix s with
  | Some (y, m, d) => Some (y +:+ "-" +:+ m +:+ "-" +:+ d)
  | None =>
      match dayMonYearMatch s with
      | Some r => Some r
      | None =>
          match browserDate s with
          | Some (y, m, d) => Some (fmtDate y (m + 1) d)
          | None => None
          end
      end
  end.

Definition normalizeDate (dateStr : option string) (format : string)
    : option string :=
  if negb (JS.truthy dateStr) then None
  else
    let s := JS.trim (default EmptyString dateStr) in
    if negb (JS.isEmpty format) && negb (String.eqb format "auto") then
      if String.eqb format "DD-Mon-YY" || String.eqb format "DD-Mon-YYYY"
      then dayMonYearMatch s
      else explicitNumericDate s format
    else autoDetectDate s.

End DateNormalizer.

(** ** Column Mapper: [parseAmount] and [mapTransaction] *)

(** [parseAmount(val)] for a cell that may be undefined. *)
Definition parseAmount (val : option string) : JS.JSNumber :=
  match val with
  | None => JS.Num 0
  | Some v => JS.orZero (JS.parseFloat (JS.removeCommas v))
  end.

(** A parsed CSV row ([result.data] of the parser): an object keyed by
    column name when the file is parsed with a header, an array otherwise. *)
Inductive Row : Type :=
| HeaderedRow (cells : gmap string string)
| HeaderlessRow (cells : list string).

Record BankProfile : Type := mkProfile {
  hasHeader : bool;
  skipRows : Z;
  dateColumn : string;
  descriptionColumn : string;
  amountColumn : string;
  creditColumn : string;
  debitColumn : string;
  dateFormat : string
}.

(** [row[name]] in the header branch.  The parser is called with
    [header: profile.hasHeader !== false], so a row reaching the header
    branch is an object; on an array the lookup is taken as undefined.
    Properties inherited from [Object.prototype] are not modelled: a column
    reference names a column of the file.  (Under a name such as
    [toString] that the file has no column for, the code finds the
    inherited function where the model reads undefined.) *)
Definition rowByName (row : Row) (name : string) : option string :=
  match row with
  | HeaderedRow m => m !! name
  | HeaderlessRow _ => None
  end.

(** [row[i]] in the headerless branch, [i] the result of [parseInt]: NaN and
    negative indices give undefined. *)
Definition rowByIndex (row : Row) (i : option Z) : option string :=
  match row, i with
  | HeaderlessRow l, Some z => if 0 <=? z then l !! Z.to_nat z else None
  | _, _ => None
  end.

(** The candidate record [mapTransaction] returns. *)
Record Transaction : Type := mkTransaction {
  import_id : Z;
  date : option string;
  description : string;
  amount : JS.JSNumber;
  category : string
}.

(** [categorizeTransaction(description)] *)
Definition categorizeTransaction (description : option string) : string :=
  "Uncategorized".

(** [.filter(val => val && val.trim())] *)
Definition keepNonBlank (vals : list (option string)) : list string :=
  omap (fun v => match v with
                 | Some s => if JS.isEmpty s || JS.isEmpty (JS.trim s)
                             then None else Some s
                 | None => None
                 end) vals.

(** [raw === undefined || raw === null || String(raw).trim() === ''] *)
Definition blankCell (raw : option string) : bool :=
  match raw with
  | None => true
  | Some s => JS.isEmpty (JS.trim s)
  end.

Section ColumnMapper.

Variable browserDate : string -> option (Z * Z * Z).

(** The body common to the two branches of [mapTransaction]; [cell] is
    [col => row[col]] in the header branch and
    [col => row[parseInt(col)]] in the headerless one. *)
Definition mapCells (cell : string -> option string) (profile : BankProfile)
    (importId : Z) (effectiveFormat : string) : option Transaction :=
  let date := cell (dateColumn profile) in
  let description :=
    if JS.includesChar "," (descriptionColumn profile) then
      Some (JS.join " "
              (keepNonBlank
                 (map (fun c => cell (JS.trim c))
                    (JS.split "," (descriptionColumn profile)))))
    else cell (descriptionColumn profile) in
  let amount :=
    if negb (JS.isEmpty (creditColumn profile))
       && negb (JS.isEmpty (debitColumn profile))
    then
      let credit := parseAmount (cell (creditColumn profile)) in
      let debit := parseAmount (cell (debitColumn profile)) in
      Some (JS.sub credit debit)
    else
      let raw := cell (amountColumn profile) in
      if blankCell raw then None else Some (parseAmount raw) in
  match amount with
  | None => None
  | Some amount =>
      if negb (JS.truthy date) then None
      else Some {|
        import_id := importId;
        date := normalizeDate browserDate date
                  (JS.orElse effectiveFormat (dateFormat profile));
        description := default EmptyString description;
        amount := amount;
        category := categorizeTransaction description
      |}
  end.

Definition mapTransaction (row : Row) (profile : BankProfile)
    (importId : Z) (effectiveFormat : string) : option Transaction :=
  if hasHeader profile
  then mapCells (fun col => rowByName row col) profile importId
         effectiveFormat
  else mapCells (fun col => rowByIndex row (JS.parseInt col))
         profile importId effectiveFormat.

End ColumnMapper.

(** ** The database tables the pipeline reads and writes *)

Record CategoryRow : Type := mkCategory {
  cat_id : Z;
  cat_name : string
}.

(** A row of [transaction_rules]. *)
Record RuleRow : Type := mkRule {
  rule_id : Z;
  rule_keyword : string;
  rule_action : string;
  rule_category_value : option Z;
  rule_case_sensitive : Z;
  rule_enabled : Z;
  rule_priority : Z
}.

(** A row of [transactions]. *)
Record TxRow : Type := mkTx {
  tx_id : Z;
  tx_import_id : Z;
  tx_date : string;
  tx_description : option string;
  tx_amount : JS.JSNumber;
  tx_category_id : option Z;
  tx_ignored : Z;
  tx_auto_ignored : Z;
  tx_manual_category : Z
}.

(** A row of [imports] (the time stamp [import_date] is left out). *)
Record ImportRow : Type := mkImport {
  imp_id : Z;
  imp_filename : string;
  imp_account_id : string;
  imp_transaction_count : Z
}.

Record DB : Type := mkDB {
  categories : list CategoryRow;
  transaction_rules : list RuleRow;
  transactions : list TxRow;
  imports : list ImportRow
}.

(** [SELECT id FROM categories WHERE name = ?] through [queryValue]: the id
    of the first row, or null. *)
Definition categoryIdByName (db : DB) (name : string) : option Z :=
  cat_id <$> List.find (fun c => String.eqb (cat_name c) name) (categories db).

(** [LEFT JOIN categories c ON x = c.id], column [c.name]. *)
Definition categoryNameById (db : DB) (id : option Z) : option string :=
  match id with
  | None => None
  | Some i => cat_name <$> List.find (fun c => cat_id c =? i) (categories db)
  end.

(** ** Rule Engine: [applyTransactionRules] *)

(** [ORDER BY tr.priority DESC, tr.id ASC] *)
Definition ruleOrder (r1 r2 : RuleRow) : Prop :=
  rule_priority r2 < rule_priority r1
  \/ (rule_priority r1 = rule_priority r2 /\ rule_id r1 <= rule_id r2).

#[global] Instance ruleOrder_dec r1 r2 : Decision (ruleOrder r1 r2).
Proof. unfold ruleOrder. apply _. Defined.

(** A row of the rule query: keyword, action, category name, case flag. *)
Record RuleView : Type := mkRuleView {
  keyword : string;
  action : string;
  categoryValue : option string;
  caseSensitive : Z
}.

Definition viewOf (db : DB) (r : RuleRow) : RuleView :=
  {| keyword := rule_keyword r;
     action := rule_action r;
     categoryValue := categoryNameById db (rule_category_value r);
     caseSensitive := rule_case_sensitive r |}.

(** [WHERE tr.enabled = 1] *)
Definition enabledRules (db : DB) : list RuleRow :=
  filter (fun r => rule_enabled r = 1) (transaction_rules db).

(** The rule query of [applyTransactionRules]: enabled rules, highest
    priority first, then by id. *)
Definition rulesQuery (db : DB) : list RuleView :=
  viewOf db <$> merge_sort ruleOrder (enabledRules db).

(** *** The match pattern

    [new RegExp(`(^|[^\w])${escapedKeyword}([^\w]|$)`, flags)]: the
    replacement that builds [escapedKeyword] puts a backslash before every
    character that is special in a pattern, so the keyword stands for the
    sequence of its own characters. *)

(** Two characters match, under the [i] flag up to [Canonicalize]. *)
Definition charMatches (ignoreCase : bool) (p c : ascii) : bool :=
  if ignoreCase then (JS.canonicalize p =? JS.canonicalize c)%char
  else (p =? c)%char.

(** The keyword at the front of the input: what follows it. *)
Fixpoint matchKeyword (ignoreCase : bool) (kw s : string) : option string :=
  match kw, s with
  | EmptyString, _ => Some s
  | String k kw', String c s' =>
      if charMatches ignoreCase k c then matchKeyword ignoreCase kw' s'
      else None
  | String _ _, EmptyString => None
  end.

(** [([^\w]|$)] at the front of the input. *)
Definition closesWord (s : string) : bool :=
  match s with
  | EmptyString => true
  | String c _ => negb (JS.isWordChar c)
  end.

Definition keywordThenBoundary (ignoreCase : bool) (kw s : string) : bool :=
  match matchKeyword ignoreCase kw s with
  | Some r => closesWord r
  | None => false
  end.

(** The whole pattern tried at one position; [atStart] says whether the
    position is the start of the input, where [^] holds. *)
Definition matchesAt (ignoreCase : bool) (kw : string) (atStart : bool)
    (s : string) : bool :=
  (atStart && keywordThenBoundary ignoreCase kw s)
  || match s with
     | String c s' =>
         negb (JS.isWordChar c) && keywordThenBoundary ignoreCase kw s'
     | EmptyString => false
     end.

Fixpoint searchFrom (ignoreCase : bool) (kw : string) (atStart : bool)
    (s : string) : bool :=
  matchesAt ignoreCase kw atStart s
  || match s with
     | String _ s' => searchFrom ignoreCase kw false s'
     | EmptyString => false
     end.

(** [pattern.test(description)] for the pattern built from [rule]. *)
Definition ruleMatches (rule : RuleView) (description : string) : bool :=
  searchFrom (caseSensitive rule =? 0) (keyword rule) true description.

(** *** The scan *)

Record RuleResult : Type := mkRuleResult {
  shouldIgnore : bool;
  resultCategory : string
}.

(** The loop variables. *)
Record ScanState : Type := mkScan {
  s_shouldIgnore : bool;
  s_category : string;
  ignoreRuleMatched : bool;
  categoryRuleMatched : bool
}.

(** The two [if]s applied to a rule whose pattern matched. *)
Definition applyRule (rule : RuleView) (st : ScanState) : ScanState :=
  if String.eqb (action rule) "ignore" && negb (ignoreRuleMatched st) then
    mkScan true (s_category st) true (categoryRuleMatched st)
  else if String.eqb (action rule) "categorize"
          && negb (categoryRuleMatched st) && JS.truthy (categoryValue rule)
  then mkScan (s_shouldIgnore st) (default EmptyString (categoryValue rule))
         (ignoreRuleMatched st) true
  else st.

(** The [for ... of] loop with its [break]. *)
Fixpoint scanRules (description : string) (rules : list RuleView)
    (st : ScanState) : ScanState :=
  match rules with
  | [] => st
  | rule :: rest =>
      if ruleMatches rule description then
        let st' := applyRule rule st in
        if ignoreRuleMatched st' && categoryRuleMatched st' then st'
        else scanRules description rest st'
      else scanRules description rest st
  end.

(** The same loop without the [break]. *)
Fixpoint scanAllRules (description : string) (rules : list RuleView)
    (st : ScanState) : ScanState :=
  match rules with
  | [] => st
  | rule :: rest =>
      scanAllRules description rest
        (if ruleMatches rule description then applyRule rule st else st)
  end.

(** [applyTransactionRules] over the rule query's rows. *)
Definition applyRules (rules : list RuleView) (description : string)
    (defaultCategory : option string) : RuleResult :=
  let fallbackCategory :=
    JS.orElse (default EmptyString defaultCategory) "Uncategorized" in
  if JS.isEmpty description then mkRuleResult false fallbackCategory
  else
    match rules with
    | [] => mkRuleResult false fallbackCategory
    | _ =>
        let st := scanRules description rules
                    (mkScan false fallbackCategory false false) in
        mkRuleResult (s_shouldIgnore st) (s_category st)
    end.

Definition applyTransactionRules (db : DB) (description : string)
    (defaultCategory : option string) : RuleResult :=
  applyRules (rulesQuery db) description defaultCategory.

(** ** Storage: [insertTransaction], [createImportRecord],
    [updateImportCount] *)

(** The id of the next row of a table.  The id columns are
    [INTEGER PRIMARY KEY AUTOINCREMENT]: SQLite gives an id above every id
    the table holds and above every id it held before.  The model keeps no
    count of deleted rows and takes one more than the largest id present,
    which is SQLite's id as long as the row of the largest id was never
    deleted.  The theorems on the operations are stated for whatever new
    id a row receives (they use that it is above the ids present); the
    auxiliary lemmas and the examples compute with this definition. *)
Definition nextId (ids : list Z) : Z := 1 + foldr Z.max 0 ids.

Definition withTransactions (db : DB) (ts : list TxRow) : DB :=
  mkDB (categories db) (transaction_rules db) ts (imports db).

Definition withImports (db : DB) (rows : list ImportRow) : DB :=
  mkDB (categories db) (transaction_rules db) (transactions db) rows.

(** The [INSERT INTO transactions] of [insertTransaction], run through
    [safeRun]: columns [date] and [amount] are declared [NOT NULL] (SQLite
    stores a NaN as NULL), and a statement that violates a constraint
    throws; [safeRun] catches the error and reports it with [showMessage],
    leaving the table as it was. *)
Definition insertRow (db : DB) (t : Transaction) (categoryId : option Z)
    (ignored : Z) : DB :=
  match date t, amount t with
  | None, _ | _, JS.NaN => db
  | Some d, a =>
      withTransactions db
        (transactions db ++
           [mkTx (nextId (tx_id <$> transactions db)) (import_id t) d
              (Some (description t)) a categoryId ignored 0 0])
  end.

Definition insertTransaction (db : DB) (t : Transaction) : DB :=
  let ruleResult :=
    applyTransactionRules db (description t) (Some (category t)) in
  let categoryName := JS.orElse (resultCategory ruleResult) "Uncategorized" in
  let categoryId := categoryIdByName db categoryName in
  let categoryId :=
    if falsyNum categoryId then categoryIdByName db "Uncategorized"
    else categoryId in
  insertRow db t categoryId (if shouldIgnore ruleResult then 1 else 0).

(** [createImportRecord(filename, accountId)]: the new table and
    [last_insert_rowid()]. *)
Definition createImportRecord (db : DB) (filename accountId : string)
    : DB * Z :=
  let id := nextId (imp_id <$> imports db) in
  (withImports db (imports db ++ [mkImport id filename accountId 0]), id).

(** [updateImportCount(importId, count)] *)
Definition updateImportCount (db : DB) (importId count : Z) : DB :=
  withImports db
    ((fun r => if imp_id r =? importId
               then mkImport (imp_id r) (imp_filename r) (imp_account_id r) count
               else r) <$> imports db).

(** ** Import Orchestrator: [processUploadedFiles] *)

(** The value a call evaluates to: [undefined], or an object with the two
    fields [accepted] and [rejectedCount] of the import contract. *)
Inductive JSValue : Type :=
| JSUndefined
| JSImportResult (accepted : list Transaction) (rejectedCount : Z).

(** An uploaded file: its name and the rows the CSV parser returns for its
    text ([result.data]), after the profile's [skipRows] lines are dropped. *)
Record UploadedFile : Type := mkFile {
  file_name : string;
  file_data : list Row
}.

(** What a call of [processUploadedFiles] leaves behind: the value it
    returns, the database, and the message [showMessage] displays last. *)
Record Outcome : Type := mkOutcome {
  returned : JSValue;
  db_after : DB;
  message : string * string
}.

Section ImportOrchestrator.

Variable browserDate : string -> option (Z * Z * Z).

(** The loop [for (const row of result.data)]; the counters
    [totalImported] and [fileImported] advance together, so one count is
    threaded. *)
Fixpoint importRows (rows : list Row) (profile : BankProfile) (importId : Z)
    (effectiveDateFormat : string) (db : DB) (fileImported : Z) : DB * Z :=
  match rows with
  | [] => (db, fileImported)
  | row :: rest =>
      match mapTransaction browserDate row profile importId
              effectiveDateFormat with
      | Some transaction =>
          importRows rest profile importId effectiveDateFormat
            (insertTransaction db transaction) (fileImported + 1)
      | None =>
          importRows rest profile importId effectiveDateFormat db
            fileImported
      end
  end.

(** The loop over [uploadedFiles]. *)
Fixpoint importFiles (files : list UploadedFile) (profile : BankProfile)
    (accountId effectiveDateFormat : string) (db : DB) (totalImported : Z)
    : DB * Z :=
  match files with
  | [] => (db, totalImported)
  | file :: rest =>
      let '(db1, importId) :=
        createImportRecord db (file_name file) accountId in
      let '(db2, fileImported) :=
        importRows (file_data file) profile importId effectiveDateFormat
          db1 0 in
      importFiles rest profile accountId effectiveDateFormat
        (updateImportCount db2 importId fileImported)
        (totalImported + fileImported)
  end.

Definition processUploadedFiles (profile : BankProfile)
    (accountId dateFormatChoice : string) (uploadedFiles : list UploadedFile)
    (db : DB) : Outcome :=
  let effectiveDateFormat :=
    JS.orElse dateFormatChoice (JS.orElse (dateFormat profile) "auto") in
  if JS.isEmpty accountId
  then mkOutcome JSUndefined db ("error", "Please select an account")
  else
    let '(db', totalImported) :=
      importFiles uploadedFiles profile accountId effectiveDateFormat db 0 in
    mkOutcome JSUndefined db'
      ("success",
       "Imported " +:+ JS.numToString totalImported
         +:+ " transactions from "
         +:+ JS.numToString (Z.of_nat (length uploadedFiles))
         +:+ " file(s)").

End ImportOrchestrator.

(** ** Bulk re-categorisation: [applyRulesToExisting] *)

(** The effect of [SET ignored = 1 WHERE id = ?] on one row. *)
Definition rowIgnored (transId : Z) (t : TxRow) : TxRow :=
  if tx_id t =? transId
  then mkTx (tx_id t) (tx_import_id t) (tx_date t) (tx_description t)
         (tx_amount t) (tx_category_id t) 1 (tx_auto_ignored t)
         (tx_manual_category t)
  else t.

(** The effect of [SET category_id = ? WHERE id = ?] on one row. *)
Definition rowCategory (transId newCategoryId : Z) (t : TxRow) : TxRow :=
  if tx_id t =? transId
  then mkTx (tx_id t) (tx_import_id t) (tx_date t) (tx_description t)
         (tx_amount t) (Some newCategoryId) (tx_ignored t)
         (tx_auto_ignored t) (tx_manual_category t)
  else t.

(** [UPDATE transactions SET ignored = 1 WHERE id = ?] *)
Definition setIgnored (db : DB) (transId : Z) : DB :=
  withTransactions db (rowIgnored transId <$> transactions db).

(** [UPDATE transactions SET category_id = ? WHERE id = ?] *)
Definition setCategory (db : DB) (transId newCategoryId : Z) : DB :=
  withTransactions db (rowCategory transId newCategoryId <$> transactions db).

(** A row of the transaction query of [applyRulesToExisting]. *)
Record TxView : Type := mkTxView {
  v_id : Z;
  v_description : option string;
  v_category_id : option Z;
  v_category_name : option string;
  v_manual_category : Z
}.

Definition txViewOf (db : DB) (t : TxRow) : TxView :=
  mkTxView (tx_id t) (tx_description t) (tx_category_id t)
    (categoryNameById db (tx_category_id t)) (tx_manual_category t).

(** The callback of [transResult[0].values.forEach]. *)
Definition reapplyRow (db : DB) (row : TxView) : DB :=
  let transId := v_id row in
  let description := default EmptyString (v_description row) in
  let currentCategoryName := v_category_name row in
  if v_manual_category row =? 1 then db
  else
    let ruleResult :=
      applyTransactionRules db description currentCategoryName in
    let db1 := if shouldIgnore ruleResult then setIgnored db transId else db in
    if bool_decide (Some (resultCategory ruleResult) = currentCategoryName)
    then db1
    else
      match categoryIdByName db1 (resultCategory ruleResult) with
      | Some newCategoryId =>
          if newCategoryId =? 0 then db1
          else setCategory db1 transId newCategoryId
      | None => db1
      end.

(** [applyRulesToExisting()]; [confirmed] is the answer to the [confirm]
    dialog. *)
Definition applyRulesToExisting (confirmed : bool) (db : DB) : DB :=
  if negb confirmed then db
  else if (Z.of_nat (length (enabledRules db)) =? 0) then db
  else foldl reapplyRow db (txViewOf db <$> transactions db).

(** ** The properties, in the specification's words *)

(** The text [mid] is the keyword, character by character (up to case when
    [ignoreCase]). *)
Fixpoint sameText (ignoreCase : bool) (kw mid : string) : bool :=
  match kw, mid with
  | EmptyString, EmptyString => true
  | String k kw', String c mid' =>
      charMatches ignoreCase k c && sameText ignoreCase kw' mid'
  | _, _ => false
  end.

(** Start of string, or a non-word character, on the left. *)
Definition leftBoundary (pre : string) : Prop :=
  pre = EmptyString
  \/ exists p c, pre = p +:+ String c EmptyString /\ JS.isWordChar c = false.

(** End of string, or a non-word character, on the right. *)
Definition rightBoundary (post : string) : Prop :=
  post = EmptyString
  \/ exists c p, post = String c p /\ JS.isWordChar c = false.

(** An occurrence of the keyword in the description that is flanked on both
    sides. *)
Definition flankedOccurrence (ignoreCase : bool) (kw description : string)
    : Prop :=
  exists pre mid post,
    description = pre +:+ mid +:+ post
    /\ sameText ignoreCase kw mid = true
    /\ leftBoundary pre /\ rightBoundary post.

(** The rule is an ignore rule whose pattern matches the description. *)
Definition ignoreHit (description : string) (rule : RuleView) : bool :=
  ruleMatches rule description && String.eqb (action rule) "ignore".

(** The rule is a categorize rule with a category whose pattern matches the
    description. *)
Definition categorizeHit (description : string) (rule : RuleView) : bool :=
  ruleMatches rule description && String.eqb (action rule) "categorize"
  && JS.truthy (categoryValue rule).

(** The ignore slot: some ignore rule matches. *)
Definition ignoreSlot (rules : list RuleView) (description : string) : bool :=
  existsb (ignoreHit description) rules.

(** The category slot: the category of the first categorize rule that
    matches, else the fallback. *)
Definition categorySlot (rules : list RuleView) (description fallback : string)
    : string :=
  match List.find (categorizeHit description) rules with
  | Some rule => default EmptyString (categoryValue rule)
  | None => fallback
  end.

(** [defaultCategory || 'Uncategorized'] *)
Definition fallbackOf (defaultCategory : option string) : string :=
  JS.orElse (default EmptyString defaultCategory) "Uncategorized".

(** A stored transaction after the current rules are applied to it: the
    ignore flag is raised when an ignore rule matches, and the category is
    replaced when the rules name another category that exists. *)
Definition updatedByRules (db : DB) (t : TxRow) : TxRow :=
  let currentCategoryName := categoryNameById db (tx_category_id t) in
  let ruleResult :=
    applyTransactionRules db (default EmptyString (tx_description t))
      currentCategoryName in
  mkTx (tx_id t) (tx_import_id t) (tx_date t) (tx_description t) (tx_amount t)
    (if bool_decide (Some (resultCategory ruleResult) = currentCategoryName)
     then tx_category_id t
     else match categoryIdByName db (resultCategory ruleResult) with
          | Some newCategoryId =>
              if newCategoryId =? 0 then tx_category_id t
              else Some newCategoryId
          | None => tx_category_id t
          end)
    (if shouldIgnore ruleResult then 1 else tx_ignored t)
    (tx_auto_ignored t) (tx_manual_category t).

(** The rule and category tables of the examples. *)
Definition exampleCategories : list CategoryRow :=
  [mkCategory 1 "Uncategorized"; mkCategory 2 "Groceries";
   mkCategory 3 "Food"].

Definition exampleRule5 : RuleRow :=
  mkRule 1 "GROCERY" "categorize" (Some 3) 0 1 5.

Definition exampleRule10 : RuleRow :=
  mkRule 2 "GROCERY" "categorize" (Some 2) 0 1 10.

(** Stored transactions of the examples: the first carries a manual
    override, the second does not. *)
Definition exampleOverridden : TxRow :=
  mkTx 1 1 "2024-01-15" (Some "GROCERY MART") (JS.Num (-45)) (Some 3) 0 0 1.

Definition exampleUnflagged : TxRow :=
  mkTx 2 1 "2024-01-16" (Some "GROCERY STORE") (JS.Num (-20)) (Some 1) 0 0 0.

Definition exampleStore : DB :=
  mkDB exampleCategories [exampleRule10]
    [exampleOverridden; exampleUnflagged] [].

(** The explicit formats of the date-format vocabulary. *)
Definition explicitFormats : list string :=
  ["YYYY-MM-DD"; "DD/MM/YYYY"; "MM/DD/YYYY"; "DD-MM-YYYY"; "MM-DD-YYYY";
   "DD/MM/YY"; "MM/DD/YY"; "DD-Mon-YY"; "DD-Mon-YYYY"].


(** A numeric token of a date: one to fifteen decimal digits (fifteen
    digits stay within the integers a JavaScript number holds exactly). *)
Definition numericToken (t : string) : bool :=
  negb (JS.isEmpty t) && JS.allChars JS.isDigit t
  && (String.length t <=? 15)%nat.

(** A month token: three letters that name a month, in any case. *)
Definition monthToken (t : string) : bool :=
  (String.length t =? 3)%nat && JS.allChars JS.isLetter t
  && bool_decide (is_Some (monthOf (JS.toLowerCase t))).

(** A date string that is valid for an explicit format: the trimmed string
    has the three tokens of the format between its separators, the numeric
    ones made of digits; for the month-name formats the day has one or two
    digits and is at least 1, and the year has two to four digits. *)
Definition validDatePair (s f : string) : bool :=
  bool_decide (f ∈ explicitFormats)
  && if String.eqb f "DD-Mon-YY" || String.eqb f "DD-Mon-YYYY" then
       match JS.split "-" (JS.trim s) with
       | [d; m; y] =>
           numericToken d && (String.length d <=? 2)%nat
           && negb (falsyNum (JS.parseInt10 d))
           && monthToken m
           && numericToken y && (2 <=? String.length y)%nat
           && (String.length y <=? 4)%nat
       | _ => false
       end
     else
       match JS.split (if JS.includesChar "/" f then "/"%char else "-"%char)
               (JS.trim s) with
       | [a; b; c] => numericToken a && numericToken b && numericToken c
       | _ => false
       end.

(** A browser date parser that accepts nothing, for the examples. *)
Definition noBrowserDate : string -> option (Z * Z * Z) := fun _ => None.

(** The cell a column reference of the profile denotes in a row. *)
Definition cellOf (row : Row) (profile : BankProfile) (col : string)
    : option string :=
  if hasHeader profile then rowByName row col
  else rowByIndex row (JS.parseInt col).

(** The profile configures the credit/debit pair. *)
Definition pairedColumns (profile : BankProfile) : bool :=
  negb (JS.isEmpty (creditColumn profile))
  && negb (JS.isEmpty (debitColumn profile)).

(** Credit minus debit with both cells read as unsigned magnitudes. *)
Definition unsignedAmount (credit debit : option string) : JS.JSNumber :=
  JS.sub (JS.abs (parseAmount credit)) (JS.abs (parseAmount debit)).

(** A cell that is missing, empty or not a number. *)
Definition emptyOrUnparseable (cell : option string) : bool :=
  match cell with
  | None => true
  | Some s =>
      match JS.parseFloat (JS.removeCommas s) with
      | JS.NaN => true
      | _ => false
      end
  end.

(** A headerless profile with a credit/debit pair: date, description,
    credit, debit. *)
Definition examplePairedProfile : BankProfile :=
  mkProfile false 0 "0" "1" "" "2" "3" "DD/MM/YYYY".

(** A headerless profile with a single amount column. *)
Definition exampleProfile : BankProfile :=
  mkProfile false 0 "0" "1" "2" "" "" "DD/MM/YYYY".


(** The rows of a file that [mapTransaction] maps, as the candidates it
    returns, in row order; and the rows it rejects. *)
Definition mappedRows (browserDate : string -> option (Z * Z * Z))
    (profile : BankProfile) (importId : Z) (fmt : string) (rows : list Row)
    : list Transaction :=
  omap (fun row => mapTransaction browserDate row profile importId fmt) rows.




(** A store without rules. *)
Definition exampleEmptyStore : DB := mkDB exampleCategories [] [] [].

(** The three-row file and the one-rule store of the end-to-end example. *)
Definition exampleFile : UploadedFile :=
  mkFile "a.csv"
    [HeaderlessRow ["15/01/2024"; "GROCERY MART"; "-45.20"];
     HeaderlessRow ["16/01/2024"; "SALARY"; "2000.00"];
     HeaderlessRow [""; ""; ""]].

Definition exampleRuleStore : DB :=
  mkDB exampleCategories [mkRule 1 "GROCERY" "categorize" (Some 2) 0 1 0]
    [] [].

(** ** Auxiliary notions of the proofs *)

(** A search that starts at the beginning of the input may use [^]; a
    search further on may not. *)
Definition boundaryFor (atStart : bool) (pre : string) : Prop :=
  (pre = EmptyString /\ atStart = true)
  \/ exists p c, pre = p +:+ String c EmptyString /\ JS.isWordChar c = false.

(** The rule and category tables of [db] are those of [cfg]. *)
Definition sameConfig (cfg db : DB) : Prop :=
  categories db = categories cfg
  /\ transaction_rules db = transaction_rules cfg.

(** What one pass of the callback of [applyRulesToExisting] does to one
    stored row, the rule and category tables being those of [cfg]. *)
Definition updRow (cfg : DB) (v : TxView) (t : TxRow) : TxRow :=
  if v_manual_category v =? 1 then t
  else
    let ruleResult :=
      applyTransactionRules cfg (default EmptyString (v_description v))
        (v_category_name v) in
    let t1 := if shouldIgnore ruleResult then rowIgnored (v_id v) t else t in
    if bool_decide (Some (resultCategory ruleResult) = v_category_name v)
    then t1
    else
      match categoryIdByName cfg (resultCategory ruleResult) with
      | Some newCategoryId =>
          if newCategoryId =? 0 then t1
          else rowCategory (v_id v) newCategoryId t1
      | None => t1
      end.

(** Characters other than white space, and other than a separator. *)
Definition notSpace (c : ascii) : bool := negb (JS.isWhiteSpace c).

Definition notChar (sep c : ascii) : bool := negb (c =? sep)%char.

(** The three tokens of a canonical date and what [parseInt] reads from
    them. *)
Record DateToken (t : string) (v : Z) : Prop := mkDateToken {
  tok_digits : JS.allChars JS.isDigit t = true;
  tok_nonempty : JS.isEmpty t = false;
  tok_value : JS.parseInt10 t = Some v
}.

(** The result of [normalizeDate] is nothing or a canonical date of
    positive fields. *)
Definition canonicalOrNone (r : option string) : Prop :=
  r = None
  \/ exists y m d, 0 < y /\ 0 < m /\ 0 < d /\ r = Some (fmtDate y m d).

(** * Further operations of the source *)

(** ** Input validation: [CONFIG] and [validators] *)

Definition MAX_CATEGORY_NAME_LENGTH : nat := 50.
Definition MAX_RULE_NAME_LENGTH : nat := 100.

(** [!v || v.trim().length === 0] *)
Definition blankInput (v : string) : bool :=
  JS.isEmpty v || (String.length (JS.trim v) =? 0)%nat.

Module validators.

(** A character of [[\w\s\-&.']] (the [u] flag changes nothing below
    256). *)
Definition categoryChar (c : ascii) : bool :=
  JS.isWordChar c || JS.isWhiteSpace c || (c =? "-")%char || (c =? "&")%char
  || (c =? ".")%char || (c =? "'")%char.

(** [validators.categoryName(name)]: the error message, or [None] for
    null. *)
Definition categoryName (name : string) : option string :=
  if blankInput name then Some "Category name is required"
  else if (MAX_CATEGORY_NAME_LENGTH <? String.length name)%nat
  then Some "Category name too long (max 50 chars)"
  else if negb (negb (JS.isEmpty name) && JS.allChars categoryChar name)
  then Some "Category name contains invalid characters"
  else None.

(** [validators.ruleName(name)] *)
Definition ruleName (name : string) : option string :=
  if blankInput name then Some "Rule name is required"
  else if (MAX_RULE_NAME_LENGTH <? String.length name)%nat
  then Some "Rule name too long (max 100 chars)"
  else None.

(** [validators.keyword(keyword)] *)
Definition keyword (kw : string) : option string :=
  if blankInput kw then Some "Keyword is required"
  else if (100 <? String.length kw)%nat
  then Some "Keyword too long (max 100 chars)"
  else None.

End validators.

(** ** Rule and category maintenance: [addRule], [deleteRule],
    [addCategory], [deleteCategory] *)

Definition withRules (db : DB) (rules : list RuleRow) : DB :=
  mkDB (categories db) rules (transactions db) (imports db).

Definition withCategories (db : DB) (cats : list CategoryRow) : DB :=
  mkDB cats (transaction_rules db) (transactions db) (imports db).

(** The double-quote character of the messages. *)
Definition quoteMark : string := String (ascii_of_nat 34) EmptyString.

(** [parseInt(value) || 0] *)
Definition priorityOf (value : string) : Z := default 0 (JS.parseInt value).

(** [addRule()].  The arguments are the values of the form fields:
    [categoryInput] is the value of the category select, the id of a
    category or [None] for the empty value.  The rule's display name is
    validated and stored in a column the model of the table leaves out. *)
Definition addRule (nameInput keywordInput actionInput : string)
    (caseSensitiveInput : bool) (priorityInput : string)
    (categoryInput : option Z) (db : DB) : DB * (string * string) :=
  let name := JS.trim nameInput in
  let kw := JS.trim keywordInput in
  let priority := priorityOf priorityInput in
  let categoryValue :=
    if String.eqb actionInput "categorize" then categoryInput else None in
  match validators.ruleName name with
  | Some nameError => (db, ("error", nameError))
  | None =>
      match validators.keyword kw with
      | Some keywordError => (db, ("error", keywordError))
      | None =>
          if String.eqb actionInput "categorize"
             && negb (bool_decide (is_Some categoryValue))
          then (db, ("error", "Please select a category"))
          else
            (withRules db
               (transaction_rules db ++
                  [mkRule (nextId (rule_id <$> transaction_rules db)) kw
                     actionInput categoryValue
                     (if caseSensitiveInput then 1 else 0) 1 priority]),
             ("success",
              "Rule " +:+ quoteMark +:+ name +:+ quoteMark
                +:+ " created successfully"))
      end
  end.

(** [deleteRule(ruleId)]; [confirmed] is the answer to the dialog. *)
Definition deleteRule (confirmed : bool) (ruleId : Z) (db : DB) : DB :=
  if negb confirmed then db
  else withRules db
         (filter (fun r => rule_id r <> ruleId) (transaction_rules db)).

(** [addCategory()]: the name column is [UNIQUE], so the insert of a name
    that is present throws; [safeRun] reports the database error and leaves
    the table as it was.  Colour, icon and sort order are columns the model
    leaves out. *)
Definition addCategory (nameInput : string) (db : DB)
    : DB * (string * string) :=
  let name := JS.trim nameInput in
  match validators.categoryName name with
  | Some validationError => (db, ("error", validationError))
  | None =>
      if bool_decide (name ∈ cat_name <$> categories db)
      then (db, ("error",
                 "Database error: UNIQUE constraint failed: categories.name"))
      else
        (withCategories db
           (categories db ++
              [mkCategory (nextId (cat_id <$> categories db)) name]),
         ("success",
          "Category " +:+ quoteMark +:+ name +:+ quoteMark
            +:+ " created successfully"))
  end.

(** [deleteCategory(categoryId, categoryName)]; the subcategories it
    deletes first are in a table the model leaves out. *)
Definition deleteCategory (confirmed : bool) (categoryId : Z) (db : DB)
    : DB :=
  if negb confirmed then db
  else withCategories db
         (filter (fun c => cat_id c <> categoryId) (categories db)).

(** ** Transaction edits: [toggleIgnore], [saveTransactionCategory] *)

(** [toggleIgnore(transactionId, ignoredValue)] *)
Definition toggleIgnore (transactionId ignoredValue : Z) (db : DB) : DB :=
  withTransactions db
    ((fun t => if tx_id t =? transactionId
               then mkTx (tx_id t) (tx_import_id t) (tx_date t)
                      (tx_description t) (tx_amount t) (tx_category_id t)
                      ignoredValue (tx_auto_ignored t) (tx_manual_category t)
               else t) <$> transactions db).

(** [saveTransactionCategory(transactionId)]; [categoryId] is the value of
    the category select, [None] for the empty value (stored as null).  The
    subcategory column is left out of the model of the table. *)
Definition saveTransactionCategory (transactionId : Z) (categoryId : option Z)
    (db : DB) : DB :=
  withTransactions db
    ((fun t => if tx_id t =? transactionId
               then mkTx (tx_id t) (tx_import_id t) (tx_date t)
                      (tx_description t) (tx_amount t) categoryId
                      (tx_ignored t) (tx_auto_ignored t) 1
               else t) <$> transactions db).

(** ** Import history: [undoImport], [reactivateImport], [deleteImport],
    [deleteImportRecord] *)

(** [UPDATE transactions SET ignored = ? WHERE import_id = ?] *)
Definition setImportIgnored (importId ignoredValue : Z) (db : DB) : DB :=
  withTransactions db
    ((fun t => if tx_import_id t =? importId
               then mkTx (tx_id t) (tx_import_id t) (tx_date t)
                      (tx_description t) (tx_amount t) (tx_category_id t)
                      ignoredValue (tx_auto_ignored t) (tx_manual_category t)
               else t) <$> transactions db).

Definition undoImport (confirmed : bool) (importId : Z) (db : DB) : DB :=
  if negb confirmed then db else setImportIgnored importId 1 db.

Definition reactivateImport (confirmed : bool) (importId : Z) (db : DB)
    : DB :=
  if negb confirmed then db else setImportIgnored importId 0 db.

(** [deleteImport(importId, filename)]: the transactions of the import,
    then its record. *)
Definition deleteImport (confirmed : bool) (importId : Z) (db : DB) : DB :=
  if negb confirmed then db
  else
    withImports
      (withTransactions db
         (filter (fun t => tx_import_id t <> importId) (transactions db)))
      (filter (fun r => imp_id r <> importId) (imports db)).

Definition deleteImportRecord (confirmed : bool) (importId : Z) (db : DB)
    : DB :=
  if negb confirmed then db
  else withImports db (filter (fun r => imp_id r <> importId) (imports db)).

(** ** Import preview: the row loop of [updateImportPreview] *)

(** What the preview computes for one row: raw date, parsed date,
    description and amount. *)
Record PreviewRow : Type := mkPreviewRow {
  pv_rawDate : string;
  pv_parsed : option string;
  pv_description : string;
  pv_amount : JS.JSNumber
}.

(** [.filter(Boolean)] on cells *)
Definition keepTruthy (vals : list (option string)) : list string :=
  omap (fun v => match v with
                 | Some s => if JS.isEmpty s then None else Some s
                 | None => None
                 end) vals.

Section ImportPreview.

Variable browserDate : string -> option (Z * Z * Z).

(** The body of [rows.forEach(row => ...)] up to the HTML it emits; [cell]
    is as in [mapCells], [dateFormatChoice] the value of the date-format
    dropdown. *)
Definition previewCells (cell : string -> option string)
    (profile : BankProfile) (dateFormatChoice : string) : PreviewRow :=
  let rawDate := default EmptyString (cell (dateColumn profile)) in
  let description :=
    if JS.includesChar "," (descriptionColumn profile) then
      JS.join " "
        (keepTruthy
           (map (fun c => cell (JS.trim c))
              (JS.split "," (descriptionColumn profile))))
    else default EmptyString (cell (descriptionColumn profile)) in
  let amount :=
    if negb (JS.isEmpty (creditColumn profile))
       && negb (JS.isEmpty (debitColumn profile))
    then JS.sub (parseAmount (cell (creditColumn profile)))
           (parseAmount (cell (debitColumn profile)))
    else parseAmount (cell (amountColumn profile)) in
  mkPreviewRow rawDate (normalizeDate browserDate (Some rawDate) dateFormatChoice)
    description amount.

Definition previewRow (row : Row) (profile : BankProfile)
    (dateFormatChoice : string) : PreviewRow :=
  if hasHeader profile
  then previewCells (fun col => rowByName row col) profile dateFormatChoice
  else previewCells (fun col => rowByIndex row (JS.parseInt col)) profile
         dateFormatChoice.

(** The previewed rows, [result.data.slice(0, 5)], and the count
    [badDates] of rows whose parsed date is falsy. *)
Definition previewRows (data : list Row) (profile : BankProfile)
    (dateFormatChoice : string) : list PreviewRow :=
  (fun row => previewRow row profile dateFormatChoice) <$> take 5 data.

Definition badDates (rows : list PreviewRow) : nat :=
  length (filter (fun r => JS.truthy (pv_parsed r) = false) rows).

End ImportPreview.

(** ** Manual transactions: [addManualTransaction],
    [applyRulesToManualTransactions] *)

(** A row of [manual_transactions]. *)
Record ManualTx : Type := mkManualTx {
  m_id : Z;
  m_date : string;
  m_description : string;
  m_amount : JS.JSNumber;
  m_category_id : option Z
}.

(** [!a || isNaN(a) || a <= 0] *)
Definition notPositive (a : JS.JSNumber) : bool :=
  match a with
  | JS.Num q => Qle_bool q 0
  | JS.PosInf => false
  | JS.NegInf => true
  | JS.NaN => true
  end.

(** [addManualTransaction()]; the arguments are the values of the date,
    sign, amount and description fields. *)
Definition addManualTransaction (dateInput signInput amountInput
    descriptionInput : string) (db : DB) (manual : list ManualTx)
    : list ManualTx * (string * string) :=
  let amountRaw := JS.parseFloat amountInput in
  let description := JS.trim descriptionInput in
  if JS.isEmpty dateInput then (manual, ("error", "Please enter a date"))
  else if notPositive amountRaw
  then (manual, ("error", "Please enter a valid amount"))
  else if JS.isEmpty description
  then (manual, ("error", "Please enter a description"))
  else
    let amount :=
      if String.eqb signInput "-" then JS.neg (JS.abs amountRaw)
      else JS.abs amountRaw in
    let ruleResult := applyTransactionRules db description None in
    let categoryId :=
      if JS.isEmpty (resultCategory ruleResult) then None
      else categoryIdByName db (resultCategory ruleResult) in
    (manual ++
       [mkManualTx (nextId (m_id <$> manual)) dateInput description amount
          categoryId],
     ("success",
      "Transaction added"
        +:+ (if JS.isEmpty (resultCategory ruleResult) then EmptyString
             else " (categorized as " +:+ resultCategory ruleResult +:+ ")"))).

(** [UPDATE manual_transactions SET category_id = ? WHERE id = ?] on one
    row. *)
Definition manualCategory (id categoryId : Z) (m : ManualTx) : ManualTx :=
  if m_id m =? id
  then mkManualTx (m_id m) (m_date m) (m_description m) (m_amount m)
         (Some categoryId)
  else m.

(** The callback of [rows.forEach] in [applyRulesToManualTransactions];
    [row] is a row [(id, description)] of the query. *)
Definition reapplyManualRow (db : DB) (manual : list ManualTx)
    (row : Z * string) : list ManualTx :=
  let ruleResult := applyTransactionRules db (snd row) None in
  if JS.isEmpty (resultCategory ruleResult) then manual
  else
    match categoryIdByName db (resultCategory ruleResult) with
    | Some categoryId =>
        if categoryId =? 0 then manual
        else manualCategory (fst row) categoryId <$> manual
    | None => manual
    end.

Definition applyRulesToManualTransactions (confirmed : bool) (db : DB)
    (manual : list ManualTx) : list ManualTx :=
  if negb confirmed then manual
  else if (Z.of_nat (length (enabledRules db)) =? 0) then manual
  else foldl (reapplyManualRow db) manual
         ((fun m => (m_id m, m_description m)) <$> manual).

(** ** Bank profiles: [saveBankProfileToDB], [loadBankProfiles] *)

(** A row of [banks]. *)
Record BankRow : Type := mkBankRow {
  bank_id : Z;
  bank_name : string;
  has_header : Z;
  skip_rows : Z;
  date_column : string;
  description_column : string;
  amount_column : option string;
  credit_column : option string;
  debit_column : option string;
  date_format : option string
}.

(** An element of [bankProfiles]: the mapping fields with the profile's
    name and, once it is stored, its id. *)
Record StoredProfile : Type := mkStoredProfile {
  sp_id : option Z;
  sp_name : string;
  sp_profile : BankProfile
}.

(** The object [loadBankProfiles] builds from a row. *)
Definition profileOfRow (row : BankRow) : StoredProfile :=
  mkStoredProfile (Some (bank_id row)) (bank_name row)
    (mkProfile (has_header row =? 1) (skip_rows row) (date_column row)
       (description_column row)
       (default EmptyString (amount_column row))
       (default EmptyString (credit_column row))
       (default EmptyString (debit_column row))
       (JS.orElse (default EmptyString (date_format row)) "auto")).

(** The column values [saveBankProfileToDB] binds, for the row of id
    [id]. *)
Definition rowOfProfile (id : Z) (p : StoredProfile) : BankRow :=
  mkBankRow id (sp_name p)
    (if hasHeader (sp_profile p) then 1 else 0)
    (skipRows (sp_profile p))
    (dateColumn (sp_profile p)) (descriptionColumn (sp_profile p))
    (Some (amountColumn (sp_profile p)))
    (Some (creditColumn (sp_profile p)))
    (Some (debitColumn (sp_profile p)))
    (Some (JS.orElse (dateFormat (sp_profile p)) "auto")).

(** [profile.id] is truthy. *)
Definition storedId (p : StoredProfile) : option Z :=
  match sp_id p with
  | Some i => if i =? 0 then None else Some i
  | None => None
  end.

(** [saveBankProfileToDB(profile)] on the [banks] table: an [UPDATE] of
    the row of the profile's id, or an [INSERT].  The name column is
    [UNIQUE]: a statement that would give two rows one name throws, and
    [safeRun] leaves the table as it was. *)
Definition saveBankProfileToDB (p : StoredProfile) (banks : list BankRow)
    : list BankRow :=
  match storedId p with
  | Some i =>
      if bool_decide (i ∈ bank_id <$> banks)
         && bool_decide
              (sp_name p ∈ bank_name <$> filter (fun r => bank_id r <> i) banks)
      then banks
      else (fun r => if bank_id r =? i then rowOfProfile i p else r) <$> banks
  | None =>
      if bool_decide (sp_name p ∈ bank_name <$> banks) then banks
      else banks ++ [rowOfProfile (nextId (bank_id <$> banks)) p]
  end.

(** [ORDER BY name] *)
Definition bankOrder (r1 r2 : BankRow) : Prop :=
  String.le (bank_name r1) (bank_name r2).

#[global] Instance bankOrder_dec r1 r2 : Decision (bankOrder r1 r2).
Proof. unfold bankOrder. apply _. Defined.

(** The four profiles of [createDefaultProfiles]; they carry no
    [dateFormat], which reads as a falsy value. *)
Definition defaultProfiles : list StoredProfile :=
  [mkStoredProfile None "Chase"
     (mkProfile true 0 "Transaction Date" "Description" "Amount" "" "" "");
   mkStoredProfile None "Bank of America"
     (mkProfile true 0 "Date" "Description" "Amount" "" "" "");
   mkStoredProfile None "Wells Fargo"
     (mkProfile true 0 "Date" "Description" "Amount" "" "" "");
   mkStoredProfile None "Citibank (No Header)"
     (mkProfile false 0 "0" "2" "3" "" "" "")].

(** [loadBankProfiles()]: the table (filled with the defaults when it is
    empty) and the new value of [bankProfiles], with no profiles of an
    older version left in [localStorage] to migrate. *)
Definition loadBankProfiles (banks : list BankRow)
    : list BankRow * list StoredProfile :=
  let banks' :=
    match banks with
    | [] => foldl (fun b p => saveBankProfileToDB p b) banks defaultProfiles
    | _ => banks
    end in
  (banks', profileOfRow <$> merge_sort bankOrder banks').

(** ** Notions of the further properties *)

(** A candidate the [transactions] table accepts: its date is not null and
    its amount not NaN. *)
Definition storable (t : Transaction) : bool :=
  match date t, amount t with
  | None, _ | _, JS.NaN => false
  | Some _, _ => true
  end.

(** A category reference that is null or names a row of [categories]. *)
Definition categoryRefValid (db : DB) (ref : option Z) : Prop :=
  match ref with
  | None => True
  | Some i => i ∈ cat_id <$> categories db
  end.

(** A row as an import with record [importId] stores it. *)
Definition importedRow (db : DB) (importId : Z) (r : TxRow) : Prop :=
  tx_import_id r = importId
  /\ tx_manual_category r = 0 /\ tx_auto_ignored r = 0
  /\ (tx_ignored r = 0 \/ tx_ignored r = 1)
  /\ tx_amount r <> JS.NaN
  /\ categoryRefValid db (tx_category_id r).

(** The candidate a stored row comes from. *)
Definition storedFrom (db : DB) (t : Transaction) (r : TxRow) : Prop :=
  importedRow db (import_id t) r
  /\ Some (tx_date r) = date t
  /\ tx_amount r = amount t
  /\ tx_description r = Some (description t).

(** The value of the [transaction_count] column after an import, and the
    import record as [createImportRecord] and [updateImportCount] leave
    it. *)
Definition importRecord (db : DB) (name accountId : string) (count : Z)
    : ImportRow :=
  mkImport (nextId (imp_id <$> imports db)) name accountId count.


(** A store with one earlier import of two transactions. *)
Definition exampleHistoryStore : DB :=
  mkDB exampleCategories [exampleRule10]
    [exampleOverridden; exampleUnflagged] [mkImport 1 "old.csv" "1" 2].

(** A transaction row with another value of [ignored]. *)
Definition withIgnored (v : Z) (t : TxRow) : TxRow :=
  mkTx (tx_id t) (tx_import_id t) (tx_date t) (tx_description t)
    (tx_amount t) (tx_category_id t) v (tx_auto_ignored t)
    (tx_manual_category t).

(** Some enabled rule of the table with action [ignore] matches the
    description. *)
Definition ignoredByRule (db : DB) (description : string) : Prop :=
  exists r,
    r ∈ transaction_rules db /\ rule_enabled r = 1
    /\ rule_action r = "ignore"
    /\ ruleMatches (viewOf db r) description = true.

(** Some enabled rule of the table with action [categorize] matches the
    description and refers to the category of name [name]. *)
Definition categorizedByRule (db : DB) (description name : string) : Prop :=
  exists r,
    r ∈ transaction_rules db /\ rule_enabled r = 1
    /\ rule_action r = "categorize"
    /\ ruleMatches (viewOf db r) description = true
    /\ categoryNameById db (rule_category_value r) = Some name.

(** The category of id [n] has name [name]. *)
Definition categoryNamed (db : DB) (n : Z) (name : string) : Prop :=
  exists c, c ∈ categories db /\ cat_id c = n /\ cat_name c = name.

(** What a bulk re-application may do to a stored row [t], giving [t']:
    only the ignore flag and the category change; the flag is only ever
    raised, and by a matching ignore rule; the category only moves to an
    existing category that a matching categorize rule names, or to
    [Uncategorized] when the row has no named category. *)
Definition reappliedRow (db : DB) (t t' : TxRow) : Prop :=
  t' = mkTx (tx_id t) (tx_import_id t) (tx_date t) (tx_description t)
         (tx_amount t) (tx_category_id t') (tx_ignored t')
         (tx_auto_ignored t) (tx_manual_category t)
  /\ (tx_ignored t' = tx_ignored t
      \/ (tx_ignored t' = 1
          /\ ignoredByRule db (default EmptyString (tx_description t))))
  /\ (tx_category_id t' = tx_category_id t
      \/ exists n name,
          tx_category_id t' = Some n /\ n <> 0 /\ categoryNamed db n name
          /\ (categorizedByRule db (default EmptyString (tx_description t))
                name
              \/ (JS.truthy (categoryNameById db (tx_category_id t)) = false
                  /\ name = "Uncategorized"))).

(** A transaction row after a manual category choice. *)
Definition withManualCategory (categoryId : option Z) (t : TxRow) : TxRow :=
  mkTx (tx_id t) (tx_import_id t) (tx_date t) (tx_description t)
    (tx_amount t) categoryId (tx_ignored t) (tx_auto_ignored t) 1.

(** A number above zero, and one below. *)
Definition isPositive (a : JS.JSNumber) : bool :=
  match a with
  | JS.Num q => negb (Qle_bool q 0)
  | JS.PosInf => true
  | _ => false
  end.

Definition isNegative (a : JS.JSNumber) : bool :=
  match a with
  | JS.Num q => negb (Qle_bool 0 q)
  | JS.NegInf => true
  | _ => false
  end.

(** What the callback of [applyRulesToManualTransactions] for the row [row]
    of the query does to one stored row. *)
Definition manualRowUpdate (db : DB) (row : Z * string) (m : ManualTx)
    : ManualTx :=
  let ruleResult := applyTransactionRules db (snd row) None in
  if JS.isEmpty (resultCategory ruleResult) then m
  else
    match categoryIdByName db (resultCategory ruleResult) with
    | Some categoryId =>
        if categoryId =? 0 then m else manualCategory (fst row) categoryId m
    | None => m
    end.

(** A manual transaction after the current rules are applied to it: it
    moves to the category the rules resolve for its description, with no
    default category, when that category exists. *)
Definition manualUnderRules (db : DB) (m : ManualTx) : ManualTx :=
  match
    categoryIdByName db
      (resultCategory (applyTransactionRules db (m_description m) None))
  with
  | Some categoryId =>
      if categoryId =? 0 then m
      else mkManualTx (m_id m) (m_date m) (m_description m) (m_amount m)
             (Some categoryId)
  | None => m
  end.

(** A store with manual transactions: one filed under Food by hand whose
    description no rule matches, one that the rule for GROCERY matches. *)
Definition exampleManual : list ManualTx :=
  [mkManualTx 1 "2024-02-01" "CINEMA" (JS.Num (-12)) (Some 3);
   mkManualTx 2 "2024-02-02" "GROCERY CORNER" (JS.Num (-8)) None].

(** The explicit formats made of numeric tokens. *)
Definition numericFormats : list string :=
  ["YYYY-MM-DD"; "DD/MM/YYYY"; "MM/DD/YYYY"; "DD-MM-YYYY"; "MM-DD-YYYY";
   "DD/MM/YY"; "MM/DD/YY"].

(** [format.includes('/') ? '/' : '-'] *)
Definition separatorOf (f : string) : ascii :=
  if JS.includesChar "/" f then "/"%char else "-"%char.

(** Three parts with a separator between them. *)
Definition threeParts (sep : ascii) (a b c : string) : string :=
  a +:+ String sep (b +:+ String sep c).

(** Year, month and day as a numeric format reads them off the values of
    the three parts of a date, by the position of its tokens. *)
Definition readAs (f : string) (va vb vc : Z) : Z * Z * Z :=
  if String.eqb f "YYYY-MM-DD" then (va, vb, vc)
  else if String.eqb f "DD/MM/YYYY" || String.eqb f "DD-MM-YYYY"
  then (vc, vb, va)
  else if String.eqb f "MM/DD/YYYY" || String.eqb f "MM-DD-YYYY"
  then (vc, va, vb)
  else if String.eqb f "DD/MM/YY" then (pivot vc, vb, va)
  else (pivot vc, va, vb).

(** A profile as it comes back from the [banks] table: the same mapping,
    with an empty date format read as [auto]. *)
Definition reloadedProfile (p : BankProfile) : BankProfile :=
  mkProfile (hasHeader p) (skipRows p) (dateColumn p) (descriptionColumn p)
    (amountColumn p) (creditColumn p) (debitColumn p)
    (JS.orElse (dateFormat p) "auto").

(** The row [insertTransaction] stores for a candidate of date [d]. *)
Definition insertedRow (db : DB) (t : Transaction) (d : string) : TxRow :=
  let ruleResult :=
    applyTransactionRules db (description t) (Some (category t)) in
  let categoryName := JS.orElse (resultCategory ruleResult) "Uncategorized" in
  mkTx (nextId (tx_id <$> transactions db)) (import_id t) d
    (Some (description t)) (amount t)
    (if falsyNum (categoryIdByName db categoryName)
     then categoryIdByName db "Uncategorized"
     else categoryIdByName db categoryName)
    (if shouldIgnore ruleResult then 1 else 0) 0 0.

(** ** The outcome of an import call, file by file *)

(** The date format an import call works with:
    [dateFormat || profile.dateFormat || 'auto']. *)
Definition effectiveDateFormat (profile : BankProfile) (choice : string)
    : string :=
  JS.orElse choice (JS.orElse (dateFormat profile) "auto").



(** ** Column references and inherited properties *)

(** The names under which every JavaScript object finds a property of
    [Object.prototype]: for a row object, [row[name]] is then a function or
    an object when the file has no column of that name. *)
Definition inheritedProperties : list string :=
  ["constructor"; "hasOwnProperty"; "isPrototypeOf"; "propertyIsEnumerable";
   "toLocaleString"; "toString"; "valueOf"; "__proto__"; "__defineGetter__";
   "__defineSetter__"; "__lookupGetter__"; "__lookupSetter__"].

(** The description columns a profile refers to. *)
Definition descriptionReferences (profile : BankProfile) : list string :=
  if JS.includesChar "," (descriptionColumn profile)
  then JS.trim <$> JS.split "," (descriptionColumn profile)
  else [descriptionColumn profile].

(** The description of the row is read from cells of the file: under a
    header, every description column is a column of the row or at least no
    inherited property (on which [val.trim()] would fail).  Without a
    header the row is an array read by index, and this always holds. *)
Definition descriptionFromFile (row : Row) (profile : BankProfile) : Prop :=
  hasHeader profile = true ->
  Forall (fun c => is_Some (rowByName row c) \/ c ∉ inheritedProperties)
    (descriptionReferences profile).

(** A profile for files with a header and a credit/debit pair, and a row of
    such a file with a date and two unusable amount cells. *)
Definition exampleHeaderPairedProfile : BankProfile :=
  mkProfile true 0 "Date" "Description" "" "Credit" "Debit" "DD/MM/YYYY".

Definition exampleHeaderRow : Row :=
  HeaderedRow
    (list_to_map
       [("Date", "15/01/2024"); ("Description", "NOTE"); ("Credit", "");
        ("Debit", "n/a")]).

(** * Proofs *)

(** ** The model on the examples of the specification *)

Example parseFloat_ex1 : JS.parseFloat "3142.50" = JS.Num (6285 # 2).
Proof. reflexivity. Qed.

Example parseFloat_ex2 : JS.parseFloat " -45.20abc" = JS.Num (-226 # 5).
Proof. reflexivity. Qed.

Example parseFloat_ex3 : JS.parseFloat "" = JS.NaN /\ JS.parseFloat "." = JS.NaN
  /\ JS.parseFloat "abc" = JS.NaN /\ JS.parseFloat "-" = JS.NaN.
Proof. repeat split; reflexivity. Qed.

Example parseFloat_ex4 : JS.parseFloat ".5e1" = JS.Num 5
  /\ JS.parseFloat "5." = JS.Num 5 /\ JS.parseFloat "1e" = JS.Num 1
  /\ JS.parseFloat "12e-1x" = JS.Num (6 # 5)
  /\ JS.parseFloat "-Infinity" = JS.NegInf.
Proof. repeat split; reflexivity. Qed.

Example parseInt10_ex1 : JS.parseInt10 " 015abc" = Some 15.
Proof. reflexivity. Qed.

Example parseInt10_ex2 : JS.parseInt10 "-7" = Some (-7).
Proof. reflexivity. Qed.

Example parseInt10_ex3 : JS.parseInt10 "x1" = None.
Proof. reflexivity. Qed.

Example parseInt_hex : JS.parseInt "0x10" = Some 16.
Proof. reflexivity. Qed.

Example numToString_ex : JS.numToString 2024 = "2024" /\ JS.numToString 0 = "0"
  /\ JS.numToString (-5) = "-5".
Proof. repeat split; reflexivity. Qed.

Example split_ex : JS.split "/" "15/01/2024" = ["15"; "01"; "2024"]
  /\ JS.split "-" "" = [""] /\ JS.split "," "a,,b," = ["a"; ""; "b"; ""].
Proof. repeat split; reflexivity. Qed.

Example trim_ex : JS.trim "  a b  " = "a b" /\ JS.trim "   " = "".
Proof. repeat split; reflexivity. Qed.

Example normalize_pivot_50 f :
  normalizeDate f (Some "01/01/50") "MM/DD/YY" = Some "1950-01-01".
Proof. reflexivity. Qed.

Example normalize_pivot_49 f :
  normalizeDate f (Some "01/01/49") "MM/DD/YY" = Some "2049-01-01".
Proof. reflexivity. Qed.

Example normalize_iso_prefix f :
  normalizeDate f (Some "2024-01-15T00:00:00Z") "auto" = Some "2024-01-15".
Proof. reflexivity. Qed.

Example normalize_mon_auto f :
  normalizeDate f (Some "16-Feb-26") "auto" = Some "2026-02-16".
Proof. reflexivity. Qed.

Example normalize_invalid f :
  normalizeDate f (Some "not-a-date") "YYYY-MM-DD" = None.
Proof. reflexivity. Qed.

Example normalize_day_zero f :
  normalizeDate f (Some "0-Feb-26") "DD-Mon-YY" = Some "2026-02-00"
  /\ normalizeDate f (Some "2026-02-00") "YYYY-MM-DD" = None.
Proof. split; reflexivity. Qed.

Example normalize_negative f :
  normalizeDate f (Some "-5/1/2024") "DD/MM/YYYY" = Some "2024-01--5".
Proof. reflexivity. Qed.

Example blank_amount_rejected f :
  mapTransaction f (HeaderlessRow ["15/01/2024"; "GROCERY MART"; ""])
    exampleProfile 1 "" = None.
Proof. reflexivity. Qed.

Example end_to_end_import :
  processUploadedFiles noBrowserDate exampleProfile "1" "" [exampleFile]
    exampleRuleStore
  = mkOutcome JSUndefined
      (mkDB exampleCategories (transaction_rules exampleRuleStore)
         [mkTx 1 1 "2024-01-15" (Some "GROCERY MART") (JS.Num (-226 # 5))
            (Some 2) 0 0 0;
          mkTx 2 1 "2024-01-16" (Some "SALARY") (JS.Num 2000) (Some 1) 0 0 0]
         [mkImport 1 "a.csv" "1" 2])
      ("success", "Imported 2 transactions from 1 file(s)").
Proof. reflexivity. Qed.

(** ** Strings *)

Lemma app_cons c s t : String c s +:+ t = String c (s +:+ t).
Proof. reflexivity. Qed.

Lemma app_empty_l s : EmptyString +:+ s = s.
Proof. reflexivity. Qed.

Lemma app_empty_r s : s +:+ EmptyString = s.
Proof. induction s as [|c s IH]; [reflexivity|]. by rewrite app_cons, IH. Qed.

Lemma app_assoc_str s t u : (s +:+ t) +:+ u = s +:+ (t +:+ u).
Proof.
  induction s as [|c s IH]; [reflexivity|]. by rewrite !app_cons, IH.
Qed.

(** ** The match pattern (C6) *)

Section WordBoundary.

Variable ignoreCase : bool.
Variable kw : string.

Lemma matchKeyword_sound s r :
  matchKeyword ignoreCase kw s = Some r ->
  exists mid, s = mid +:+ r /\ sameText ignoreCase kw mid = true.
Proof.
  revert s. induction kw as [|k kw' IH]; intros s H.
  - exists EmptyString. simpl in H. destruct s; inversion H; auto.
  - destruct s as [|c s']; simpl in H; [discriminate|].
    destruct (charMatches ignoreCase k c) eqn:Hc; [|discriminate].
    destruct (IH _ H) as (mid & -> & Hm).
    exists (String c mid). split; [reflexivity|]. simpl. by rewrite Hc.
Qed.

Lemma matchKeyword_complete mid r :
  sameText ignoreCase kw mid = true ->
  matchKeyword ignoreCase kw (mid +:+ r) = Some r.
Proof.
  revert mid. induction kw as [|k kw' IH]; intros mid H.
  - destruct mid; [|discriminate]. simpl. by destruct r.
  - destruct mid as [|c mid']; [discriminate|]. simpl in H.
    apply andb_prop in H as [Hc Hm]. rewrite app_cons. simpl.
    rewrite Hc. by apply IH.
Qed.

Lemma closesWord_boundary post :
  closesWord post = true <-> rightBoundary post.
Proof.
  unfold rightBoundary. destruct post as [|c p]; simpl.
  - split; auto.
  - rewrite negb_true_iff. split.
    + intros H. right. by exists c, p.
    + intros [H | (c' & p' & H & Hw)]; [discriminate|]. by inversion H; subst.
Qed.

Lemma keywordThenBoundary_spec s :
  keywordThenBoundary ignoreCase kw s = true <->
  exists mid post, s = mid +:+ post
    /\ sameText ignoreCase kw mid = true /\ rightBoundary post.
Proof.
  unfold keywordThenBoundary. split.
  - destruct (matchKeyword ignoreCase kw s) as [r|] eqn:Hm; [|discriminate].
    intros Hc. destruct (matchKeyword_sound _ _ Hm) as (mid & -> & Hs).
    exists mid, r. by rewrite <- closesWord_boundary.
  - intros (mid & post & -> & Hs & Hb).
    rewrite (matchKeyword_complete _ _ Hs). by apply closesWord_boundary.
Qed.

Lemma searchFrom_spec atStart s :
  searchFrom ignoreCase kw atStart s = true <->
  exists pre mid post, s = pre +:+ mid +:+ post
    /\ sameText ignoreCase kw mid = true
    /\ boundaryFor atStart pre /\ rightBoundary post.
Proof.
  revert atStart. induction s as [|c s IH]; intros atStart.
  - cbn [searchFrom]. unfold matchesAt. rewrite !orb_false_r, andb_true_iff.
    rewrite keywordThenBoundary_spec. split.
    + intros [-> (mid & post & E & Hs & Hb)].
      exists EmptyString, mid, post. repeat split; auto. by left.
    + intros (pre & mid & post & E & Hs & Hp & Hb).
      destruct pre as [|? ?]; [|discriminate].
      destruct Hp as [[_ ->] | (p & c & E' & _)].
      * split; [reflexivity|]. by exists mid, post.
      * destruct p; discriminate.
  - cbn [searchFrom]. unfold matchesAt.
    rewrite !orb_true_iff, !andb_true_iff.
    rewrite !keywordThenBoundary_spec, negb_true_iff, IH. split.
    + intros [[[-> (mid & post & E & Hs & Hb)]
              | [Hw (mid & post & E & Hs & Hb)]]
             | (pre & mid & post & E & Hs & Hp & Hb)].
      * exists EmptyString, mid, post. repeat split; auto. by left.
      * exists (String c EmptyString), mid, post. subst s.
        repeat split; auto. right. by exists EmptyString, c.
      * destruct Hp as [[_ ?] | (p & d & -> & Hd)]; [discriminate|].
        exists (String c (p +:+ String d EmptyString)), mid, post.
        subst s. repeat split; auto. right. by exists (String c p), d.
    + intros (pre & mid & post & E & Hs & Hp & Hb).
      destruct Hp as [[-> ->] | (p & d & -> & Hd)].
      * left; left. split; [reflexivity|]. by exists mid, post.
      * destruct p as [|c' p].
        -- rewrite app_empty_l, app_cons, app_empty_l in E.
           inversion E; subst. left; right. split; [done|].
           by exists mid, post.
        -- rewrite !app_cons in E. inversion E; subst. right.
           exists (p +:+ String d EmptyString), mid, post.
           repeat split; auto. right. by exists p, d.
Qed.

End WordBoundary.

(** C6: a rule matches a description exactly when the description holds an
    occurrence of the keyword with start-of-string or a non-word character
    on its left and end-of-string or a non-word character on its right; the
    occurrence is compared exactly when the rule's case flag is set and up
    to letter case otherwise.  Keyword CAT does not match CATALOG PURCHASE
    and matches CAT FOOD. *)
Theorem rule_match_word_boundary :
  (forall rule description,
      ruleMatches rule description = true <->
      flankedOccurrence (caseSensitive rule =? 0) (keyword rule) description)
  /\ (forall kw mid, sameText false kw mid = true <-> mid = kw)
  /\ (forall kw mid,
        sameText true kw mid = true <->
        JS.mapChars JS.canonicalize mid = JS.mapChars JS.canonicalize kw)
  /\ (forall act cat cs,
        ruleMatches (mkRuleView "CAT" act cat cs) "CATALOG PURCHASE" = false
        /\ ruleMatches (mkRuleView "CAT" act cat cs) "CAT FOOD" = true
        /\ ruleMatches (mkRuleView "cat" act cat cs) "CAT FOOD" = (cs =? 0)).
Proof.
  split; [|split; [|split]].
  - intros rule description. unfold ruleMatches, flankedOccurrence.
    rewrite searchFrom_spec. split.
    + intros (pre & mid & post & E & Hs & Hp & Hb).
      exists pre, mid, post. repeat split; auto.
      destruct Hp as [[-> _] | Hp]; [by left | by right].
    + intros (pre & mid & post & E & Hs & Hp & Hb).
      exists pre, mid, post. repeat split; auto.
      destruct Hp as [-> | Hp]; [by left | by right].
  - induction kw as [|k kw IH]; intros [|c mid]; simpl; try (split; congruence).
    rewrite andb_true_iff, IH, Ascii.eqb_eq. split.
    + by intros [-> ->].
    + intros H. by inversion H.
  - induction kw as [|k kw IH]; intros [|c mid]; simpl; try (split; congruence).
    rewrite andb_true_iff, IH, Ascii.eqb_eq. split.
    + by intros [-> ->].
    + intros H. by inversion H.
  - intros act cat cs. unfold ruleMatches. simpl.
    destruct (cs =? 0); repeat split; vm_compute; reflexivity.
Qed.

(** ** The scan (C7) *)

Section Scan.

Variable description : string.

(** Once both flags are set no rule changes the state. *)
Lemma applyRule_both_set rule st :
  ignoreRuleMatched st = true -> categoryRuleMatched st = true ->
  applyRule rule st = st.
Proof.
  intros Hi Hc. unfold applyRule.
  by rewrite Hi, Hc, !andb_false_r.
Qed.

Lemma scanAllRules_both_set rules st :
  ignoreRuleMatched st = true -> categoryRuleMatched st = true ->
  scanAllRules description rules st = st.
Proof.
  intros Hi Hc. induction rules as [|rule rest IH]; [reflexivity|].
  simpl. destruct (ruleMatches rule description); [|exact IH].
  by rewrite applyRule_both_set.
Qed.

(** The [break] is an optimisation. *)
Lemma scanRules_scanAllRules rules st :
  scanRules description rules st = scanAllRules description rules st.
Proof.
  revert st. induction rules as [|rule rest IH]; intros st; [reflexivity|].
  simpl. destruct (ruleMatches rule description); [|apply IH].
  destruct (ignoreRuleMatched (applyRule rule st)
            && categoryRuleMatched (applyRule rule st)) eqn:Hb.
  - apply andb_prop in Hb as [Hi Hc]. by rewrite scanAllRules_both_set.
  - apply IH.
Qed.

Lemma action_not_both a :
  String.eqb a "ignore" = true -> String.eqb a "categorize" = false.
Proof. intros ->%String.eqb_eq. reflexivity. Qed.

(** The state after a full scan, slot by slot. *)
Lemma scanAllRules_slots rules st :
  scanAllRules description rules st =
  mkScan
    (if ignoreRuleMatched st then s_shouldIgnore st
     else ignoreSlot rules description || s_shouldIgnore st)
    (if categoryRuleMatched st then s_category st
     else categorySlot rules description (s_category st))
    (ignoreRuleMatched st || ignoreSlot rules description)
    (categoryRuleMatched st
     || existsb (categorizeHit description) rules).
Proof.
  revert st. induction rules as [|rule rest IH]; intros [si cat im cm].
  - simpl. unfold ignoreSlot, categorySlot. simpl.
    rewrite !orb_false_r. by destruct im, cm.
  - simpl. rewrite IH. unfold ignoreSlot, categorySlot, ignoreHit,
      categorizeHit, applyRule. simpl.
    destruct (ruleMatches rule description); simpl; [|reflexivity].
    destruct (String.eqb (action rule) "ignore") eqn:Ha; simpl.
    + rewrite (action_not_both _ Ha). simpl.
      destruct im; simpl; rewrite ?orb_true_r; reflexivity.
    + destruct (String.eqb (action rule) "categorize"); simpl;
        [|reflexivity].
      destruct cm; simpl.
      * rewrite ?orb_true_r. reflexivity.
      * destruct (JS.truthy (categoryValue rule)); simpl;
          rewrite ?orb_true_r; reflexivity.
Qed.

End Scan.

(** The result of rule resolution, slot by slot. *)
Lemma applyRules_slots rules description defaultCategory :
  applyRules rules description defaultCategory =
  if JS.isEmpty description
  then mkRuleResult false (fallbackOf defaultCategory)
  else mkRuleResult (ignoreSlot rules description)
         (categorySlot rules description (fallbackOf defaultCategory)).
Proof.
  unfold applyRules. fold (fallbackOf defaultCategory).
  destruct (JS.isEmpty description); [reflexivity|].
  destruct rules as [|rule rest]; [reflexivity|].
  rewrite scanRules_scanAllRules, scanAllRules_slots. simpl.
  by rewrite orb_false_r.
Qed.

(** C7: rule resolution fills two independent slots, each first match wins
    in the order of the rule list: some matching ignore rule sets ignore,
    the first matching categorize rule that has a category sets the
    category (else the fallback stays); one description can fill both; and
    the scan with the early stop returns what the full scan returns. *)
Theorem rule_slots_independent :
  (forall rules description defaultCategory,
      applyRules rules description defaultCategory =
      if JS.isEmpty description
      then mkRuleResult false (fallbackOf defaultCategory)
      else mkRuleResult (ignoreSlot rules description)
             (categorySlot rules description (fallbackOf defaultCategory)))
  /\ (forall description rules st,
        scanRules description rules st = scanAllRules description rules st)
  /\ (forall defaultCategory,
        applyRules [mkRuleView "FEE" "ignore" None 0;
                    mkRuleView "BANK" "categorize" (Some "Banking") 0]
          "BANK FEE" defaultCategory = mkRuleResult true "Banking"
        /\ applyRules [mkRuleView "BANK" "categorize" (Some "Banking") 0;
                       mkRuleView "FEE" "ignore" None 0]
             "BANK FEE" defaultCategory = mkRuleResult true "Banking").
Proof.
  split; [|split].
  - apply applyRules_slots.
  - intros. apply scanRules_scanAllRules.
  - intros defaultCategory. split; reflexivity.
Qed.

(** ** The rule query (C8) *)

#[global] Instance ruleOrder_trans : Transitive ruleOrder.
Proof. intros x y z. unfold ruleOrder. lia. Qed.

#[global] Instance ruleOrder_total : Total ruleOrder.
Proof. intros x y. unfold ruleOrder. lia. Qed.

(** Rows of a table with a key column are told apart by the key. *)
Lemma NoDup_key_inj {A} (key : A -> Z) (l : list A) x y :
  NoDup (key <$> l) -> x ∈ l -> y ∈ l -> key x = key y -> x = y.
Proof.
  induction l as [|a l IH]; intros Hnd Hx Hy E; [by inversion Hx|].
  rewrite fmap_cons in Hnd. apply NoDup_cons in Hnd as [Ha Hnd].
  apply elem_of_cons in Hx as [->|Hx]; apply elem_of_cons in Hy as [->|Hy].
  - reflexivity.
  - exfalso. apply Ha. rewrite E. by apply list_elem_of_fmap_2.
  - exfalso. apply Ha. rewrite <- E. by apply list_elem_of_fmap_2.
  - by apply IH.
Qed.

Lemma enabledRules_elem db r :
  r ∈ enabledRules db <-> r ∈ transaction_rules db /\ rule_enabled r = 1.
Proof. unfold enabledRules. rewrite list_elem_of_filter. tauto. Qed.

(** The rows the query walks: sorted, and exactly the enabled rules. *)
Lemma sorted_rules_spec db :
  StronglySorted ruleOrder (merge_sort ruleOrder (enabledRules db))
  /\ merge_sort ruleOrder (enabledRules db) ≡ₚ enabledRules db.
Proof.
  split; [apply StronglySorted_merge_sort; apply _|].
  apply merge_sort_Permutation.
Qed.

(** The order in which the table holds its rows does not show in the
    query's result. *)
Lemma rulesQuery_permutation db db' :
  categories db = categories db' ->
  transaction_rules db ≡ₚ transaction_rules db' ->
  NoDup (rule_id <$> transaction_rules db) ->
  rulesQuery db = rulesQuery db'.
Proof.
  intros Hc Hp Hnd. unfold rulesQuery.
  assert (Hen : enabledRules db ≡ₚ enabledRules db').
  { unfold enabledRules. by rewrite Hp. }
  assert (Hs : merge_sort ruleOrder (enabledRules db)
               = merge_sort ruleOrder (enabledRules db')).
  { apply (StronglySorted_unique_strong ruleOrder).
    - intros x1 x2 H1 H2 R12 R21.
      rewrite merge_sort_Permutation in H1, H2. rewrite <- Hen in H2.
      apply enabledRules_elem in H1 as [H1 _], H2 as [H2 _].
      apply (NoDup_key_inj rule_id (transaction_rules db)); auto.
      unfold ruleOrder in R12, R21. lia.
    - apply sorted_rules_spec.
    - apply sorted_rules_spec.
    - by rewrite !merge_sort_Permutation. }
  rewrite Hs. apply list_fmap_ext. intros i r _.
  unfold viewOf, categoryNameById. by rewrite Hc.
Qed.

(** A table of two enabled rules is walked with the rule that the order
    puts first in front, however it is stored. *)
Lemma sorted_two_rules cats txs imps hi lo rules :
  ruleOrder hi lo -> ~ ruleOrder lo hi ->
  rule_enabled hi = 1 -> rule_enabled lo = 1 ->
  rules = [lo; hi] \/ rules = [hi; lo] ->
  merge_sort ruleOrder (enabledRules (mkDB cats rules txs imps)) = [hi; lo].
Proof.
  intros H1 H2 Hh Hl Hr.
  assert (He : enabledRules (mkDB cats rules txs imps) = rules).
  { unfold enabledRules. simpl. destruct Hr as [-> | ->];
      rewrite !filter_cons, filter_nil; repeat case_decide; done. }
  rewrite He.
  destruct Hr as [-> | ->]; cbv [merge_sort merge_sort_aux
    merge_list_to_stack merge_stack list_merge]; repeat case_decide; done.
Qed.

(** C8: the rule query returns the enabled rules and only them, ordered by
    priority descending and, among equal priorities, by id ascending; the
    result of rule resolution does not depend on the order in which the
    rule table holds its rows; and of two enabled rules the one the order
    puts first (priority 10 before priority 5) gives the category when it
    is a matching categorize rule. *)
Theorem rules_enabled_priority_order :
  (forall db, exists l,
      rulesQuery db = viewOf db <$> l
      /\ StronglySorted ruleOrder l
      /\ forall r, r ∈ l <-> r ∈ transaction_rules db /\ rule_enabled r = 1)
  /\ (forall r1 r2,
        ruleOrder r1 r2 <->
        rule_priority r2 < rule_priority r1
        \/ (rule_priority r1 = rule_priority r2 /\ rule_id r1 <= rule_id r2))
  /\ (forall db db' description defaultCategory,
        categories db = categories db' ->
        transaction_rules db ≡ₚ transaction_rules db' ->
        NoDup (rule_id <$> transaction_rules db) ->
        applyTransactionRules db description defaultCategory
        = applyTransactionRules db' description defaultCategory)
  /\ (forall cats txs imps hi lo rules description defaultCategory,
        rule_priority lo < rule_priority hi
        \/ (rule_priority lo = rule_priority hi /\ rule_id hi < rule_id lo) ->
        rule_enabled hi = 1 -> rule_enabled lo = 1 ->
        rules = [lo; hi] \/ rules = [hi; lo] ->
        JS.isEmpty description = false ->
        categorizeHit description (viewOf (mkDB cats rules txs imps) hi)
        = true ->
        resultCategory
          (applyTransactionRules (mkDB cats rules txs imps) description
             defaultCategory)
        = default EmptyString
            (categoryValue (viewOf (mkDB cats rules txs imps) hi))).
Proof.
  split; [|split; [|split]].
  - intros db. exists (merge_sort ruleOrder (enabledRules db)).
    split; [reflexivity|]. split; [apply sorted_rules_spec|].
    intros r. rewrite merge_sort_Permutation. apply enabledRules_elem.
  - intros r1 r2. reflexivity.
  - intros db db' description defaultCategory Hc Hp Hnd.
    unfold applyTransactionRules. by rewrite (rulesQuery_permutation db db').
  - intros cats txs imps hi lo rules description defaultCategory
      Hord Hh Hl Hr Hne Hhit.
    unfold applyTransactionRules, rulesQuery.
    rewrite (sorted_two_rules cats txs imps hi lo rules); auto;
      [|unfold ruleOrder; lia|unfold ruleOrder; lia].
    rewrite applyRules_slots, Hne. simpl. unfold categorySlot. simpl.
    by rewrite Hhit.
Qed.

(** The rule table of the example: two categorize rules for one keyword,
    priorities 5 and 10, stored in either order. *)
Lemma rules_enabled_priority_order_witness :
  applyTransactionRules
    (mkDB exampleCategories [exampleRule5; exampleRule10] [] [])
    "GROCERY MART" None
  = applyTransactionRules
      (mkDB exampleCategories [exampleRule10; exampleRule5] [] [])
      "GROCERY MART" None
  /\ resultCategory
       (applyTransactionRules
          (mkDB exampleCategories [exampleRule5; exampleRule10] [] [])
          "GROCERY MART" None)
     = "Groceries"
  /\ resultCategory
       (applyTransactionRules
          (mkDB exampleCategories [exampleRule10; exampleRule5] [] [])
          "GROCERY MART" None)
     = "Groceries".
Proof.
  destruct rules_enabled_priority_order as (_ & _ & Hperm & Hprio).
  split; [|split].
  - apply Hperm; [reflexivity | apply perm_swap | compute_done].
  - apply (Hprio exampleCategories [] [] exampleRule10 exampleRule5
             [exampleRule5; exampleRule10] "GROCERY MART" None);
      [left; simpl; lia | reflexivity | reflexivity | by left
      | reflexivity | reflexivity].
  - apply (Hprio exampleCategories [] [] exampleRule10 exampleRule5
             [exampleRule10; exampleRule5] "GROCERY MART" None);
      [left; simpl; lia | reflexivity | reflexivity | by right
      | reflexivity | reflexivity].
Defined.

(** ** Bulk re-categorisation (C5) *)

Section Reapply.

(** The database the operation starts from: its rule and category tables
    stay as they are while the transactions are updated. *)
Variable cfg : DB.

Lemma sameConfig_withTransactions db ts :
  sameConfig cfg db -> sameConfig cfg (withTransactions db ts).
Proof. intros [H1 H2]. by split. Qed.

Lemma applyTransactionRules_sameConfig db d c :
  sameConfig cfg db ->
  applyTransactionRules db d c = applyTransactionRules cfg d c.
Proof.
  intros [H1 H2]. unfold applyTransactionRules, rulesQuery, enabledRules.
  rewrite H2. f_equal. apply list_fmap_ext. intros i r _.
  unfold viewOf, categoryNameById. by rewrite H1.
Qed.

Lemma categoryIdByName_sameConfig db n :
  sameConfig cfg db -> categoryIdByName db n = categoryIdByName cfg n.
Proof. intros [H1 _]. unfold categoryIdByName. by rewrite H1. Qed.

Lemma withTransactions_same db : withTransactions db (transactions db) = db.
Proof. by destruct db. Qed.

Lemma withTransactions_twice db ts ts' :
  withTransactions (withTransactions db ts) ts' = withTransactions db ts'.
Proof. reflexivity. Qed.

Lemma reapplyRow_map db v :
  sameConfig cfg db ->
  reapplyRow db v = withTransactions db (updRow cfg v <$> transactions db).
Proof.
  intros Hc. unfold reapplyRow, updRow.
  destruct (v_manual_category v =? 1).
  { by rewrite list_fmap_id, withTransactions_same. }
  rewrite (applyTransactionRules_sameConfig db _ _ Hc).
  set (r := applyTransactionRules cfg _ _).
  assert (Hid : forall d, sameConfig cfg d ->
            categoryIdByName d (resultCategory r)
            = categoryIdByName cfg (resultCategory r))
    by (intros; by apply categoryIdByName_sameConfig).
  destruct (shouldIgnore r).
  - rewrite (Hid (setIgnored db (v_id v)))
      by (by apply sameConfig_withTransactions).
    destruct (bool_decide _); [reflexivity|].
    destruct (categoryIdByName cfg (resultCategory r)) as [n|];
      [|reflexivity].
    destruct (n =? 0); [reflexivity|].
    unfold setCategory, setIgnored. simpl.
    by rewrite <- list_fmap_compose.
  - rewrite (Hid db Hc).
    destruct (bool_decide _);
      [by rewrite list_fmap_id, withTransactions_same|].
    destruct (categoryIdByName cfg (resultCategory r)) as [n|];
      [|by rewrite list_fmap_id, withTransactions_same].
    destruct (n =? 0);
      [by rewrite list_fmap_id, withTransactions_same|reflexivity].
Qed.

Lemma foldl_reapplyRow vs db :
  sameConfig cfg db ->
  foldl reapplyRow db vs
  = withTransactions db
      ((fun t => foldl (fun t v => updRow cfg v t) t vs) <$> transactions db).
Proof.
  revert db. induction vs as [|v vs IH]; intros db Hc.
  - simpl. by rewrite list_fmap_id, withTransactions_same.
  - simpl. rewrite (reapplyRow_map db v Hc).
    rewrite IH by (by apply sameConfig_withTransactions).
    rewrite withTransactions_twice. simpl.
    by rewrite <- list_fmap_compose.
Qed.

Lemma rowIgnored_id transId t : tx_id (rowIgnored transId t) = tx_id t.
Proof. unfold rowIgnored. by destruct (tx_id t =? transId). Qed.

Lemma rowCategory_id transId n t : tx_id (rowCategory transId n t) = tx_id t.
Proof. unfold rowCategory. by destruct (tx_id t =? transId). Qed.

Lemma rowIgnored_other transId t :
  tx_id t <> transId -> rowIgnored transId t = t.
Proof. intros H. unfold rowIgnored. by rewrite (proj2 (Z.eqb_neq _ _) H). Qed.

Lemma rowCategory_other transId n t :
  tx_id t <> transId -> rowCategory transId n t = t.
Proof. intros H. unfold rowCategory. by rewrite (proj2 (Z.eqb_neq _ _) H). Qed.

Lemma updRow_other v t : tx_id t <> v_id v -> updRow cfg v t = t.
Proof.
  intros H. unfold updRow.
  repeat (case_match; try reflexivity);
    rewrite ?rowCategory_other, ?rowIgnored_other; auto;
    by rewrite ?rowIgnored_other.
Qed.

Lemma foldl_updRow_other (l : list TxRow) t :
  tx_id t ∉ tx_id <$> l ->
  foldl (fun t v => updRow cfg v t) t (txViewOf cfg <$> l) = t.
Proof.
  revert t. induction l as [|a l IH]; intros t H; [reflexivity|].
  rewrite fmap_cons in H. apply not_elem_of_cons in H as [Ha Hl].
  simpl. rewrite updRow_other by done. by apply IH.
Qed.

(** The row's own pass: a flagged row is skipped, any other row becomes
    [updatedByRules]. *)
Lemma updRow_own t :
  updRow cfg (txViewOf cfg t) t
  = if tx_manual_category t =? 1 then t else updatedByRules cfg t.
Proof.
  unfold updRow, updatedByRules, txViewOf. simpl.
  destruct (tx_manual_category t =? 1); [reflexivity|].
  set (r := applyTransactionRules cfg _ _).
  unfold rowIgnored, rowCategory.
  destruct t as [i im d de a c ig ai m]. simpl. rewrite !Z.eqb_refl.
  destruct (shouldIgnore r); simpl; rewrite ?Z.eqb_refl;
    destruct (bool_decide _); try reflexivity;
    destruct (categoryIdByName cfg (resultCategory r)) as [n|];
    try reflexivity; destruct (n =? 0); simpl; rewrite ?Z.eqb_refl;
    reflexivity.
Qed.

Lemma updRow_own_id t : tx_id (updRow cfg (txViewOf cfg t) t) = tx_id t.
Proof.
  rewrite updRow_own. by destruct (tx_manual_category t =? 1).
Qed.

Lemma foldl_updRow_own (l : list TxRow) t :
  NoDup (tx_id <$> l) -> t ∈ l ->
  foldl (fun t v => updRow cfg v t) t (txViewOf cfg <$> l)
  = updRow cfg (txViewOf cfg t) t.
Proof.
  induction l as [|a l IH]; intros Hnd Hin; [by inversion Hin|].
  rewrite fmap_cons in Hnd. apply NoDup_cons in Hnd as [Ha Hnd].
  simpl. apply elem_of_cons in Hin as [->|Hin].
  - apply foldl_updRow_other. by rewrite updRow_own_id.
  - rewrite updRow_other; [by apply IH|].
    simpl. intros E. apply Ha. rewrite <- E.
    by apply list_elem_of_fmap_2.
Qed.

End Reapply.

Lemma applyRulesToExisting_rows confirmed db :
  NoDup (tx_id <$> transactions db) ->
  applyRulesToExisting confirmed db
  = if confirmed && negb (bool_decide (enabledRules db = []))
    then withTransactions db
           ((fun t => if tx_manual_category t =? 1 then t
                      else updatedByRules db t) <$> transactions db)
    else db.
Proof.
  intros Hnd. unfold applyRulesToExisting.
  destruct confirmed; [|reflexivity]. simpl.
  destruct (enabledRules db) as [|r rs] eqn:He; [reflexivity|].
  simpl length. replace (Z.of_nat (S (length rs)) =? 0) with false
    by (symmetry; apply Z.eqb_neq; lia).
  rewrite bool_decide_eq_false_2 by done. simpl.
  rewrite (foldl_reapplyRow db) by (by split). f_equal.
  apply list_fmap_ext. intros i t Ht.
  rewrite (foldl_updRow_own db) by (by eauto using list_elem_of_lookup_2).
  apply updRow_own.
Qed.

(** C5: a bulk re-application of the rules leaves every stored transaction
    whose manual-override flag is set exactly as it was (category and
    ignored included), and gives every other transaction the ignore flag
    and category the current rules resolve for it; the rule and category
    tables are not touched.  Transaction ids are the table's primary
    key. *)
Theorem manual_override_protected (confirmed : bool) (db : DB) :
  NoDup (tx_id <$> transactions db) ->
  categories (applyRulesToExisting confirmed db) = categories db
  /\ transaction_rules (applyRulesToExisting confirmed db)
     = transaction_rules db
  /\ forall i t,
       transactions db !! i = Some t ->
       (tx_manual_category t = 1 ->
        transactions (applyRulesToExisting confirmed db) !! i = Some t)
       /\ (tx_manual_category t <> 1 -> confirmed = true ->
           enabledRules db <> [] ->
           transactions (applyRulesToExisting confirmed db) !! i
           = Some (updatedByRules db t)).
Proof.
  intros Hnd. rewrite (applyRulesToExisting_rows confirmed db Hnd).
  destruct (confirmed && negb (bool_decide (enabledRules db = []))) eqn:Hgo.
  - split; [reflexivity|]. split; [reflexivity|]. intros i t Ht. simpl.
    rewrite list_lookup_fmap, Ht. simpl. split.
    + intros ->. reflexivity.
    + intros Hm _ _. by rewrite (proj2 (Z.eqb_neq _ _) Hm).
  - split; [reflexivity|]. split; [reflexivity|]. intros i t Ht. split.
    + by intros _.
    + intros _ -> Hne. simpl in Hgo.
      by rewrite bool_decide_eq_false_2 in Hgo.
Qed.

(** A store with one overridden and one unflagged transaction: the first
    keeps its category, the second moves to the rule's category. *)
Lemma manual_override_protected_witness :
  transactions (applyRulesToExisting true exampleStore) !! 0%nat
  = Some exampleOverridden
  /\ transactions (applyRulesToExisting true exampleStore) !! 1%nat
     = Some (mkTx 2 1 "2024-01-16" (Some "GROCERY STORE") (JS.Num (-20))
               (Some 2) 0 0 0).
Proof.
  assert (Hnd : NoDup (tx_id <$> transactions exampleStore))
    by compute_done.
  destruct (manual_override_protected true exampleStore Hnd) as (_ & _ & H).
  split.
  - apply (H 0%nat exampleOverridden); reflexivity.
  - apply (H 1%nat exampleUnflagged); [reflexivity | by compute | reflexivity
                                      | by compute].
Defined.

(** ** Decimal digits *)

Lemma digit_cases d :
  0 <= d <= 9 ->
  d = 0 \/ d = 1 \/ d = 2 \/ d = 3 \/ d = 4 \/ d = 5 \/ d = 6 \/ d = 7
  \/ d = 8 \/ d = 9.
Proof. lia. Qed.

Lemma digitChar_spec d :
  0 <= d <= 9 ->
  JS.isDigit (JS.digitChar d) = true /\ JS.digitVal (JS.digitChar d) = d.
Proof.
  intros H. destruct (digit_cases d H) as [->|[->|[->|[->|[->|[->|[->|[->|[->
    | ->]]]]]]]]]; split; reflexivity.
Qed.

Lemma readDigits_app s t acc :
  JS.allChars JS.isDigit s = true ->
  JS.readDigits acc (s +:+ t) = JS.readDigits (JS.readDigits acc s) t.
Proof.
  revert acc. induction s as [|c s IH]; intros acc H; [reflexivity|].
  simpl in H. apply andb_prop in H as [Hc Hs].
  rewrite app_cons. simpl. rewrite Hc. by apply IH.
Qed.

Lemma allChars_app p s t :
  JS.allChars p (s +:+ t) = JS.allChars p s && JS.allChars p t.
Proof.
  induction s as [|c s IH]; [reflexivity|].
  rewrite app_cons. simpl. by rewrite IH, andb_assoc.
Qed.

Lemma digitsAux_app fuel n acc :
  JS.digitsAux fuel n acc = JS.digitsAux fuel n EmptyString +:+ acc.
Proof.
  revert n acc. induction fuel as [|k IH]; intros n acc; [reflexivity|].
  simpl. destruct (n / 10 =? 0); [reflexivity|].
  rewrite (IH _ (String _ acc)), (IH _ (String _ EmptyString)).
  by rewrite app_assoc_str.
Qed.

Lemma digitsAux_spec fuel n :
  (0 < fuel)%nat -> 0 <= n < 10 ^ Z.of_nat fuel ->
  JS.allChars JS.isDigit (JS.digitsAux fuel n EmptyString) = true
  /\ JS.isEmpty (JS.digitsAux fuel n EmptyString) = false
  /\ JS.readDigits None (JS.digitsAux fuel n EmptyString) = Some n.
Proof.
  revert n. induction fuel as [|k IH]; intros n Hf Hn; [lia|].
  assert (Hd : 0 <= n mod 10 <= 9) by (pose proof (Z.mod_pos_bound n 10); lia).
  destruct (digitChar_spec _ Hd) as [Hdig Hval].
  simpl. destruct (n / 10 =? 0) eqn:Hq.
  - apply Z.eqb_eq in Hq. simpl. rewrite Hdig, Hval. repeat split.
    f_equal. pose proof (Z.div_mod n 10 ltac:(lia)). lia.
  - apply Z.eqb_neq in Hq. rewrite digitsAux_app.
    assert (Hn' : 0 <= n / 10 < 10 ^ Z.of_nat k).
    { split; [apply Z.div_pos; lia|].
      apply Z.div_lt_upper_bound; [lia|].
      replace (10 * 10 ^ Z.of_nat k) with (10 ^ Z.of_nat (S k)); [lia|].
      rewrite Nat2Z.inj_succ, Z.pow_succ_r; lia. }
    assert (Hk : (0 < k)%nat).
    { destruct k; [|lia]. simpl in Hn'. lia. }
    destruct (IH _ Hk Hn') as (Ha & He & Hr).
    rewrite allChars_app, Ha. simpl. rewrite Hdig. repeat split.
    + destruct (JS.digitsAux k (n / 10) EmptyString); [discriminate|done].
    + rewrite readDigits_app, Hr by done. simpl. rewrite Hdig, Hval.
      f_equal. pose proof (Z.div_mod n 10 ltac:(lia)). lia.
Qed.

Lemma digits_spec n :
  0 <= n ->
  JS.allChars JS.isDigit (JS.digits n) = true
  /\ JS.isEmpty (JS.digits n) = false
  /\ JS.readDigits None (JS.digits n) = Some n.
Proof.
  intros Hn. apply digitsAux_spec; [lia|]. split; [done|].
  rewrite Nat2Z.inj_succ, Z2Nat.id by apply Z.log2_nonneg.
  destruct (Z.eq_dec n 0) as [->|Hne]; [reflexivity|].
  pose proof (Z.log2_spec n ltac:(lia)) as [_ Hlt].
  eapply Z.lt_le_trans; [exact Hlt|].
  apply Z.pow_le_mono_l. lia.
Qed.

(** A string of digits holds no white space, no sign and no separator. *)
Lemma digit_plain c :
  JS.isDigit c = true ->
  JS.isWhiteSpace c = false /\ c <> "-"%char /\ c <> "+"%char
  /\ c <> "/"%char.
Proof.
  unfold JS.isDigit, JS.isWhiteSpace, JS.inRange. intros H.
  apply andb_prop in H as [H1 H2]. apply Z.leb_le in H1, H2.
  repeat split.
  - apply orb_false_iff; split; [apply orb_false_iff; split|].
    + apply andb_false_iff. right. apply Z.leb_gt. lia.
    + apply Z.eqb_neq. lia.
    + apply Z.eqb_neq. lia.
  - intros ->. vm_compute in H1. by apply H1.
  - intros ->. vm_compute in H1. by apply H1.
  - intros ->. vm_compute in H1. by apply H1.
Qed.

Lemma readSign_plain c s :
  c <> "-"%char -> c <> "+"%char ->
  JS.readSign (String c s) = (false, String c s).
Proof.
  intros Hm Hp. unfold JS.readSign.
  destruct c as [[] [] [] [] [] [] [] []]; try reflexivity;
    exfalso; first [by apply Hm | by apply Hp].
Qed.

Lemma applySign_false (o : option Z) : JS.applySign false <$> o = o.
Proof. by destruct o. Qed.

(** [parseInt(s, 10)] of a non-empty string of digits reads all of it. *)
Lemma parseInt10_digits s :
  JS.allChars JS.isDigit s = true -> JS.isEmpty s = false ->
  JS.parseInt10 s = JS.readDigits None s
  /\ exists v, JS.readDigits None s = Some v /\ 0 <= v.
Proof.
  intros Ha He. destruct s as [|c s]; [discriminate|].
  simpl in Ha. apply andb_prop in Ha as [Hc Hs].
  destruct (digit_plain c Hc) as (Hw & Hm & Hp & _). split.
  - unfold JS.parseInt10. cbn [JS.trimStart]. rewrite Hw.
    rewrite readSign_plain by done. apply applySign_false.
  - simpl. rewrite Hc.
    assert (Hgen : forall t a, 0 <= a -> JS.allChars JS.isDigit t = true ->
              exists v, JS.readDigits (Some a) t = Some v /\ 0 <= v).
    { induction t as [|d t IH]; intros a Hpos Ht; [by exists a|].
      simpl in Ht. apply andb_prop in Ht as [Hd Ht]. simpl. rewrite Hd.
      apply IH; [|done]. simpl.
      unfold JS.isDigit, JS.inRange in Hd. apply andb_prop in Hd as [Hd _].
      apply Z.leb_le in Hd. unfold JS.digitVal. lia. }
    apply Hgen; [|done]. simpl.
    unfold JS.isDigit, JS.inRange in Hc. apply andb_prop in Hc as [Hc _].
    apply Z.leb_le in Hc. unfold JS.digitVal. lia.
Qed.

(** ** Splitting, trimming and the canonical date *)

Lemma allChars_impl (p q : ascii -> bool) s :
  (forall c, p c = true -> q c = true) ->
  JS.allChars p s = true -> JS.allChars q s = true.
Proof.
  intros Hpq. induction s as [|c s IH]; [done|]. simpl.
  intros [Hc Hs]%andb_prop. by rewrite (Hpq _ Hc), IH.
Qed.

Lemma trimEnd_plain s : JS.allChars notSpace s = true -> JS.trimEnd s = s.
Proof.
  induction s as [|c s IH]; [done|]. simpl.
  intros [Hc Hs]%andb_prop. unfold notSpace in Hc.
  apply negb_true_iff in Hc. by rewrite Hc, andb_false_r, IH.
Qed.

Lemma trim_plain s : JS.allChars notSpace s = true -> JS.trim s = s.
Proof.
  intros H. unfold JS.trim.
  assert (Hs : JS.trimStart s = s).
  { destruct s as [|c s]; [done|]. simpl in *.
    apply andb_prop in H as [Hc _]. unfold notSpace in Hc.
    apply negb_true_iff in Hc. by rewrite Hc. }
  rewrite Hs. by apply trimEnd_plain.
Qed.

Lemma split_nonempty sep s : JS.split sep s <> [].
Proof.
  destruct s as [|c s]; simpl; [done|].
  destruct (c =? sep)%char; [done|]. by destruct (JS.split sep s).
Qed.

Lemma split_plain sep s :
  JS.allChars (notChar sep) s = true -> JS.split sep s = [s].
Proof.
  induction s as [|c s IH]; [done|]. simpl.
  intros [Hc Hs]%andb_prop. unfold notChar in Hc.
  apply negb_true_iff in Hc. by rewrite Hc, IH.
Qed.

Lemma split_app sep a b :
  JS.allChars (notChar sep) a = true ->
  JS.split sep (a +:+ String sep b) = a :: JS.split sep b.
Proof.
  induction a as [|c a IH].
  - intros _. rewrite app_empty_l. simpl. by rewrite Ascii.eqb_refl.
  - simpl. intros [Hc Ha]%andb_prop. unfold notChar in Hc.
    apply negb_true_iff in Hc. rewrite ?app_cons. simpl.
    by rewrite Hc, IH.
Qed.

Lemma join_cons sep p q qs :
  JS.join sep (p :: q :: qs) = p +:+ sep +:+ JS.join sep (q :: qs).
Proof. reflexivity. Qed.

(** Joining the parts of a split gives the string back, and no part holds
    the separator. *)
Lemma split_join sep s :
  JS.join (String sep EmptyString) (JS.split sep s) = s
  /\ Forall (fun p => JS.allChars (notChar sep) p = true) (JS.split sep s).
Proof.
  induction s as [|c s [IHj IHf]]; [by repeat constructor|].
  pose proof (split_nonempty sep s) as Hne.
  cbn [JS.split]. destruct (c =? sep)%char eqn:Hc.
  - apply Ascii.eqb_eq in Hc as ->. split; [|by constructor].
    destruct (JS.split sep s) as [|w ws]; [done|].
    rewrite join_cons, IHj. reflexivity.
  - destruct (JS.split sep s) as [|w ws]; [done|]. split.
    + destruct ws as [|w' ws].
      * cbn [JS.join] in *. by rewrite IHj.
      * rewrite join_cons in *. by rewrite app_cons, IHj.
    + apply Forall_cons in IHf as [Hw Hws]. constructor; [|done].
      cbn [JS.allChars]. unfold notChar at 1. by rewrite Hc, Hw.
Qed.

Lemma split_three sep s a b c :
  JS.split sep s = [a; b; c] ->
  s = a +:+ String sep (b +:+ String sep c).
Proof.
  intros H. destruct (split_join sep s) as [Hj _]. rewrite H in Hj.
  by rewrite <- Hj.
Qed.

Lemma digits_notChar sep s :
  JS.isDigit sep = false ->
  JS.allChars JS.isDigit s = true -> JS.allChars (notChar sep) s = true.
Proof.
  intros Hsep. apply allChars_impl. intros c Hc. unfold notChar.
  apply negb_true_iff, Ascii.eqb_neq. intros ->. congruence.
Qed.

Lemma digits_notSpace s :
  JS.allChars JS.isDigit s = true -> JS.allChars notSpace s = true.
Proof.
  apply allChars_impl. intros c Hc. unfold notSpace.
  by destruct (digit_plain c Hc) as [-> _].
Qed.

Lemma padStart2_spec s :
  JS.allChars JS.isDigit s = true -> JS.isEmpty s = false ->
  JS.allChars JS.isDigit (JS.padStart2 s) = true
  /\ JS.isEmpty (JS.padStart2 s) = false
  /\ JS.readDigits None (JS.padStart2 s) = JS.readDigits None s.
Proof.
  intros Ha He. destruct s as [|c [|d r]]; [done| |done].
  simpl in *. apply andb_prop in Ha as [Hc _]. by rewrite Hc.
Qed.

Lemma numToString_token n : 0 <= n -> DateToken (JS.numToString n) n.
Proof.
  intros Hn. unfold JS.numToString.
  rewrite (proj2 (Z.ltb_ge n 0) Hn).
  destruct (digits_spec n Hn) as (Ha & He & Hr).
  split; [done..|]. by rewrite (proj1 (parseInt10_digits _ Ha He)).
Qed.

Lemma padStart2_token n :
  0 <= n -> DateToken (JS.padStart2 (JS.numToString n)) n.
Proof.
  intros Hn. destruct (numToString_token n Hn) as [Ha He Hv].
  destruct (padStart2_spec _ Ha He) as (Ha' & He' & Hr').
  split; [done..|].
  rewrite (proj1 (parseInt10_digits _ Ha' He')), Hr'.
  by rewrite <- (proj1 (parseInt10_digits _ Ha He)).
Qed.

(** Three digit tokens joined by hyphens, read under [YYYY-MM-DD]. *)
Lemma explicitNumericDate_ymd ty tm td y m d :
  DateToken ty y -> DateToken tm m -> DateToken td d ->
  explicitNumericDate (ty +:+ "-" +:+ tm +:+ "-" +:+ td) "YYYY-MM-DD"
  = if falsyNum (Some d) || falsyNum (Some m) || falsyNum (Some y)
    then None else Some (fmtDate y m d).
Proof.
  intros [Hay Hey Hvy] [Ham Hem Hvm] [Had Hed Hvd].
  unfold explicitNumericDate. cbn [JS.includesChar Ascii.eqb].
  change (if JS.includesChar "/" "YYYY-MM-DD" then "/"%char else "-"%char)
    with "-"%char.
  change ("-" +:+ tm +:+ "-" +:+ td) with (String "-" (tm +:+ String "-" td)).
  rewrite !split_app, (split_plain "-" td)
    by (by apply digits_notChar).
  change (JS.split "-" "YYYY-MM-DD") with ["YYYY"; "MM"; "DD"].
  cbn. rewrite Hvy, Hvm, Hvd. reflexivity.
Qed.

Lemma isEmpty_app a b : JS.isEmpty (a +:+ b) = JS.isEmpty a && JS.isEmpty b.
Proof. by destruct a. Qed.

(** [normalizeDate] on a string that is not empty. *)
Lemma normalizeDate_some browserDate s f :
  JS.isEmpty s = false ->
  normalizeDate browserDate (Some s) f
  = if negb (JS.isEmpty f) && negb (String.eqb f "auto") then
      if String.eqb f "DD-Mon-YY" || String.eqb f "DD-Mon-YYYY"
      then dayMonYearMatch (JS.trim s)
      else explicitNumericDate (JS.trim s) f
    else autoDetectDate browserDate (JS.trim s).
Proof. intros H. unfold normalizeDate. simpl. by rewrite H. Qed.

(** A canonical date of positive year, month and day is a fixed point of
    [normalizeDate] under [YYYY-MM-DD]. *)
Lemma normalizeDate_canonical browserDate y m d :
  0 < y -> 0 < m -> 0 < d ->
  normalizeDate browserDate (Some (fmtDate y m d)) "YYYY-MM-DD"
  = Some (fmtDate y m d).
Proof.
  intros Hy Hm Hd.
  pose proof (numToString_token y ltac:(lia)) as Ty.
  pose proof (padStart2_token m ltac:(lia)) as Tm.
  pose proof (padStart2_token d ltac:(lia)) as Td.
  assert (He : JS.isEmpty (fmtDate y m d) = false).
  { unfold fmtDate. rewrite isEmpty_app. by rewrite (tok_nonempty _ _ Ty). }
  assert (Ht : JS.trim (fmtDate y m d) = fmtDate y m d).
  { apply trim_plain. unfold fmtDate. rewrite !allChars_app.
    rewrite (digits_notSpace _ (tok_digits _ _ Ty)),
      (digits_notSpace _ (tok_digits _ _ Tm)),
      (digits_notSpace _ (tok_digits _ _ Td)). reflexivity. }
  assert (Hn : explicitNumericDate (fmtDate y m d) "YYYY-MM-DD"
               = Some (fmtDate y m d)).
  { unfold fmtDate at 1. rewrite (explicitNumericDate_ymd _ _ _ y m d) by done.
    simpl. by rewrite !(proj2 (Z.eqb_neq _ 0)) by lia. }
  rewrite normalizeDate_some by done. by rewrite Ht.
Qed.

(** What a valid numeric token reads as. *)
Lemma numericToken_value t :
  numericToken t = true -> exists v, JS.parseInt10 t = Some v /\ 0 <= v.
Proof.
  unfold numericToken. intros [[He Ha]%andb_prop _]%andb_prop.
  apply negb_true_iff in He.
  destruct (parseInt10_digits t Ha He) as [-> Hv]. exact Hv.
Qed.

Lemma pivot_pos v : 0 <= v -> 0 < pivot v.
Proof. intros H. unfold pivot. destruct (v <? 50); lia. Qed.

Lemma fields_canonical y m d :
  0 <= y -> 0 <= m -> 0 <= d ->
  canonicalOrNone
    (if falsyNum (Some d) || falsyNum (Some m) || falsyNum (Some y)
     then None else Some (fmtDate y m d)).
Proof.
  intros Hy Hm Hd. simpl.
  destruct (d =? 0) eqn:Ed; [by left|].
  destruct (m =? 0) eqn:Em; [by left|].
  destruct (y =? 0) eqn:Ey; [by left|]. simpl.
  apply Z.eqb_neq in Ed, Em, Ey. right. exists y, m, d.
  repeat split; lia.
Qed.

Ltac numeric_format_case Hsp Hva Hvb Hvc :=
  unfold explicitNumericDate; cbn [JS.includesChar Ascii.eqb orb];
  rewrite Hsp; cbn; rewrite ?Hva, ?Hvb, ?Hvc; cbn;
  first [ apply fields_canonical; auto using pivot_pos; lia
        | apply (fields_canonical (pivot _)); auto using pivot_pos;
          pose proof (pivot_pos _ ltac:(eassumption)); lia ].

Lemma explicitNumericDate_canonical f s a b c :
  f ∈ ["YYYY-MM-DD"; "DD/MM/YYYY"; "MM/DD/YYYY"; "DD-MM-YYYY"; "MM-DD-YYYY";
       "DD/MM/YY"; "MM/DD/YY"] ->
  JS.split (if JS.includesChar "/" f then "/"%char else "-"%char) s
  = [a; b; c] ->
  numericToken a = true -> numericToken b = true -> numericToken c = true ->
  canonicalOrNone (explicitNumericDate s f).
Proof.
  intros Hf Hsp Ha Hb Hc.
  destruct (numericToken_value a Ha) as (va & Hva & Hpa).
  destruct (numericToken_value b Hb) as (vb & Hvb & Hpb).
  destruct (numericToken_value c Hc) as (vc & Hvc & Hpc).
  repeat (apply elem_of_cons in Hf as [->|Hf]);
    [ .. | by apply elem_of_nil in Hf ];
    cbn [JS.includesChar Ascii.eqb orb] in Hsp;
    numeric_format_case Hsp Hva Hvb Hvc.
Qed.

Lemma spanDigits_app d r :
  JS.allChars JS.isDigit d = true ->
  match r with String c _ => JS.isDigit c = false | EmptyString => True end ->
  JS.spanDigits (d +:+ r) = (d, r).
Proof.
  intros Hd Hr. induction d as [|c d IH].
  - rewrite app_empty_l. destruct r as [|c r]; [done|]. simpl. by rewrite Hr.
  - simpl in Hd. apply andb_prop in Hd as [Hc Hd]. rewrite app_cons.
    simpl. by rewrite Hc, IH.
Qed.

Lemma monthOf_pos k mo : monthOf k = Some mo -> 0 < mo.
Proof.
  unfold monthOf, MONTHS. cbn [List.find fst snd].
  repeat (destruct (String.eqb _ k); [intros [= <-]; lia|]).
  discriminate.
Qed.

Lemma length_three (m : string) :
  String.length m = 3%nat ->
  exists a b c, m = String a (String b (String c EmptyString)).
Proof.
  destruct m as [|a [|b [|c [|e m]]]]; try discriminate. intros _. eauto.
Qed.

(** A valid month-name date is matched and gives a canonical date. *)
Lemma dayMonYearMatch_canonical s d m y :
  JS.split "-" s = [d; m; y] ->
  numericToken d = true -> (String.length d <=? 2)%nat = true ->
  falsyNum (JS.parseInt10 d) = false ->
  monthToken m = true ->
  numericToken y = true -> (2 <=? String.length y)%nat = true ->
  (String.length y <=? 4)%nat = true ->
  canonicalOrNone (dayMonYearMatch s).
Proof.
  intros Hsp Hd Hdl Hdz Hm Hy Hy2 Hy4.
  rewrite (split_three _ _ _ _ _ Hsp).
  destruct (numericToken_value d Hd) as (vd & Hvd & Hpd).
  destruct (numericToken_value y Hy) as (vy & Hvy & Hpy).
  unfold numericToken in Hd, Hy.
  apply andb_prop in Hd as [[Hde Hda]%andb_prop _].
  apply andb_prop in Hy as [[Hye Hya]%andb_prop _].
  apply negb_true_iff in Hde, Hye.
  unfold monthToken in Hm.
  apply andb_prop in Hm as [[Hml Hma]%andb_prop Hmo].
  apply Nat.eqb_eq in Hml. destruct (length_three m Hml) as (a & b & c & ->).
  apply bool_decide_eq_true in Hmo as [mo Hmo].
  simpl in Hma. apply andb_prop in Hma as [Ha [Hb [Hc _]%andb_prop]%andb_prop].
  unfold dayMonYearMatch, matchDayMonYear.
  rewrite (spanDigits_app d) by done.
  assert (Hlen : (1 <=? String.length d)%nat = true).
  { destruct d; [done|]. reflexivity. }
  rewrite Hlen, Hdl. cbn [andb negb]. rewrite !app_cons, app_empty_l.
  rewrite Ha, Hb, Hc. cbn [andb].
  rewrite <- (app_empty_r y) at 1. rewrite (spanDigits_app y) by done.
  rewrite Hy2, Hy4. cbn [andb JS.isEmpty].
  unfold dayMonYearDate. rewrite Hvd, Hvy, Hmo. cbn [default]. unfold id.
  rewrite Hvd in Hdz. simpl in Hdz. apply Z.eqb_neq in Hdz.
  right. eexists _, mo, vd. split; [|split; [|split; [|reflexivity]]].
  - destruct (vy <? 100) eqn:E; [by apply pivot_pos|].
    apply Z.ltb_ge in E. lia.
  - by apply (monthOf_pos _ _ Hmo).
  - lia.
Qed.

(** C9: for every explicit format of the vocabulary and every date string
    valid for it, normalising the result again under YYYY-MM-DD returns the
    same result; [normalizeDate] is a function of its two arguments and of
    nothing else (so equal inputs give equal results). *)
Theorem normalize_idempotent (browserDate : string -> option (Z * Z * Z))
    (s f : string) :
  validDatePair s f = true ->
  normalizeDate browserDate (normalizeDate browserDate (Some s) f)
    "YYYY-MM-DD"
  = normalizeDate browserDate (Some s) f.
Proof.
  intros Hv.
  assert (Hc : canonicalOrNone (normalizeDate browserDate (Some s) f)).
  { destruct (JS.isEmpty s) eqn:He.
    { left. unfold normalizeDate. simpl. by rewrite He. }
    rewrite normalizeDate_some by done.
    unfold validDatePair in Hv. apply andb_prop in Hv as [Hf Hv].
    apply bool_decide_eq_true in Hf. unfold explicitFormats in Hf.
    repeat (apply elem_of_cons in Hf as [->|Hf]);
      [ .. | by apply elem_of_nil in Hf ];
      cbn [String.eqb Ascii.eqb Bool.eqb orb andb negb JS.isEmpty
           JS.includesChar] in Hv |- *;
      destruct (JS.split _ (JS.trim s)) as [|a [|b [|c [|e l]]]] eqn:Hsp;
      try discriminate;
      repeat match type of Hv with
             | _ && _ = true => apply andb_prop in Hv as [Hv ?]
             end;
      first [ apply (explicitNumericDate_canonical _ _ a b c);
              [ repeat constructor | exact Hsp | done .. ]
            | apply (dayMonYearMatch_canonical _ a b c);
              first [ done | by apply negb_true_iff ] ]. }
  destruct Hc as [-> | (y & m & d & Hy & Hm & Hd & ->)]; [reflexivity|].
  by apply normalizeDate_canonical.
Qed.

(** The date string of the example under its format. *)
Lemma normalize_idempotent_witness :
  validDatePair "15/01/2024" "DD/MM/YYYY" = true
  /\ normalizeDate noBrowserDate
       (normalizeDate noBrowserDate (Some "15/01/2024") "DD/MM/YYYY")
       "YYYY-MM-DD"
     = normalizeDate noBrowserDate (Some "15/01/2024") "DD/MM/YYYY".
Proof.
  split; [reflexivity|]. apply normalize_idempotent. reflexivity.
Defined.

(** ** The Column Mapper (C4, C10) *)

Lemma mapTransaction_cells browserDate row profile importId fmt :
  mapTransaction browserDate row profile importId fmt
  = mapCells browserDate (cellOf row profile) profile importId fmt.
Proof. unfold mapTransaction, cellOf. by destruct (hasHeader profile). Qed.

(** The amount of a row mapped under a credit/debit pair. *)
Lemma paired_amount browserDate row profile importId fmt t :
  pairedColumns profile = true ->
  mapTransaction browserDate row profile importId fmt = Some t ->
  amount t
  = JS.sub (parseAmount (cellOf row profile (creditColumn profile)))
      (parseAmount (cellOf row profile (debitColumn profile))).
Proof.
  intros Hp. rewrite mapTransaction_cells. unfold mapCells.
  unfold pairedColumns in Hp. rewrite Hp.
  destruct (negb (JS.truthy _)); [discriminate|]. by intros [= <-].
Qed.

Lemma num_proper a b : (a == b)%Q -> JS.num a = JS.num b.
Proof. intros H. unfold JS.num. f_equal. by apply Qred_complete. Qed.

Lemma orZero_num_opp q :
  JS.orZero (JS.num (- q)) = JS.neg (JS.orZero (JS.num q)).
Proof.
  unfold JS.num, JS.orZero.
  destruct (Qeq_bool (Qred q) 0) eqn:E.
  - apply Qeq_bool_iff in E. rewrite Qred_correct in E.
    assert (E' : Qeq_bool (Qred (- q)) 0 = true).
    { apply Qeq_bool_iff. rewrite Qred_correct, E. reflexivity. }
    rewrite E'. reflexivity.
  - assert (E' : Qeq_bool (Qred (- q)) 0 = false).
    { apply not_true_is_false. intros H. apply Qeq_bool_iff in H.
      rewrite Qred_correct in H.
      assert (Hq : (q == 0)%Q).
      { rewrite <- (Qopp_involutive q), H. reflexivity. }
      apply not_true_iff_false in E. apply E. apply Qeq_bool_iff.
      by rewrite Qred_correct. }
    rewrite E'. simpl. unfold JS.num. f_equal. apply Qred_complete.
    by rewrite Qred_correct.
Qed.

Lemma readNumber_sign r :
  JS.orZero (JS.readNumber true r) = JS.neg (JS.orZero (JS.readNumber false r)).
Proof.
  unfold JS.readNumber. destruct (JS.startsWith "Infinity" r); [reflexivity|].
  destruct (JS.spanDigits r) as [ip r1].
  destruct (match r1 with String "." t => JS.spanDigits t
            | _ => (EmptyString, r1) end) as [fp r2].
  destruct (JS.isEmpty ip && JS.isEmpty fp); [reflexivity|].
  cbn [JS.applySign]. rewrite <- orZero_num_opp. f_equal. apply num_proper.
  rewrite inject_Z_opp. ring.
Qed.

(** [parseAmount] keeps the sign of a cell: a minus sign in front of a
    number negates the value read. *)
Lemma parseAmount_minus c s :
  JS.isDigit c = true ->
  parseAmount (Some (String "-" (String c s)))
  = JS.neg (parseAmount (Some (String c s))).
Proof.
  intros Hc. destruct (digit_plain c Hc) as (Hw & Hm & Hp & _).
  assert (Hcomma : (c =? ",")%char = false).
  { apply Ascii.eqb_neq. intros ->. discriminate. }
  unfold parseAmount. cbn [JS.removeCommas Ascii.eqb Bool.eqb].
  rewrite Hcomma. set (r := JS.removeCommas s).
  assert (H1 : JS.parseFloat (String "-" (String c r))
               = JS.readNumber true (String c r)) by reflexivity.
  assert (H2 : JS.parseFloat (String c r) = JS.readNumber false (String c r)).
  { unfold JS.parseFloat. cbn [JS.trimStart]. rewrite Hw.
    by rewrite readSign_plain. }
  rewrite H1, H2. apply readNumber_sign.
Qed.

(** C4, as stated, fails: with an empty credit cell and a debit cell
    written [-50.00] the mapped amount is 50, where the unsigned reading
    gives -50. *)
Lemma paired_amount_unsigned_counterexample :
  pairedColumns examplePairedProfile = true
  /\ amount <$> mapTransaction noBrowserDate
                  (HeaderlessRow ["15/01/2024"; "REFUND"; ""; "-50.00"])
                  examplePairedProfile 1 ""
     = Some (JS.Num 50)
  /\ unsignedAmount (Some "") (Some "-50.00") = JS.Num (-50)
  /\ amount <$> mapTransaction noBrowserDate
                  (HeaderlessRow ["15/01/2024"; "REFUND"; ""; "-50.00"])
                  examplePairedProfile 1 ""
     <> Some (unsignedAmount (Some "") (Some "-50.00")).
Proof.
  split; [reflexivity|]. split; [reflexivity|]. split; [reflexivity|].
  intros H. vm_compute in H. discriminate.
Qed.

(** C4, amended: under a credit/debit pair the mapped amount is
    [parseAmount(credit cell) - parseAmount(debit cell)], each cell read
    with its sign: a minus sign in front of a number negates the value
    read from the cell. *)
Theorem paired_amount_signed (browserDate : string -> option (Z * Z * Z))
    (row : Row) (profile : BankProfile) (importId : Z) (fmt : string)
    (t : Transaction) :
  pairedColumns profile = true ->
  mapTransaction browserDate row profile importId fmt = Some t ->
  amount t
  = JS.sub (parseAmount (cellOf row profile (creditColumn profile)))
      (parseAmount (cellOf row profile (debitColumn profile)))
  /\ forall c s,
      JS.isDigit c = true ->
      parseAmount (Some (String "-" (String c s)))
      = JS.neg (parseAmount (Some (String c s))).
Proof.
  intros Hp Hm. split.
  - by apply (paired_amount browserDate row profile importId fmt).
  - apply parseAmount_minus.
Qed.

Lemma paired_amount_signed_witness :
  amount (mkTransaction 1 (Some "2024-01-15") "REFUND" (JS.Num 50)
            "Uncategorized")
  = JS.sub
      (parseAmount
         (cellOf (HeaderlessRow ["15/01/2024"; "REFUND"; ""; "-50.00"])
            examplePairedProfile (creditColumn examplePairedProfile)))
      (parseAmount
         (cellOf (HeaderlessRow ["15/01/2024"; "REFUND"; ""; "-50.00"])
            examplePairedProfile (debitColumn examplePairedProfile)))
  /\ parseAmount (Some "-50.00") = JS.neg (parseAmount (Some "50.00")).
Proof.
  destruct (paired_amount_signed noBrowserDate
              (HeaderlessRow ["15/01/2024"; "REFUND"; ""; "-50.00"])
              examplePairedProfile 1 ""
              (mkTransaction 1 (Some "2024-01-15") "REFUND" (JS.Num 50)
                 "Uncategorized") eq_refl eq_refl) as [H1 H2].
  split; [exact H1|]. apply (H2 "5"%char "0.00"). reflexivity.
Defined.

Lemma emptyOrUnparseable_zero cell :
  emptyOrUnparseable cell = true -> parseAmount cell = JS.Num 0.
Proof.
  destruct cell as [s|]; [|reflexivity]. unfold emptyOrUnparseable, parseAmount.
  by destruct (JS.parseFloat (JS.removeCommas s)).
Qed.

(** C10, as stated, fails: a blank line under a credit/debit pair has both
    amount cells empty and is rejected, for its date cell is empty too. *)
Lemma paired_blank_line_counterexample :
  pairedColumns examplePairedProfile = true
  /\ emptyOrUnparseable
       (cellOf (HeaderlessRow [""; ""; ""; ""]) examplePairedProfile
          (creditColumn examplePairedProfile)) = true
  /\ emptyOrUnparseable
       (cellOf (HeaderlessRow [""; ""; ""; ""]) examplePairedProfile
          (debitColumn examplePairedProfile)) = true
  /\ mapTransaction noBrowserDate (HeaderlessRow [""; ""; ""; ""])
       examplePairedProfile 1 "" = None.
Proof. repeat split; reflexivity. Qed.

(** C10, amended: under a credit/debit pair a row whose two amount cells
    are empty or unparseable and whose date cell is not empty is accepted
    with amount 0, unlike under a single amount column, where a row whose
    amount cell is blank is rejected; in either mode a row whose date cell
    is empty, such as a wholly blank line, is rejected.  The description of
    the row is read from cells of the file. *)
Theorem paired_blank_cells_zero (browserDate : string -> option (Z * Z * Z))
    (row : Row) (profile : BankProfile) (importId : Z) (fmt : string) :
  descriptionFromFile row profile ->
  (pairedColumns profile = true ->
   emptyOrUnparseable (cellOf row profile (creditColumn profile)) = true ->
   emptyOrUnparseable (cellOf row profile (debitColumn profile)) = true ->
   JS.truthy (cellOf row profile (dateColumn profile)) = true ->
   exists t,
     mapTransaction browserDate row profile importId fmt = Some t
     /\ amount t = JS.Num 0)
  /\ (pairedColumns profile = false ->
      forall s,
        cellOf row profile (amountColumn profile) = Some s ->
        JS.isEmpty (JS.trim s) = true ->
        mapTransaction browserDate row profile importId fmt = None)
  /\ (cellOf row profile (dateColumn profile) = Some EmptyString ->
      mapTransaction browserDate row profile importId fmt = None).
Proof.
  intros _. rewrite mapTransaction_cells. unfold mapCells.
  fold (pairedColumns profile). split; [|split].
  - intros -> Hc Hd Ht. rewrite Ht. cbn [negb].
    eexists. split; [reflexivity|]. simpl.
    by rewrite (emptyOrUnparseable_zero _ Hc), (emptyOrUnparseable_zero _ Hd).
  - intros -> s -> Hs. cbn [blankCell]. by rewrite Hs.
  - intros ->. cbn [JS.truthy JS.isEmpty negb].
    by destruct (if pairedColumns profile then _ else _).
Qed.

(** A row of a file with a header, with a date and two unusable amount
    cells under the pair; a row with a blank amount cell under a single
    column; and the blank line under the pair. *)
Lemma paired_blank_cells_zero_witness :
  (exists t,
      mapTransaction noBrowserDate exampleHeaderRow
        exampleHeaderPairedProfile 1 "" = Some t
      /\ amount t = JS.Num 0)
  /\ mapTransaction noBrowserDate (HeaderlessRow ["15/01/2024"; "NOTE"; " "])
       exampleProfile 1 "" = None
  /\ mapTransaction noBrowserDate (HeaderlessRow [""; ""; ""; ""])
       examplePairedProfile 1 "" = None.
Proof.
  split; [|split].
  - apply (proj1 (paired_blank_cells_zero noBrowserDate exampleHeaderRow
                    exampleHeaderPairedProfile 1 ""
                    ltac:(intros _; constructor;
                          [right; compute_done | constructor])));
      reflexivity.
  - apply (proj1 (proj2 (paired_blank_cells_zero noBrowserDate
                           (HeaderlessRow ["15/01/2024"; "NOTE"; " "])
                           exampleProfile 1 ""
                           ltac:(intros H; discriminate H))) eq_refl " ");
      reflexivity.
  - apply (proj2 (proj2 (paired_blank_cells_zero noBrowserDate
                           (HeaderlessRow [""; ""; ""; ""])
                           examplePairedProfile 1 ""
                           ltac:(intros H; discriminate H)))); reflexivity.
Defined.

(** ** The Import Orchestrator (C1, C2, C3) *)

(** A candidate without a date is not stored. *)
Lemma insertTransaction_null_date db t :
  date t = None -> insertTransaction db t = db.
Proof. intros H. unfold insertTransaction, insertRow. by rewrite H. Qed.

(** C1: the code at a row whose date does not normalise.  Whenever
    [mapTransaction] returns a candidate with a null date (it tests the raw
    date cell only), the insert is refused by the NOT NULL column, so
    nothing is stored, and the row is counted as imported all the same. *)
Theorem null_date_row_counted (browserDate : string -> option (Z * Z * Z))
    (row : Row) (profile : BankProfile) (importId : Z) (fmt : string)
    (db : DB) (n : Z) (t : Transaction) :
  mapTransaction browserDate row profile importId fmt = Some t ->
  date t = None ->
  insertTransaction db t = db
  /\ importRows browserDate [row] profile importId fmt db n = (db, n + 1).
Proof.
  intros Hm Hd. split; [by apply insertTransaction_null_date|].
  cbn [importRows]. rewrite Hm. by rewrite insertTransaction_null_date.
Qed.

(** The failing input: a row whose date cell is not a date, and the import
    call on a file made of that row. *)
Lemma null_date_row_counted_witness :
  normalizeDate noBrowserDate (Some "not-a-date") "DD/MM/YYYY" = None
  /\ (insertTransaction exampleEmptyStore
        (mkTransaction 1 None "COFFEE" (JS.Num (-7 # 2)) "Uncategorized")
      = exampleEmptyStore
      /\ importRows noBrowserDate
           [HeaderlessRow ["not-a-date"; "COFFEE"; "-3.50"]] exampleProfile 1
           "DD/MM/YYYY" exampleEmptyStore 0
         = (exampleEmptyStore, 0 + 1))
  /\ processUploadedFiles noBrowserDate exampleProfile "1" ""
       [mkFile "a.csv" [HeaderlessRow ["not-a-date"; "COFFEE"; "-3.50"]]]
       exampleEmptyStore
     = mkOutcome JSUndefined
         (mkDB exampleCategories [] [] [mkImport 1 "a.csv" "1" 1])
         ("success", "Imported 1 transactions from 1 file(s)").
Proof.
  split; [reflexivity|]. split; [|reflexivity].
  apply (null_date_row_counted noBrowserDate
           (HeaderlessRow ["not-a-date"; "COFFEE"; "-3.50"]) exampleProfile 1
           "DD/MM/YYYY" exampleEmptyStore 0
           (mkTransaction 1 None "COFFEE" (JS.Num (-7 # 2)) "Uncategorized"));
    reflexivity.
Defined.

Section ImportLoop.

Variable browserDate : string -> option (Z * Z * Z).
Variable profile : BankProfile.

Lemma importRows_mapped rows importId fmt db n :
  importRows browserDate rows profile importId fmt db n
  = (foldl insertTransaction db
       (mappedRows browserDate profile importId fmt rows),
     n + Z.of_nat (length (mappedRows browserDate profile importId fmt rows))).
Proof.
  revert db n. induction rows as [|row rows IH]; intros db n.
  - simpl. f_equal. lia.
  - unfold mappedRows in *. cbn [importRows omap list_omap].
    destruct (mapTransaction browserDate row profile importId fmt) as [t|].
    + rewrite IH. cbn [foldl length]. f_equal. lia.
    + apply IH.
Qed.



End ImportLoop.


Lemma nextId_above ids x : x ∈ ids -> x < nextId ids.
Proof.
  unfold nextId. induction ids as [|a ids IH]; intros H; [by inversion H|].
  apply elem_of_cons in H as [->|H]; simpl; [lia|].
  specialize (IH H). lia.
Qed.

Lemma nextId_fresh ids : nextId ids ∉ ids.
Proof. intros H. apply nextId_above in H. lia. Qed.




Section ImportOutcome.

Variable browserDate : string -> option (Z * Z * Z).
Variable profile : BankProfile.



End ImportOutcome.






(** * Further properties *)

(** ** Fresh ids and append-only storage *)

Lemma NoDup_snoc_fresh (ids : list Z) : NoDup ids -> NoDup (ids ++ [nextId ids]).
Proof.
  intros H. apply NoDup_app. split; [done|]. split; [|apply NoDup_singleton].
  intros x Hx Hin. apply list_elem_of_singleton in Hin as ->.
  by apply nextId_fresh in Hx.
Qed.

Lemma categoryIdByName_elem db name i :
  categoryIdByName db name = Some i ->
  exists c, c ∈ categories db /\ cat_id c = i /\ cat_name c = name.
Proof.
  unfold categoryIdByName. intros H.
  destruct (List.find _ (categories db)) as [c|] eqn:E; [|discriminate].
  simpl in H. injection H as <-. apply find_some in E as [Hin Hn].
  exists c. split; [by apply list_elem_of_In|]. split; [done|].
  by apply String.eqb_eq.
Qed.

(** The category an insert resolves exists. *)
Lemma insert_category_valid db name :
  categoryRefValid db
    (if falsyNum (categoryIdByName db name)
     then categoryIdByName db "Uncategorized"
     else categoryIdByName db name).
Proof.
  destruct (falsyNum (categoryIdByName db name));
    [destruct (categoryIdByName db "Uncategorized") as [i|] eqn:E
    |destruct (categoryIdByName db name) as [i|] eqn:E]; simpl; try done;
    destruct (categoryIdByName_elem _ _ _ E) as (c & Hc & <- & _);
    by apply list_elem_of_fmap_2.
Qed.

(** What [insertTransaction] does to the database. *)
Lemma insertTransaction_cases db t :
  (storable t = false /\ insertTransaction db t = db)
  \/ (storable t = true
      /\ exists r,
          insertTransaction db t
          = withTransactions db (transactions db ++ [r])
          /\ tx_id r = nextId (tx_id <$> transactions db)
          /\ importedRow db (import_id t) r
          /\ Some (tx_date r) = date t
          /\ tx_amount r = amount t
          /\ tx_description r = Some (description t)).
Proof.
  unfold insertTransaction, insertRow, storable.
  destruct (date t) as [d|] eqn:Hd; [|by left].
  destruct (amount t) eqn:Ha; try (by left); right; (split; [done|]);
    eexists; (split; [reflexivity|]); simpl; unfold importedRow; simpl;
    repeat split; try done;
    try (destruct (shouldIgnore _); by auto);
    try apply insert_category_valid.
Qed.

(** X1: [insertTransaction] adds at most one row, at the end of the table,
    exactly when the candidate has a date and an amount that is not NaN.
    The new row has an id above every id present, the candidate's import
    id, date, amount and description, no manual override, and a category
    reference that is null or the id of an existing category.  The other
    tables are left as they are. *)
Theorem insertTransaction_appends (db : DB) (t : Transaction) :
  categories (insertTransaction db t) = categories db
  /\ transaction_rules (insertTransaction db t) = transaction_rules db
  /\ imports (insertTransaction db t) = imports db
  /\ if storable t
     then exists r,
         transactions (insertTransaction db t) = transactions db ++ [r]
         /\ (forall x, x ∈ tx_id <$> transactions db -> x < tx_id r)
         /\ storedFrom db t r
     else transactions (insertTransaction db t) = transactions db.
Proof.
  destruct (insertTransaction_cases db t)
    as [[Hs ->] | (Hs & r & -> & Hid & Hr & Hd & Ha & Hde)]; rewrite Hs.
  - done.
  - repeat split; try done. exists r. split; [done|]. split; [|done].
    intros x Hx. rewrite Hid. by apply nextId_above.
Qed.

(** A candidate for GROCERY MART inserted into the store whose rule sends
    GROCERY to Groceries. *)
Lemma insertTransaction_appends_witness :
  exists r,
    transactions
      (insertTransaction exampleRuleStore
         (mkTransaction 1 (Some "2024-01-15") "GROCERY MART" (JS.Num (-45))
            "Uncategorized"))
    = transactions exampleRuleStore ++ [r]
    /\ (forall x, x ∈ tx_id <$> transactions exampleRuleStore -> x < tx_id r)
    /\ storedFrom exampleRuleStore
         (mkTransaction 1 (Some "2024-01-15") "GROCERY MART" (JS.Num (-45))
            "Uncategorized") r.
Proof.
  exact (proj2 (proj2 (proj2
           (insertTransaction_appends exampleRuleStore
              (mkTransaction 1 (Some "2024-01-15") "GROCERY MART"
                 (JS.Num (-45)) "Uncategorized"))))).
Defined.

Lemma importedRow_categories db db' i r :
  categories db' = categories db -> importedRow db i r -> importedRow db' i r.
Proof.
  intros Hc (H1 & H2 & H3 & H4 & H5 & H6). repeat split; try done.
  unfold categoryRefValid in *. by rewrite Hc.
Qed.

Lemma withTransactions_app db l k :
  withTransactions (withTransactions db l) (l ++ k)
  = withTransactions db (l ++ k).
Proof. reflexivity. Qed.

(** A run of inserts: the stored rows are the storable candidates, in
    order. *)
Lemma foldl_insertTransaction ts db :
  exists news,
    foldl insertTransaction db ts
    = withTransactions db (transactions db ++ news)
    /\ Forall2 (storedFrom db) (filter (fun t => storable t = true) ts) news.
Proof.
  revert db. induction ts as [|t ts IH]; intros db.
  - exists []. split; [|constructor]. simpl. rewrite app_nil_r.
    by destruct db.
  - simpl. rewrite filter_cons.
    destruct (insertTransaction_cases db t)
      as [[Hs ->] | (Hs & r & -> & Hid & Hr & Hd & Ha & Hde)].
    + rewrite decide_False by (rewrite Hs; done). apply IH.
    + rewrite decide_True by done.
      destruct (IH (withTransactions db (transactions db ++ [r])))
        as (news & -> & HF).
      exists (r :: news). split.
      * simpl. by rewrite <- app_assoc.
      * constructor; [done|].
        eapply Forall2_impl; [exact HF|].
        intros t' r' (H1 & H2 & H3 & H4). split; [|done].
        by apply (importedRow_categories
                    (withTransactions db (transactions db ++ [r])) db).
Qed.

Lemma foldl_insertTransaction_NoDup ts db :
  NoDup (tx_id <$> transactions db) ->
  NoDup (tx_id <$> transactions (foldl insertTransaction db ts)).
Proof.
  revert db. induction ts as [|t ts IH]; intros db Hnd; [done|].
  simpl. apply IH.
  destruct (insertTransaction_cases db t)
    as [[Hs ->] | (Hs & r & -> & Hid & _)]; [done|].
  simpl. rewrite fmap_app. simpl. rewrite Hid. by apply NoDup_snoc_fresh.
Qed.

Lemma fmtDate_nonempty y m d : JS.isEmpty (fmtDate y m d) = false.
Proof.
  unfold fmtDate. rewrite isEmpty_app.
  change ("-" +:+ ?x) with (String "-" x). simpl. apply andb_false_r.
Qed.

Lemma isEmpty_hyphen a b : JS.isEmpty (a +:+ "-" +:+ b) = false.
Proof.
  rewrite isEmpty_app. change ("-" +:+ b) with (String "-" b). simpl.
  apply andb_false_r.
Qed.

Lemma dayMonYearMatch_nonempty s r :
  dayMonYearMatch s = Some r -> JS.isEmpty r = false.
Proof.
  unfold dayMonYearMatch, dayMonYearDate.
  repeat (case_match; try discriminate); intros [= <-];
    apply fmtDate_nonempty.
Qed.

Lemma explicitNumericDate_nonempty s f r :
  explicitNumericDate s f = Some r -> JS.isEmpty r = false.
Proof.
  unfold explicitNumericDate.
  repeat (case_match; try discriminate); intros [= <-];
    apply fmtDate_nonempty.
Qed.

(** A date [normalizeDate] returns is never the empty string. *)
Lemma normalizeDate_nonempty browserDate v f r :
  normalizeDate browserDate v f = Some r -> JS.isEmpty r = false.
Proof.
  unfold normalizeDate, autoDetectDate.
  destruct (negb (JS.truthy v)); [discriminate|].
  destruct (negb (JS.isEmpty f) && _).
  - destruct (_ || _);
      [apply dayMonYearMatch_nonempty | apply explicitNumericDate_nonempty].
  - destruct (matchIsoPrefix _) as [[[y m] d]|].
    { intros [= <-]. apply isEmpty_hyphen. }
    destruct (dayMonYearMatch _) as [r'|] eqn:E.
    { intros [= <-]. by apply dayMonYearMatch_nonempty in E. }
    destruct (browserDate _) as [[[y m] d]|]; [|discriminate].
    intros [= <-]. apply fmtDate_nonempty.
Qed.

Lemma mapTransaction_fields browserDate row profile importId fmt t :
  mapTransaction browserDate row profile importId fmt = Some t ->
  import_id t = importId
  /\ date t
     = normalizeDate browserDate (cellOf row profile (dateColumn profile))
         (JS.orElse fmt (dateFormat profile))
  /\ category t = "Uncategorized"
  /\ JS.truthy (cellOf row profile (dateColumn profile)) = true.
Proof.
  rewrite mapTransaction_cells. unfold mapCells.
  destruct (if negb (JS.isEmpty (creditColumn profile)) && _ then _ else _);
    [|discriminate].
  destruct (JS.truthy _); [|discriminate]. by intros [= <-].
Qed.

Section ImportInvariants.

Variable browserDate : string -> option (Z * Z * Z).
Variable profile : BankProfile.

Lemma mappedRows_import_id importId fmt rows t :
  t ∈ mappedRows browserDate profile importId fmt rows ->
  import_id t = importId
  /\ (forall d, date t = Some d -> JS.isEmpty d = false).
Proof.
  unfold mappedRows. intros H. apply list_elem_of_omap in H as (row & _ & Hm).
  destruct (mapTransaction_fields _ _ _ _ _ _ Hm) as (Hi & Hd & _).
  split; [done|]. intros d E. rewrite Hd in E.
  by apply normalizeDate_nonempty in E.
Qed.

(** One file: the record of the import and the rows stored under it. *)
Lemma importFile_result file accountId fmt db total :
  exists news,
    importFiles browserDate [file] profile accountId fmt db total
    = (mkDB (categories db) (transaction_rules db)
         (transactions db ++ news)
         (imports db ++
            [importRecord db (file_name file) accountId
               (Z.of_nat
                  (length
                     (mappedRows browserDate profile
                        (nextId (imp_id <$> imports db)) fmt
                        (file_data file))))]),
       total
       + Z.of_nat
           (length
              (mappedRows browserDate profile
                 (nextId (imp_id <$> imports db)) fmt (file_data file))))
    /\ Forall2 (storedFrom db)
         (filter (fun t => storable t = true)
            (mappedRows browserDate profile (nextId (imp_id <$> imports db))
               fmt (file_data file)))
         news
    /\ (NoDup (tx_id <$> transactions db) ->
        NoDup (tx_id <$> transactions db ++ news)).
Proof.
  cbn [importFiles createImportRecord]. rewrite importRows_mapped.
  set (n := nextId (imp_id <$> imports db)).
  set (mapped := mappedRows browserDate profile n fmt (file_data file)).
  pose proof (foldl_insertTransaction_NoDup mapped
                (withImports db
                   (imports db ++ [mkImport n (file_name file) accountId 0])))
    as Hnd.
  destruct (foldl_insertTransaction mapped
              (withImports db
                 (imports db ++ [mkImport n (file_name file) accountId 0])))
    as (news & Efold & HF).
  rewrite Efold in Hnd |- *.
  exists news. split; [|split; [|exact Hnd]].
  - rewrite Z.add_0_l. f_equal. unfold updateImportCount, withImports,
      withTransactions, importRecord. simpl. f_equal.
    rewrite fmap_app. simpl. rewrite Z.eqb_refl. f_equal.
    fold n. rewrite <- (list_fmap_id (imports db)) at 2.
    apply list_fmap_ext. intros i r Hr. simpl.
    assert (imp_id r <> n).
    { intros E. apply (nextId_fresh (imp_id <$> imports db)). fold n.
      rewrite <- E. apply list_elem_of_fmap_2.
      by eapply list_elem_of_lookup_2. }
    by rewrite (proj2 (Z.eqb_neq _ _)).
  - eapply Forall2_impl; [exact HF|].
    intros t r (H1 & H2). split; [|done].
    by eapply importedRow_categories; [|exact H1].
Qed.

End ImportInvariants.



Section ImportExtends.

Variable browserDate : string -> option (Z * Z * Z).
Variable profile : BankProfile.




End ImportExtends.



Lemma filter_all {A} (P : A -> Prop) `{forall x, Decision (P x)} (l : list A) :
  Forall P l -> filter P l = l.
Proof.
  induction 1 as [|x l Hx Hl IH]; [done|].
  by rewrite filter_cons, decide_True, IH.
Qed.

Lemma filter_none {A} (P : A -> Prop) `{forall x, Decision (P x)}
    (l : list A) :
  Forall (fun x => ~ P x) l -> filter P l = [].
Proof.
  induction 1 as [|x l Hx Hl IH]; [done|].
  by rewrite filter_cons, decide_False, IH.
Qed.



(** X4: importing a file and then deleting that import restores the
    tables.  When one file is imported, the import's record [r] is the last
    row of [imports]; if no transaction carried its id before, deleting the
    import with that id leaves the four tables with the rows they held
    before the import. *)
Theorem import_then_delete (browserDate : string -> option (Z * Z * Z))
    (profile : BankProfile) (accountId dateFormatChoice : string)
    (file : UploadedFile) (db : DB) :
  JS.isEmpty accountId = false ->
  exists r,
    last
      (imports
         (db_after (processUploadedFiles browserDate profile accountId
                      dateFormatChoice [file] db))) = Some r
    /\ (imp_id r ∉ imp_id <$> imports db)
    /\ (Forall (fun t => tx_import_id t <> imp_id r) (transactions db) ->
        deleteImport true (imp_id r)
          (db_after (processUploadedFiles browserDate profile accountId
                       dateFormatChoice [file] db))
        = db).
Proof.
  intros Hacc. unfold processUploadedFiles. rewrite Hacc.
  destruct (importFile_result browserDate profile file accountId
              (JS.orElse dateFormatChoice
                 (JS.orElse (dateFormat profile) "auto")) db 0)
    as (news & -> & HF & _).
  cbn [db_after imports]. eexists. split; [apply last_snoc|].
  unfold importRecord at 1 2 3. cbn [imp_id].
  split; [apply nextId_fresh|]. intros Hold.
  unfold deleteImport, withImports, withTransactions.
  cbn [negb categories transaction_rules transactions imports].
  set (n := nextId (imp_id <$> imports db)) in *.
  assert (Hnew : Forall (fun r => ~ tx_import_id r <> n) news).
  { apply Forall_forall. intros r Hr.
    apply list_elem_of_lookup in Hr as [i Hi].
    destruct (Forall2_lookup_r _ _ _ _ _ HF Hi) as (t & Ht & (Hi1 & _) & _).
    apply list_elem_of_lookup_2, list_elem_of_filter in Ht as [_ Ht].
    destruct (mappedRows_import_id _ _ _ _ _ _ Ht) as [Hid _].
    intros Hne. apply Hne. unfold n. congruence. }
  assert (Himp : Forall (fun r => imp_id r <> n) (imports db)).
  { apply Forall_forall. intros r Hr E.
    apply (nextId_fresh (imp_id <$> imports db)). fold n. rewrite <- E.
    by apply list_elem_of_fmap_2. }
  rewrite !filter_app, (filter_all _ _ Hold), (filter_none _ _ Hnew),
    (filter_all _ _ Himp), !app_nil_r.
  rewrite filter_cons, decide_False, filter_nil, app_nil_r
    by (unfold importRecord; simpl; fold n; intros H; by apply H).
  by destruct db.
Qed.

(** The example file imported into a store with an earlier import, and
    deleted again. *)
Lemma import_then_delete_witness :
  deleteImport true 2
    (db_after (processUploadedFiles noBrowserDate exampleProfile "1" ""
                 [exampleFile] exampleHistoryStore))
  = exampleHistoryStore.
Proof.
  destruct (import_then_delete noBrowserDate exampleProfile "1" ""
              exampleFile exampleHistoryStore eq_refl) as (r & Hl & _ & H).
  vm_compute in Hl. injection Hl as <-. apply H.
  repeat constructor; by compute.
Defined.

(** ** Import history *)

Lemma fmap_fixed {A} (f : A -> A) (l : list A) :
  f <$> l = l <-> Forall (fun x => f x = x) l.
Proof.
  induction l as [|x l IH]; [split; [constructor|done]|].
  rewrite fmap_cons, Forall_cons, <- IH. split.
  - by intros [= -> ->].
  - by intros [-> ->].
Qed.

(** X5: ignoring an import and restoring it is not a round trip.  After
    [undoImport] and [reactivateImport] every transaction of the import has
    [ignored = 0], whatever it had before, its other columns and all other
    transactions being as they were; the database is the one before the two
    steps exactly when no transaction of the import was ignored before. *)
Theorem reactivate_after_undo (importId : Z) (db : DB) :
  transactions (reactivateImport true importId (undoImport true importId db))
  = (fun t => if tx_import_id t =? importId then withIgnored 0 t else t)
      <$> transactions db
  /\ (reactivateImport true importId (undoImport true importId db) = db
      <-> Forall (fun t => tx_import_id t = importId -> tx_ignored t = 0)
            (transactions db)).
Proof.
  assert (E : transactions
                (reactivateImport true importId (undoImport true importId db))
              = (fun t => if tx_import_id t =? importId then withIgnored 0 t
                          else t) <$> transactions db).
  { unfold reactivateImport, undoImport, setImportIgnored. simpl.
    rewrite <- list_fmap_compose. apply list_fmap_ext. intros i t _. simpl.
    destruct (tx_import_id t =? importId) eqn:Ei; simpl; by rewrite Ei. }
  split; [exact E|].
  assert (Hdb : reactivateImport true importId (undoImport true importId db)
                = withTransactions db
                    (transactions
                       (reactivateImport true importId
                          (undoImport true importId db)))) by reflexivity.
  rewrite Hdb, E. split.
  - intros H. apply (f_equal transactions) in H. simpl in H.
    apply fmap_fixed in H. eapply Forall_impl; [exact H|].
    intros t Ht Hi. simpl in Ht. rewrite Hi, Z.eqb_refl in Ht.
    by rewrite <- Ht.
  - intros H. rewrite (proj2 (fmap_fixed _ _)); [by destruct db|].
    eapply Forall_impl; [exact H|]. intros t Ht. simpl.
    destruct (tx_import_id t =? importId) eqn:Ei; [|done].
    apply Z.eqb_eq in Ei. specialize (Ht Ei). destruct t. simpl in *.
    unfold withIgnored. simpl. by rewrite Ht.
Qed.

(** No transaction of the example store is ignored: ignoring its import
    and restoring it gives the store back. *)
Lemma reactivate_after_undo_witness :
  reactivateImport true 1 (undoImport true 1 exampleStore) = exampleStore.
Proof.
  apply (proj2 (reactivate_after_undo 1 exampleStore)).
  repeat constructor.
Defined.

(** ** Rule resolution: the category assigned *)

Lemma fallbackOf_nonempty dc : JS.isEmpty (fallbackOf dc) = false.
Proof.
  unfold fallbackOf, JS.orElse.
  by destruct (JS.isEmpty (default EmptyString dc)) eqn:E.
Qed.

Lemma categorySlot_cases rules d fb :
  categorySlot rules d fb = fb
  \/ exists rule,
      rule ∈ rules /\ categorizeHit d rule = true
      /\ categoryValue rule = Some (categorySlot rules d fb)
      /\ JS.isEmpty (categorySlot rules d fb) = false.
Proof.
  unfold categorySlot.
  destruct (List.find (categorizeHit d) rules) as [rule|] eqn:E; [|by left].
  right. apply find_some in E as [Hin Hhit]. exists rule.
  split; [by apply list_elem_of_In|]. split; [done|].
  unfold categorizeHit in Hhit. apply andb_prop in Hhit as [_ Ht].
  destruct (categoryValue rule) as [c|]; [|discriminate]. simpl in *.
  split; [done|]. by apply negb_true_iff.
Qed.

(** The resolved category: the fallback, or the category of a matching
    categorize rule. *)
Lemma resultCategory_cases db description defaultCategory :
  resultCategory (applyTransactionRules db description defaultCategory)
  = fallbackOf defaultCategory
  \/ categorizedByRule db description
       (resultCategory (applyTransactionRules db description defaultCategory)).
Proof.
  unfold applyTransactionRules. rewrite applyRules_slots.
  destruct (JS.isEmpty description); [by left|]. simpl.
  destruct (categorySlot_cases (rulesQuery db) description
              (fallbackOf defaultCategory))
    as [-> | (rule & Hin & Hhit & Hc & Hne)]; [by left|]. right.
  unfold rulesQuery in Hin. apply list_elem_of_fmap in Hin as (r & -> & Hr).
  rewrite merge_sort_Permutation in Hr.
  apply enabledRules_elem in Hr as [Hr He].
  unfold categorizeHit in Hhit.
  apply andb_prop in Hhit as [[Hm Ha]%andb_prop _].
  exists r. repeat split; try done. by apply String.eqb_eq.
Qed.

Lemma resultCategory_nonempty db d c :
  JS.isEmpty (resultCategory (applyTransactionRules db d c)) = false.
Proof.
  unfold applyTransactionRules. rewrite applyRules_slots.
  destruct (JS.isEmpty d); simpl; [apply fallbackOf_nonempty|].
  destruct (categorySlot_cases (rulesQuery db) d (fallbackOf c))
    as [-> | (_ & _ & _ & _ & H)]; [apply fallbackOf_nonempty | done].
Qed.

(** X6: the category rule resolution returns is never empty, and it is
    either the fallback ([defaultCategory || 'Uncategorized']) or the name
    of an existing category that an enabled categorize rule of the table
    refers to and whose keyword matches the description. *)
Theorem resolved_category_sound (db : DB) (description : string)
    (defaultCategory : option string) :
  JS.isEmpty
    (resultCategory (applyTransactionRules db description defaultCategory))
  = false
  /\ (resultCategory (applyTransactionRules db description defaultCategory)
      = fallbackOf defaultCategory
      \/ categorizedByRule db description
           (resultCategory
              (applyTransactionRules db description defaultCategory))).
Proof.
  split; [apply resultCategory_nonempty | apply resultCategory_cases].
Qed.

(** ** Keywords taken from a description *)

Lemma charMatches_refl ignoreCase c : charMatches ignoreCase c c = true.
Proof. unfold charMatches. destruct ignoreCase; apply Ascii.eqb_refl. Qed.

Lemma sameText_refl ignoreCase kw : sameText ignoreCase kw kw = true.
Proof.
  induction kw as [|c kw IH]; [done|]. simpl.
  by rewrite charMatches_refl, IH.
Qed.

Lemma sameText_ignoreCase kw mid :
  sameText false kw mid = true -> sameText true kw mid = true.
Proof.
  revert mid. induction kw as [|k kw IH]; intros [|c mid]; simpl; try done.
  intros [Hc Hm]%andb_prop. apply Ascii.eqb_eq in Hc as ->.
  by rewrite Ascii.eqb_refl, IH.
Qed.

Lemma whiteSpace_not_word c :
  JS.isWhiteSpace c = true -> JS.isWordChar c = false.
Proof.
  destruct c as [[] [] [] [] [] [] [] []]; vm_compute; congruence.
Qed.

Lemma trimStart_parts s :
  exists pre, s = pre +:+ JS.trimStart s
    /\ JS.allChars JS.isWhiteSpace pre = true.
Proof.
  induction s as [|c s (pre & E & Hp)]; [by exists EmptyString|].
  simpl. destruct (JS.isWhiteSpace c) eqn:Hc.
  - exists (String c pre). rewrite app_cons, <- E. simpl. by rewrite Hc.
  - by exists EmptyString.
Qed.

Lemma trimEnd_parts s :
  exists post, s = JS.trimEnd s +:+ post
    /\ JS.allChars JS.isWhiteSpace post = true.
Proof.
  induction s as [|c s (post & E & Hp)]; [by exists EmptyString|].
  simpl. destruct (JS.isEmpty (JS.trimEnd s) && JS.isWhiteSpace c) eqn:Hc.
  - apply andb_prop in Hc as [He Hc]. exists (String c s).
    rewrite app_empty_l. split; [done|]. simpl. rewrite Hc. simpl.
    destruct (JS.trimEnd s); [|done]. rewrite app_empty_l in E. by rewrite E.
  - exists post. rewrite app_cons, <- E. done.
Qed.

Lemma string_snoc c s :
  exists p d, String c s = p +:+ String d EmptyString.
Proof.
  revert c. induction s as [|c' s IH]; intros c.
  - by exists EmptyString, c.
  - destruct (IH c') as (p & d & ->). by exists (String c p), d.
Qed.

Lemma whiteSpace_leftBoundary pre :
  JS.allChars JS.isWhiteSpace pre = true -> leftBoundary pre.
Proof.
  intros H. destruct pre as [|c s]; [by left|]. right.
  destruct (string_snoc c s) as (p & d & E). exists p, d. split; [done|].
  rewrite E, allChars_app in H. apply andb_prop in H as [_ H].
  simpl in H. rewrite andb_true_r in H. by apply whiteSpace_not_word.
Qed.

Lemma whiteSpace_rightBoundary post :
  JS.allChars JS.isWhiteSpace post = true -> rightBoundary post.
Proof.
  intros H. destruct post as [|c s]; [by left|]. right. exists c, s.
  split; [done|]. simpl in H. apply andb_prop in H as [H _].
  by apply whiteSpace_not_word.
Qed.

Lemma ruleMatches_flanked rule description :
  ruleMatches rule description = true
  <-> flankedOccurrence (caseSensitive rule =? 0) (keyword rule) description.
Proof.
  unfold ruleMatches, flankedOccurrence. rewrite searchFrom_spec. split.
  - intros (pre & mid & post & E & Hs & Hp & Hb).
    exists pre, mid, post. repeat split; auto.
    destruct Hp as [[-> _] | Hp]; [by left | by right].
  - intros (pre & mid & post & E & Hs & Hp & Hb).
    exists pre, mid, post. repeat split; auto.
    destruct Hp as [-> | Hp]; [by left | by right].
Qed.

(** A keyword that is the trimmed description matches the description. *)
Lemma trimmed_keyword_matches description act cat cs :
  ruleMatches (mkRuleView (JS.trim description) act cat cs) description = true.
Proof.
  apply ruleMatches_flanked. simpl. unfold JS.trim.
  destruct (trimStart_parts description) as (pre & E1 & Hpre).
  destruct (trimEnd_parts (JS.trimStart description)) as (post & E2 & Hpost).
  exists pre, (JS.trimEnd (JS.trimStart description)), post.
  split; [by rewrite <- E2|]. split; [apply sameText_refl|].
  split; [by apply whiteSpace_leftBoundary | by apply whiteSpace_rightBoundary].
Qed.

(** What a successful [addRule] stores. *)
Lemma addRule_success nameInput keywordInput actionInput caseSensitiveInput
    priorityInput categoryInput db :
  (addRule nameInput keywordInput actionInput caseSensitiveInput priorityInput
     categoryInput db).2.1 = "success" ->
  validators.ruleName (JS.trim nameInput) = None
  /\ validators.keyword (JS.trim keywordInput) = None
  /\ (actionInput = "categorize" -> is_Some categoryInput)
  /\ (addRule nameInput keywordInput actionInput caseSensitiveInput
        priorityInput categoryInput db).1
     = withRules db
         (transaction_rules db ++
            [mkRule (nextId (rule_id <$> transaction_rules db))
               (JS.trim keywordInput) actionInput
               (if String.eqb actionInput "categorize" then categoryInput
                else None)
               (if caseSensitiveInput then 1 else 0) 1
               (priorityOf priorityInput)]).
Proof.
  unfold addRule.
  destruct (validators.ruleName (JS.trim nameInput)); [discriminate|].
  destruct (validators.keyword (JS.trim keywordInput)); [discriminate|].
  destruct (String.eqb actionInput "categorize") eqn:Ea.
  - destruct (bool_decide (is_Some categoryInput)) eqn:Ec; [|discriminate].
    simpl. intros _. apply bool_decide_eq_true in Ec. done.
  - simpl. intros _. repeat split; try done.
    intros ->. discriminate.
Qed.

(** X7: a rule made from a transaction's description matches it.
    [convertToRule] copies the description into the name and keyword
    fields; when [addRule] accepts them, the rule it appends is enabled and
    its pattern matches the description the keyword was taken from, whatever
    the action, the case flag and the white space around the description. *)
Theorem converted_rule_matches (description actionInput : string)
    (caseSensitiveInput : bool) (priorityInput : string)
    (categoryInput : option Z) (db : DB) :
  (addRule description description actionInput caseSensitiveInput
     priorityInput categoryInput db).2.1 = "success" ->
  exists r,
    transaction_rules
      (addRule description description actionInput caseSensitiveInput
         priorityInput categoryInput db).1
    = transaction_rules db ++ [r]
    /\ rule_enabled r = 1
    /\ rule_action r = actionInput
    /\ ruleMatches
         (viewOf
            (addRule description description actionInput caseSensitiveInput
               priorityInput categoryInput db).1 r)
         description = true.
Proof.
  intros H. apply addRule_success in H as (_ & _ & _ & ->).
  eexists. split; [reflexivity|]. split; [reflexivity|].
  split; [reflexivity|]. unfold viewOf. cbn [rule_keyword rule_action
    rule_category_value rule_case_sensitive]. apply trimmed_keyword_matches.
Qed.

Lemma converted_rule_matches_witness :
  exists r,
    transaction_rules
      (addRule "  GROCERY MART " "  GROCERY MART " "ignore" true "7" None
         exampleStore).1
    = transaction_rules exampleStore ++ [r]
    /\ rule_enabled r = 1
    /\ rule_action r = "ignore"
    /\ ruleMatches
         (viewOf
            (addRule "  GROCERY MART " "  GROCERY MART " "ignore" true "7"
               None exampleStore).1 r)
         "  GROCERY MART " = true.
Proof.
  apply (converted_rule_matches "  GROCERY MART " "ignore" true "7" None
           exampleStore).
  reflexivity.
Defined.

(** X8: switching a rule's case flag off never loses a match: a description
    the rule matches with exact comparison is matched by the rule with the
    same keyword compared up to letter case. *)
Theorem case_flag_monotone (kw act : string) (cat : option string) (cs : Z)
    (description : string) :
  ruleMatches (mkRuleView kw act cat cs) description = true ->
  ruleMatches (mkRuleView kw act cat 0) description = true.
Proof.
  rewrite !ruleMatches_flanked. cbn [caseSensitive keyword].
  intros (pre & mid & post & E & Hs & Hp & Hb).
  exists pre, mid, post. repeat split; try done.
  destruct (cs =? 0); [done|]. by apply sameText_ignoreCase.
Qed.

Lemma case_flag_monotone_witness :
  ruleMatches (mkRuleView "Cat" "ignore" None 0) "Cat food" = true.
Proof.
  apply (case_flag_monotone "Cat" "ignore" None 1 "Cat food"). reflexivity.
Defined.

(** ** Deleting a rule *)

Lemma StronglySorted_filter {A} (R : A -> A -> Prop) (P : A -> Prop)
    `{forall x, Decision (P x)} (l : list A) :
  StronglySorted R l -> StronglySorted R (filter P l).
Proof.
  induction 1 as [|x l Hs IH Hx]; [constructor|].
  rewrite filter_cons. destruct (decide (P x)); [|done].
  constructor; [done|]. apply Forall_forall. intros y Hy.
  apply list_elem_of_filter in Hy as [_ Hy].
  by apply (proj1 (Forall_forall _ _) Hx).
Qed.

Lemma enabledRules_deleteRule ruleId db :
  enabledRules (deleteRule true ruleId db)
  = filter (fun r => rule_id r <> ruleId) (enabledRules db).
Proof.
  unfold enabledRules, deleteRule. simpl.
  rewrite !list_filter_filter. apply list_filter_iff. tauto.
Qed.

(** The rows the rule query walks after a rule is deleted. *)
Lemma sorted_rules_deleteRule ruleId db :
  NoDup (rule_id <$> transaction_rules db) ->
  merge_sort ruleOrder (enabledRules (deleteRule true ruleId db))
  = filter (fun r => rule_id r <> ruleId)
      (merge_sort ruleOrder (enabledRules db)).
Proof.
  intros Hnd. rewrite enabledRules_deleteRule.
  apply (StronglySorted_unique_strong ruleOrder).
  - intros x1 x2 H1 H2 R12 R21.
    rewrite merge_sort_Permutation in H1.
    apply list_elem_of_filter in H1 as [_ H1], H2 as [_ H2].
    rewrite merge_sort_Permutation in H2.
    apply enabledRules_elem in H1 as [H1 _], H2 as [H2 _].
    apply (NoDup_key_inj rule_id (transaction_rules db)); auto.
    unfold ruleOrder in R12, R21. lia.
  - apply StronglySorted_merge_sort; apply _.
  - apply StronglySorted_filter, StronglySorted_merge_sort; apply _.
  - by rewrite !merge_sort_Permutation.
Qed.

Lemma existsb_fmap_filter {A B} (g : B -> bool) (f : A -> B) (P : A -> Prop)
    `{forall x, Decision (P x)} (l : list A) :
  (forall x, x ∈ l -> ~ P x -> g (f x) = false) ->
  existsb g (f <$> filter P l) = existsb g (f <$> l).
Proof.
  induction l as [|x l IH]; intros Hg; [done|].
  rewrite filter_cons.
  assert (Hl : forall y, y ∈ l -> ~ P y -> g (f y) = false)
    by (intros y Hy; apply Hg; by constructor).
  destruct (decide (P x)) as [Hx|Hx]; rewrite !fmap_cons; cbn [existsb].
  - by rewrite IH.
  - rewrite (Hg x) by (done || constructor). by rewrite IH.
Qed.

Lemma find_fmap_filter {A B} (g : B -> bool) (f : A -> B) (P : A -> Prop)
    `{forall x, Decision (P x)} (l : list A) :
  (forall x, x ∈ l -> ~ P x -> g (f x) = false) ->
  List.find g (f <$> filter P l) = List.find g (f <$> l).
Proof.
  induction l as [|x l IH]; intros Hg; [done|].
  rewrite filter_cons.
  assert (Hl : forall y, y ∈ l -> ~ P y -> g (f y) = false)
    by (intros y Hy; apply Hg; by constructor).
  destruct (decide (P x)) as [Hx|Hx]; rewrite !fmap_cons; cbn [List.find].
  - by rewrite IH.
  - rewrite (Hg x) by (done || constructor). by rewrite IH.
Qed.

(** X9: deleting a rule.  The category, transaction and import tables stay
    as they are (no stored transaction changes); the rule query returns the
    rows it returned before without the deleted rule, in the same order; and
    rule resolution gives every description the result it gave before,
    unless the deleted rule was enabled and matched it.  Rule ids are the
    table's primary key. *)
Theorem deleteRule_resolution (ruleId : Z) (db : DB) :
  NoDup (rule_id <$> transaction_rules db) ->
  categories (deleteRule true ruleId db) = categories db
  /\ transactions (deleteRule true ruleId db) = transactions db
  /\ imports (deleteRule true ruleId db) = imports db
  /\ rulesQuery (deleteRule true ruleId db)
     = viewOf db <$>
         filter (fun r => rule_id r <> ruleId)
           (merge_sort ruleOrder (enabledRules db))
  /\ forall description defaultCategory,
       (forall r, r ∈ transaction_rules db -> rule_id r = ruleId ->
                  rule_enabled r = 1 ->
                  ruleMatches (viewOf db r) description = false) ->
       applyTransactionRules (deleteRule true ruleId db) description
         defaultCategory
       = applyTransactionRules db description defaultCategory.
Proof.
  intros Hnd.
  assert (Hq : rulesQuery (deleteRule true ruleId db)
               = viewOf db <$>
                   filter (fun r => rule_id r <> ruleId)
                     (merge_sort ruleOrder (enabledRules db))).
  { unfold rulesQuery. by rewrite sorted_rules_deleteRule. }
  repeat split; try done.
  intros d dc Hno. unfold applyTransactionRules.
  rewrite !applyRules_slots, Hq. unfold rulesQuery.
  destruct (JS.isEmpty d); [done|].
  assert (Hout : forall g : RuleView -> bool,
            (forall v, g v = true -> ruleMatches v d = true) ->
            forall x, x ∈ merge_sort ruleOrder (enabledRules db) ->
                      ~ rule_id x <> ruleId -> g (viewOf db x) = false).
  { intros g Hg x Hx Hid. rewrite merge_sort_Permutation in Hx.
    apply enabledRules_elem in Hx as [Hx He].
    destruct (g (viewOf db x)) eqn:E; [|done]. apply Hg in E.
    assert (Hx' : rule_id x = ruleId)
      by (destruct (decide (rule_id x = ruleId)); [done | by destruct Hid]).
    by rewrite (Hno x Hx Hx' He) in E. }
  unfold ignoreSlot, categorySlot. f_equal.
  - apply existsb_fmap_filter, Hout. intros v Hv.
    unfold ignoreHit in Hv. by apply andb_prop in Hv as [Hv _].
  - rewrite find_fmap_filter; [done|]. apply Hout. intros v Hv.
    unfold categorizeHit in Hv. by apply andb_prop in Hv as [[Hv _]%andb_prop _].
Qed.

(** Deleting the only rule of the example store: the description the rule
    matched falls back to its default category. *)
Lemma deleteRule_resolution_witness :
  rulesQuery (deleteRule true 2 exampleStore) = []
  /\ applyTransactionRules (deleteRule true 2 exampleStore) "SALARY" None
     = applyTransactionRules exampleStore "SALARY" None.
Proof.
  assert (Hnd : NoDup (rule_id <$> transaction_rules exampleStore))
    by compute_done.
  destruct (deleteRule_resolution 2 exampleStore Hnd)
    as (_ & _ & _ & Hq & Hr).
  split; [rewrite Hq; reflexivity|]. apply Hr.
  intros r Hr' _ _. apply list_elem_of_singleton in Hr' as ->. reflexivity.
Defined.

(** ** Adding a rule *)

Lemma addRule_error nameInput keywordInput actionInput caseSensitiveInput
    priorityInput categoryInput db :
  (addRule nameInput keywordInput actionInput caseSensitiveInput priorityInput
     categoryInput db).2.1 <> "success" ->
  (addRule nameInput keywordInput actionInput caseSensitiveInput priorityInput
     categoryInput db).2.1 = "error"
  /\ (addRule nameInput keywordInput actionInput caseSensitiveInput
        priorityInput categoryInput db).1 = db.
Proof.
  unfold addRule.
  destruct (validators.ruleName (JS.trim nameInput)); [done|].
  destruct (validators.keyword (JS.trim keywordInput)); [done|].
  by destruct (String.eqb actionInput "categorize" && _).
Qed.

Lemma keyword_accepted kw :
  validators.keyword kw = None ->
  JS.isEmpty kw = false /\ JS.isEmpty (JS.trim kw) = false
  /\ (String.length kw <= 100)%nat.
Proof.
  unfold validators.keyword, blankInput.
  destruct (JS.isEmpty kw) eqn:E1; [done|]. simpl.
  destruct (String.length (JS.trim kw) =? 0)%nat eqn:E2; [done|].
  destruct (100 <? String.length kw)%nat eqn:E3; [done|]. intros _.
  split; [done|]. split.
  - destruct (JS.trim kw); [done|done].
  - by apply Nat.ltb_ge.
Qed.

(** X10: [addRule] stores nothing it has not validated.  A call either
    reports an error and leaves the database as it was, or reports success
    and appends exactly one rule: enabled, with an id no rule had, a keyword
    that is the trimmed input, not empty and of at most 100 characters, a
    case flag of 0 or 1, and a category exactly when its action is
    [categorize].  The other tables are never touched. *)
Theorem addRule_validated (nameInput keywordInput actionInput : string)
    (caseSensitiveInput : bool) (priorityInput : string)
    (categoryInput : option Z) (db : DB) :
  categories
    (addRule nameInput keywordInput actionInput caseSensitiveInput
       priorityInput categoryInput db).1 = categories db
  /\ transactions
       (addRule nameInput keywordInput actionInput caseSensitiveInput
          priorityInput categoryInput db).1 = transactions db
  /\ imports
       (addRule nameInput keywordInput actionInput caseSensitiveInput
          priorityInput categoryInput db).1 = imports db
  /\ (((addRule nameInput keywordInput actionInput caseSensitiveInput
          priorityInput categoryInput db).2.1 = "error"
       /\ (addRule nameInput keywordInput actionInput caseSensitiveInput
             priorityInput categoryInput db).1 = db)
      \/ ((addRule nameInput keywordInput actionInput caseSensitiveInput
             priorityInput categoryInput db).2.1 = "success"
          /\ exists r,
              transaction_rules
                (addRule nameInput keywordInput actionInput caseSensitiveInput
                   priorityInput categoryInput db).1
              = transaction_rules db ++ [r]
              /\ (rule_id r ∉ rule_id <$> transaction_rules db)
              /\ rule_keyword r = JS.trim keywordInput
              /\ JS.isEmpty (rule_keyword r) = false
              /\ (String.length (rule_keyword r) <= 100)%nat
              /\ rule_enabled r = 1
              /\ rule_action r = actionInput
              /\ (rule_case_sensitive r = 0 \/ rule_case_sensitive r = 1)
              /\ (is_Some (rule_category_value r)
                  <-> rule_action r = "categorize"))).
Proof.
  destruct (decide ((addRule nameInput keywordInput actionInput
                       caseSensitiveInput priorityInput categoryInput db).2.1
                    = "success")) as [Hs|Hs].
  - destruct (addRule_success _ _ _ _ _ _ _ Hs) as (_ & Hk & Hc & E).
    rewrite E. repeat split; try done. right. split; [done|].
    destruct (keyword_accepted _ Hk) as (Hne & _ & Hlen).
    eexists. split; [reflexivity|]. cbn [rule_id rule_keyword rule_enabled
      rule_action rule_case_sensitive rule_category_value].
    repeat split; try done.
    + apply nextId_fresh.
    + destruct caseSensitiveInput; auto.
    + destruct (String.eqb actionInput "categorize") eqn:Ea.
      * intros _. by apply String.eqb_eq.
      * by intros [? ?].
    + intros ->. simpl. by apply Hc.
  - destruct (addRule_error _ _ _ _ _ _ _ Hs) as [He ->].
    repeat split; try done. by left.
Qed.

(** The ignore slot, read off the rule table. *)
Lemma ignoreSlot_rulesQuery db description :
  ignoreSlot (rulesQuery db) description = true
  <-> ignoredByRule db description.
Proof.
  unfold ignoreSlot, rulesQuery. rewrite existsb_exists. split.
  - intros (v & Hv & Hhit). apply list_elem_of_In in Hv.
    apply list_elem_of_fmap in Hv as (r & -> & Hr).
    rewrite merge_sort_Permutation in Hr.
    apply enabledRules_elem in Hr as [Hr He].
    unfold ignoreHit in Hhit. apply andb_prop in Hhit as [Hm Ha].
    exists r. repeat split; try done. by apply String.eqb_eq.
  - intros (r & Hr & He & Ha & Hm). exists (viewOf db r). split.
    + apply list_elem_of_In, list_elem_of_fmap_2.
      rewrite merge_sort_Permutation. by apply enabledRules_elem.
    + unfold ignoreHit. rewrite Hm. simpl. by apply String.eqb_eq.
Qed.

(** X11: the ignore decision does not depend on priorities.  Rule
    resolution reports [shouldIgnore] exactly when the description is not
    empty and some enabled rule of the table with action [ignore] matches
    it, wherever that rule stands in the priority order and whatever
    categorize rules match as well. *)
Theorem ignore_any_priority (db : DB) (description : string)
    (defaultCategory : option string) :
  shouldIgnore (applyTransactionRules db description defaultCategory) = true
  <-> JS.isEmpty description = false /\ ignoredByRule db description.
Proof.
  unfold applyTransactionRules. rewrite applyRules_slots.
  destruct (JS.isEmpty description); simpl.
  - split; [done | by intros [? _]].
  - rewrite ignoreSlot_rulesQuery. tauto.
Qed.

(** X12: an ignore rule made from a description takes effect at once.
    When [addRule] accepts the form [convertToRule] filled with a
    description and the action is [ignore], rule resolution on the new
    database ignores that description. *)
Theorem converted_ignore_rule_applies (description : string)
    (caseSensitiveInput : bool) (priorityInput : string)
    (categoryInput : option Z) (db : DB) (defaultCategory : option string) :
  (addRule description description "ignore" caseSensitiveInput priorityInput
     categoryInput db).2.1 = "success" ->
  shouldIgnore
    (applyTransactionRules
       (addRule description description "ignore" caseSensitiveInput
          priorityInput categoryInput db).1 description defaultCategory)
  = true.
Proof.
  intros H. destruct (addRule_success _ _ _ _ _ _ _ H) as (_ & Hk & _ & E).
  rewrite E. unfold applyTransactionRules. rewrite applyRules_slots.
  destruct (keyword_accepted _ Hk) as (_ & Hne & _).
  assert (Hd : JS.isEmpty description = false).
  { destruct description; [done|done]. }
  rewrite Hd. simpl. apply ignoreSlot_rulesQuery.
  eexists. split; [apply elem_of_app; right; by constructor|].
  split; [done|]. split; [done|]. unfold viewOf. simpl.
  apply trimmed_keyword_matches.
Qed.

Lemma converted_ignore_rule_applies_witness :
  shouldIgnore
    (applyTransactionRules
       (addRule "GROCERY MART" "GROCERY MART" "ignore" false "" None
          exampleStore).1 "GROCERY MART" None)
  = true.
Proof.
  apply (converted_ignore_rule_applies "GROCERY MART" false "" None
           exampleStore None).
  reflexivity.
Defined.

(** ** Bulk re-categorisation once more *)

Lemma fallbackOf_fixed s : JS.isEmpty s = false -> fallbackOf (Some s) = s.
Proof. intros H. unfold fallbackOf, JS.orElse. simpl. by rewrite H. Qed.

Lemma shouldIgnore_default db d c1 c2 :
  shouldIgnore (applyTransactionRules db d c1)
  = shouldIgnore (applyTransactionRules db d c2).
Proof.
  unfold applyTransactionRules. rewrite !applyRules_slots.
  by destruct (JS.isEmpty d).
Qed.

(** Resolving again with the resolved category as the default resolves to
    the same category. *)
Lemma resultCategory_again db d c :
  resultCategory
    (applyTransactionRules db d
       (Some (resultCategory (applyTransactionRules db d c))))
  = resultCategory (applyTransactionRules db d c).
Proof.
  pose proof (resultCategory_nonempty db d c) as Hne. revert Hne.
  unfold applyTransactionRules. rewrite !applyRules_slots.
  destruct (JS.isEmpty d); simpl; [apply fallbackOf_fixed|].
  unfold categorySlot.
  destruct (List.find (categorizeHit d) (rulesQuery db)); [done|].
  apply fallbackOf_fixed.
Qed.

Lemma categoryNameById_of_name db name n :
  NoDup (cat_id <$> categories db) ->
  categoryIdByName db name = Some n ->
  categoryNameById db (Some n) = Some name.
Proof.
  intros Hnd H. destruct (categoryIdByName_elem _ _ _ H) as (c & Hc & Hi & Hn).
  unfold categoryNameById.
  destruct (List.find (fun c => cat_id c =? n) (categories db)) as [c'|] eqn:E.
  - apply find_some in E as [Hc' Hi']. apply Z.eqb_eq in Hi'.
    apply list_elem_of_In in Hc'.
    assert (c' = c) as ->
      by (apply (NoDup_key_inj cat_id (categories db)); congruence).
    simpl. by rewrite Hn.
  - apply list_elem_of_In in Hc. apply (find_none _ _ E c) in Hc.
    simpl in Hc. rewrite Hi, Z.eqb_refl in Hc. done.
Qed.

(** A second pass over a row the rules were applied to changes nothing. *)
Lemma updatedByRules_again db t :
  NoDup (cat_id <$> categories db) ->
  updatedByRules db (updatedByRules db t) = updatedByRules db t.
Proof.
  intros Hnd. destruct t as [i im da de a c ig ai m].
  unfold updatedByRules.
  cbn [tx_id tx_import_id tx_date tx_description tx_amount tx_ignored
       tx_auto_ignored tx_manual_category tx_category_id].
  destruct (bool_decide
              (Some
                 (resultCategory
                    (applyTransactionRules db (default EmptyString de)
                       (categoryNameById db c)))
               = categoryNameById db c)) eqn:Eb.
  { rewrite Eb. f_equal. by destruct (shouldIgnore _). }
  destruct (categoryIdByName db
              (resultCategory
                 (applyTransactionRules db (default EmptyString de)
                    (categoryNameById db c)))) as [n|] eqn:En.
  2: { rewrite Eb, En. f_equal. by destruct (shouldIgnore _). }
  destruct (n =? 0) eqn:E0.
  { rewrite Eb, En, E0. f_equal. by destruct (shouldIgnore _). }
  rewrite (categoryNameById_of_name _ _ _ Hnd En), resultCategory_again.
  rewrite bool_decide_eq_true_2 by done. f_equal.
  rewrite (shouldIgnore_default db _ _ (categoryNameById db c)).
  by destruct (shouldIgnore _).
Qed.

Lemma updatedByRules_sameConfig cfg db t :
  sameConfig cfg db -> updatedByRules db t = updatedByRules cfg t.
Proof.
  intros Hc. unfold updatedByRules.
  assert (Hn : forall i, categoryNameById db i = categoryNameById cfg i).
  { intros [i|]; [|done]. unfold categoryNameById.
    by rewrite (proj1 Hc). }
  rewrite Hn, (applyTransactionRules_sameConfig cfg db _ _ Hc).
  by rewrite (categoryIdByName_sameConfig cfg db _ Hc).
Qed.

Lemma fallback_changes cur :
  Some (fallbackOf cur) <> cur ->
  JS.truthy cur = false /\ fallbackOf cur = "Uncategorized".
Proof.
  destruct cur as [s|]; [|done]. unfold fallbackOf, JS.orElse. simpl.
  destruct (JS.isEmpty s); [done|]. intros H. by destruct H.
Qed.

(** One row under the rules. *)
Lemma updatedByRules_reapplied db t : reappliedRow db t (updatedByRules db t).
Proof.
  unfold reappliedRow, updatedByRules.
  cbn [tx_id tx_import_id tx_date tx_description tx_amount tx_ignored
       tx_auto_ignored tx_manual_category tx_category_id].
  set (d := default EmptyString (tx_description t)).
  set (cur := categoryNameById db (tx_category_id t)).
  split; [done|]. split.
  - destruct (shouldIgnore (applyTransactionRules db d cur)) eqn:Hi;
      [|by left].
    right. split; [done|]. apply ignoreSlot_rulesQuery.
    unfold applyTransactionRules in Hi. rewrite applyRules_slots in Hi.
    by destruct (JS.isEmpty d).
  - destruct (bool_decide
                (Some (resultCategory (applyTransactionRules db d cur)) = cur))
      eqn:Eb; [by left|].
    apply bool_decide_eq_false in Eb.
    destruct (categoryIdByName db
                (resultCategory (applyTransactionRules db d cur)))
      as [n|] eqn:En; [|by left].
    destruct (n =? 0) eqn:E0; [by left|]. apply Z.eqb_neq in E0.
    right. exists n, (resultCategory (applyTransactionRules db d cur)).
    split; [done|]. split; [done|].
    split; [by apply categoryIdByName_elem|].
    destruct (resultCategory_cases db d cur) as [Hf | Hr]; [|by left].
    right. rewrite Hf in Eb |- *. by apply fallback_changes.
Qed.

Lemma reappliedRow_refl db t : reappliedRow db t t.
Proof. split; [by destruct t|]. split; by left. Qed.

(** X13: what a bulk re-application of the rules can change.  The table
    keeps its rows and their order; on each row only the ignore flag and the
    category may differ afterwards.  The flag is never lowered, and it is
    raised only when an enabled ignore rule matches the description.  The
    category moves only to an existing category with a non-zero id, and
    only because an enabled categorize rule that matches the description
    names it, or, for a row whose category is null, missing or has an empty
    name, to the category [Uncategorized].  Transaction ids are the table's
    primary key. *)
Theorem bulk_apply_changes (confirmed : bool) (db : DB) :
  NoDup (tx_id <$> transactions db) ->
  Forall2 (reappliedRow db) (transactions db)
    (transactions (applyRulesToExisting confirmed db)).
Proof.
  intros Hnd. rewrite (applyRulesToExisting_rows confirmed db Hnd).
  destruct (confirmed && negb (bool_decide (enabledRules db = []))).
  - simpl. apply Forall2_fmap_r, Forall_Forall2_diag, Forall_forall.
    intros t _. unfold compose. cbv beta. destruct (tx_manual_category t =? 1);
      [apply reappliedRow_refl | apply updatedByRules_reapplied].
  - apply Forall_Forall2_diag, Forall_forall. intros t _.
    apply reappliedRow_refl.
Qed.

(** In the example store the unflagged row moves to the category the
    matching rule names, and nothing else in it changes. *)
Lemma bulk_apply_changes_witness :
  Forall2 (reappliedRow exampleStore) (transactions exampleStore)
    (transactions (applyRulesToExisting true exampleStore)).
Proof.
  apply (bulk_apply_changes true exampleStore). compute_done.
Defined.

(** X14: a bulk re-application is idempotent: applying the rules a second
    time, with the rule and category tables unchanged in between, leaves
    every transaction as the first application left it.  Transaction and
    category ids are primary keys. *)
Theorem bulk_apply_idempotent (db : DB) :
  NoDup (tx_id <$> transactions db) ->
  NoDup (cat_id <$> categories db) ->
  applyRulesToExisting true (applyRulesToExisting true db)
  = applyRulesToExisting true db.
Proof.
  intros Hnd Hc. rewrite (applyRulesToExisting_rows true db Hnd).
  destruct (true && negb (bool_decide (enabledRules db = []))) eqn:Hgo.
  2: { rewrite (applyRulesToExisting_rows true db Hnd). by rewrite Hgo. }
  set (f := fun t => if tx_manual_category t =? 1 then t
                     else updatedByRules db t).
  assert (Hid : forall t, tx_id (f t) = tx_id t).
  { intros t. unfold f. by destruct (tx_manual_category t =? 1). }
  assert (Hnd' : NoDup (tx_id <$> transactions
                                    (withTransactions db (f <$> transactions db)))).
  { simpl. rewrite <- list_fmap_compose.
    by rewrite (list_fmap_ext (tx_id ∘ f) tx_id (transactions db)
                  (fun _ x _ => Hid x)). }
  rewrite (applyRulesToExisting_rows true _ Hnd').
  replace (enabledRules (withTransactions db (f <$> transactions db)))
    with (enabledRules db) by reflexivity.
  rewrite Hgo. unfold withTransactions. simpl. f_equal.
  rewrite <- list_fmap_compose. apply list_fmap_ext. intros i t _. simpl.
  unfold f. destruct (tx_manual_category t =? 1) eqn:Em.
  - by rewrite Em.
  - change (tx_manual_category (updatedByRules db t))
      with (tx_manual_category t).
    rewrite Em.
    rewrite (updatedByRules_sameConfig db
               (mkDB (categories db) (transaction_rules db)
                  (f <$> transactions db) (imports db)))
      by (by split).
    by apply updatedByRules_again.
Qed.

Lemma bulk_apply_idempotent_witness :
  applyRulesToExisting true (applyRulesToExisting true exampleStore)
  = applyRulesToExisting true exampleStore.
Proof.
  apply (bulk_apply_idempotent exampleStore); compute_done.
Defined.

(** ** Manual edits and bulk re-application *)

(** The row at one position after a bulk re-application on a database whose
    rule and category tables are those of [cfg]. *)
Lemma applyRulesToExisting_lookup confirmed cfg db i t :
  sameConfig cfg db ->
  NoDup (tx_id <$> transactions db) ->
  transactions db !! i = Some t ->
  transactions (applyRulesToExisting confirmed db) !! i
  = Some (if confirmed && negb (bool_decide (enabledRules cfg = []))
             && negb (tx_manual_category t =? 1)
          then updatedByRules cfg t else t).
Proof.
  intros Hc Hnd Ht. rewrite (applyRulesToExisting_rows confirmed db Hnd).
  replace (enabledRules db) with (enabledRules cfg)
    by (unfold enabledRules; by rewrite (proj2 Hc)).
  destruct (confirmed && negb (bool_decide (enabledRules cfg = []))); [|done].
  simpl. rewrite list_lookup_fmap, Ht. simpl.
  destruct (tx_manual_category t =? 1); [done|]. simpl.
  by rewrite (updatedByRules_sameConfig cfg db).
Qed.

Lemma fmap_by_id_NoDup (g : TxRow -> TxRow) (l : list TxRow) :
  (forall t, tx_id (g t) = tx_id t) ->
  NoDup (tx_id <$> l) -> NoDup (tx_id <$> (g <$> l)).
Proof.
  intros Hid H. rewrite <- list_fmap_compose.
  by rewrite (list_fmap_ext (tx_id ∘ g) tx_id l (fun _ x _ => Hid x)).
Qed.

(** X15: a manual category choice survives a bulk re-application.  After
    [saveTransactionCategory] the transaction carries the chosen category
    (also the empty choice, stored as null) and the manual flag, and a
    following [applyRulesToExisting] leaves it so, with its ignore flag as
    it was, whatever the rules say; every other transaction ends as it
    would have without the edit.  Transaction ids are the table's primary
    key. *)
Theorem manual_choice_survives (confirmed : bool) (categoryId : option Z)
    (db : DB) (i : nat) (t : TxRow) :
  NoDup (tx_id <$> transactions db) ->
  transactions db !! i = Some t ->
  transactions
    (applyRulesToExisting confirmed
       (saveTransactionCategory (tx_id t) categoryId db)) !! i
  = Some (withManualCategory categoryId t)
  /\ forall j t',
       transactions db !! j = Some t' -> tx_id t' <> tx_id t ->
       transactions
         (applyRulesToExisting confirmed
            (saveTransactionCategory (tx_id t) categoryId db)) !! j
       = transactions (applyRulesToExisting confirmed db) !! j.
Proof.
  intros Hnd Ht.
  set (g := fun t0 => if tx_id t0 =? tx_id t
                      then mkTx (tx_id t0) (tx_import_id t0) (tx_date t0)
                             (tx_description t0) (tx_amount t0) categoryId
                             (tx_ignored t0) (tx_auto_ignored t0) 1
                      else t0).
  assert (Hid : forall t0, tx_id (g t0) = tx_id t0).
  { intros t0. unfold g. by destruct (tx_id t0 =? tx_id t). }
  assert (Hnd' : NoDup (tx_id <$> transactions
                          (saveTransactionCategory (tx_id t) categoryId db)))
    by (by apply (fmap_by_id_NoDup g)).
  assert (Hcfg : sameConfig db
                   (saveTransactionCategory (tx_id t) categoryId db))
    by (by split).
  assert (Hlook : forall j t0, transactions db !! j = Some t0 ->
            transactions (saveTransactionCategory (tx_id t) categoryId db) !! j
            = Some (g t0)).
  { intros j t0 H0. unfold saveTransactionCategory. simpl.
    by rewrite list_lookup_fmap, H0. }
  split.
  - rewrite (applyRulesToExisting_lookup confirmed db _ i (g t) Hcfg Hnd'
               (Hlook _ _ Ht)).
    unfold g. rewrite Z.eqb_refl. simpl. by rewrite andb_false_r.
  - intros j t' Ht' Hne.
    rewrite (applyRulesToExisting_lookup confirmed db _ j (g t') Hcfg Hnd'
               (Hlook _ _ Ht')).
    rewrite (applyRulesToExisting_lookup confirmed db db j t'
               ltac:(by split) Hnd Ht').
    unfold g. by rewrite (proj2 (Z.eqb_neq _ _) Hne).
Qed.

(** The overridden row of the example store is given another category by
    hand; the rule for its description does not move it. *)
Lemma manual_choice_survives_witness :
  transactions
    (applyRulesToExisting true
       (saveTransactionCategory 2 (Some 3) exampleStore)) !! 1%nat
  = Some (mkTx 2 1 "2024-01-16" (Some "GROCERY STORE") (JS.Num (-20))
            (Some 3) 0 0 1).
Proof.
  apply (manual_choice_survives true (Some 3) exampleStore 1 exampleUnflagged);
    [compute_done | reflexivity].
Defined.

(** X16: a manual change of the ignore flag is not protected.  When an
    enabled ignore rule matches the description of a transaction that has
    no manual category flag, [applyRulesToExisting] leaves the transaction
    ignored whatever value [toggleIgnore] gave the flag before. *)
Theorem toggle_overridden_by_rules (ignoredValue : Z) (db : DB) (i : nat)
    (t : TxRow) :
  NoDup (tx_id <$> transactions db) ->
  transactions db !! i = Some t ->
  tx_manual_category t <> 1 ->
  JS.isEmpty (default EmptyString (tx_description t)) = false ->
  ignoredByRule db (default EmptyString (tx_description t)) ->
  tx_ignored <$>
    transactions
      (applyRulesToExisting true (toggleIgnore (tx_id t) ignoredValue db)) !! i
  = Some 1.
Proof.
  intros Hnd Ht Hm Hd Hr.
  set (g := fun t0 => if tx_id t0 =? tx_id t
                      then mkTx (tx_id t0) (tx_import_id t0) (tx_date t0)
                             (tx_description t0) (tx_amount t0)
                             (tx_category_id t0) ignoredValue
                             (tx_auto_ignored t0) (tx_manual_category t0)
                      else t0).
  assert (Hid : forall t0, tx_id (g t0) = tx_id t0).
  { intros t0. unfold g. by destruct (tx_id t0 =? tx_id t). }
  assert (Hnd' : NoDup (tx_id <$> transactions
                          (toggleIgnore (tx_id t) ignoredValue db)))
    by (by apply (fmap_by_id_NoDup g)).
  assert (Hlook : transactions (toggleIgnore (tx_id t) ignoredValue db) !! i
                  = Some (g t)).
  { unfold toggleIgnore. simpl. by rewrite list_lookup_fmap, Ht. }
  rewrite (applyRulesToExisting_lookup true db
             (toggleIgnore (tx_id t) ignoredValue db) i (g t)
             ltac:(by split) Hnd' Hlook).
  assert (Hen : enabledRules db <> []).
  { destruct Hr as (r & Hin & He & _). intros E.
    assert (Hr' : r ∈ enabledRules db) by (by apply enabledRules_elem).
    rewrite E in Hr'. by apply not_elem_of_nil in Hr'. }
  rewrite bool_decide_eq_false_2 by done.
  unfold g. rewrite Z.eqb_refl. simpl.
  rewrite (proj2 (Z.eqb_neq _ _) Hm). simpl.
  apply ignoreSlot_rulesQuery in Hr.
  unfold applyTransactionRules. rewrite applyRules_slots, Hd. simpl.
  by rewrite Hr.
Qed.

(** A store whose only rule ignores GROCERY: un-ignoring the unflagged
    transaction by hand does not last. *)
Lemma toggle_overridden_by_rules_witness :
  tx_ignored <$>
    transactions
      (applyRulesToExisting true
         (toggleIgnore 2 0
            (mkDB exampleCategories [mkRule 1 "GROCERY" "ignore" None 0 1 0]
               [exampleOverridden; exampleUnflagged] []))) !! 1%nat
  = Some 1.
Proof.
  apply (toggle_overridden_by_rules 0
           (mkDB exampleCategories [mkRule 1 "GROCERY" "ignore" None 0 1 0]
              [exampleOverridden; exampleUnflagged] [])
           1 exampleUnflagged);
    [compute_done | reflexivity | by compute | reflexivity |].
  exists (mkRule 1 "GROCERY" "ignore" None 0 1 0).
  repeat split; try reflexivity. by constructor.
Defined.

(** ** Manual transactions *)

Lemma foldl_fmap_rows {A R} (step : list A -> R -> list A) (u : R -> A -> A)
    (rows : list R) (l : list A) :
  (forall M row, step M row = u row <$> M) ->
  foldl step l rows = (fun a => foldl (fun a row => u row a) a rows) <$> l.
Proof.
  intros Hstep. revert l. induction rows as [|row rows IH]; intros l; simpl.
  - by rewrite list_fmap_id.
  - rewrite IH, Hstep, <- list_fmap_compose. done.
Qed.

Lemma reapplyManualRow_map db manual row :
  reapplyManualRow db manual row = manualRowUpdate db row <$> manual.
Proof.
  unfold reapplyManualRow, manualRowUpdate.
  destruct (JS.isEmpty _); [by rewrite list_fmap_id|].
  destruct (categoryIdByName db _) as [n|]; [|by rewrite list_fmap_id].
  destruct (n =? 0); [by rewrite list_fmap_id | done].
Qed.

Lemma manualRowUpdate_id db row m : m_id (manualRowUpdate db row m) = m_id m.
Proof.
  unfold manualRowUpdate, manualCategory.
  repeat (case_match; try reflexivity).
Qed.

Lemma manualRowUpdate_other db row m :
  m_id m <> fst row -> manualRowUpdate db row m = m.
Proof.
  intros H. unfold manualRowUpdate, manualCategory.
  rewrite (proj2 (Z.eqb_neq _ _) H).
  repeat (case_match; try reflexivity).
Qed.

Lemma manualRowUpdate_own db m :
  manualRowUpdate db (m_id m, m_description m) m = manualUnderRules db m.
Proof.
  unfold manualRowUpdate, manualUnderRules, manualCategory. simpl.
  rewrite resultCategory_nonempty, Z.eqb_refl. done.
Qed.

Lemma foldl_manual_other db (l : list ManualTx) m :
  m_id m ∉ m_id <$> l ->
  foldl (fun a row => manualRowUpdate db row a) m
    ((fun m => (m_id m, m_description m)) <$> l) = m.
Proof.
  revert m. induction l as [|a l IH]; intros m H; [done|].
  rewrite fmap_cons in H. apply not_elem_of_cons in H as [Ha Hl].
  simpl. rewrite manualRowUpdate_other by done. by apply IH.
Qed.

Lemma foldl_manual_own db (l : list ManualTx) m :
  NoDup (m_id <$> l) -> m ∈ l ->
  foldl (fun a row => manualRowUpdate db row a) m
    ((fun m => (m_id m, m_description m)) <$> l) = manualUnderRules db m.
Proof.
  induction l as [|a l IH]; intros Hnd Hin; [by inversion Hin|].
  rewrite fmap_cons in Hnd. apply NoDup_cons in Hnd as [Ha Hnd].
  simpl. apply elem_of_cons in Hin as [->|Hin].
  - rewrite manualRowUpdate_own. apply foldl_manual_other.
    unfold manualUnderRules. by repeat case_match.
  - rewrite manualRowUpdate_other; [by apply IH|].
    simpl. intros E. apply Ha. rewrite <- E. by apply list_elem_of_fmap_2.
Qed.

Lemma applyRulesToManualTransactions_rows db manual :
  NoDup (m_id <$> manual) ->
  applyRulesToManualTransactions true db manual
  = if bool_decide (enabledRules db = []) then manual
    else manualUnderRules db <$> manual.
Proof.
  intros Hnd. unfold applyRulesToManualTransactions. simpl.
  destruct (enabledRules db) as [|r rs] eqn:He; [done|].
  simpl length. replace (Z.of_nat (S (length rs)) =? 0) with false
    by (symmetry; apply Z.eqb_neq; lia).
  rewrite bool_decide_eq_false_2 by done.
  rewrite (foldl_fmap_rows _ (manualRowUpdate db))
    by apply reapplyManualRow_map.
  apply list_fmap_ext. intros i m Hm.
  apply foldl_manual_own; [done|]. by eapply list_elem_of_lookup_2.
Qed.

Lemma unmatched_category db d dc :
  (forall name, ~ categorizedByRule db d name) ->
  resultCategory (applyTransactionRules db d dc) = fallbackOf dc.
Proof.
  intros H. destruct (resultCategory_cases db d dc) as [E|E]; [done|].
  by apply H in E.
Qed.

(** X17: applying the rules to the manual transactions.  With at least one
    enabled rule, every manual transaction moves to the category the rules
    resolve for its description when that category exists (id not zero),
    and nothing else in the table changes.  The resolution has no default
    category: a transaction whose description no categorize rule matches
    is moved from whatever category it had to [Uncategorized].  With no
    enabled rule the table is left as it is.  The ids of the manual
    transactions are the table's primary key. *)
Theorem manual_rules_reset_unmatched (db : DB) (manual : list ManualTx) :
  NoDup (m_id <$> manual) ->
  applyRulesToManualTransactions true db manual
  = (if bool_decide (enabledRules db = []) then manual
     else manualUnderRules db <$> manual)
  /\ forall m u,
       (forall name, ~ categorizedByRule db (m_description m) name) ->
       categoryIdByName db "Uncategorized" = Some u -> u <> 0 ->
       manualUnderRules db m
       = mkManualTx (m_id m) (m_date m) (m_description m) (m_amount m)
           (Some u).
Proof.
  intros Hnd. split; [by apply applyRulesToManualTransactions_rows|].
  intros m u Hno Hu H0. unfold manualUnderRules.
  rewrite (unmatched_category _ _ _ Hno).
  change (fallbackOf None) with "Uncategorized".
  by rewrite Hu, (proj2 (Z.eqb_neq _ _) H0).
Qed.

(** The manual transaction filed under Food by hand has a description no
    rule matches: applying the rules moves it to Uncategorized. *)
Lemma manual_rules_reset_unmatched_witness :
  applyRulesToManualTransactions true exampleStore exampleManual
  = [mkManualTx 1 "2024-02-01" "CINEMA" (JS.Num (-12)) (Some 1);
     mkManualTx 2 "2024-02-02" "GROCERY CORNER" (JS.Num (-8)) (Some 2)].
Proof.
  assert (Hnd : NoDup (m_id <$> exampleManual)) by compute_done.
  destruct (manual_rules_reset_unmatched exampleStore exampleManual Hnd)
    as [-> _].
  reflexivity.
Defined.

Lemma abs_signs a :
  notPositive a = false ->
  isPositive (JS.abs a) = true /\ isNegative (JS.neg (JS.abs a)) = true.
Proof.
  destruct a as [q| | |]; simpl; try done. intros Hq.
  assert (Hpos : (0 < q)%Q).
  { apply Qnot_le_lt. intros H. apply Qle_bool_iff in H. congruence. }
  assert (Habs : (Qred (Qabs q) == q)%Q).
  { rewrite Qred_correct. apply Qabs_pos. by apply Qlt_le_weak. }
  unfold JS.num. split; apply negb_true_iff, not_true_iff_false;
    intros H; apply Qle_bool_iff in H.
  - rewrite Habs in H. by apply Qle_not_lt in H.
  - rewrite Qred_correct, Habs in H.
    apply Qle_not_lt in H. apply H.
    rewrite <- (Qopp_opp 0). apply Qopp_lt_compat. done.
Qed.

(** X18: [addManualTransaction] validates before it stores.  A call either
    reports an error and leaves the table as it was, or appends exactly one
    row: with a new id, the date as entered (not empty), the trimmed
    description (not empty), an amount below zero when the sign field is
    [-] and above zero otherwise, whatever sign was typed into the amount
    field, and the category that rule resolution without a default gives
    the description, which is null or the id of an existing category. *)
Theorem addManualTransaction_validated (dateInput signInput amountInput
    descriptionInput : string) (db : DB) (manual : list ManualTx) :
  ((addManualTransaction dateInput signInput amountInput descriptionInput db
      manual).2.1 = "error"
   /\ (addManualTransaction dateInput signInput amountInput descriptionInput
         db manual).1 = manual)
  \/ ((addManualTransaction dateInput signInput amountInput descriptionInput
         db manual).2.1 = "success"
      /\ exists m,
          (addManualTransaction dateInput signInput amountInput
             descriptionInput db manual).1 = manual ++ [m]
          /\ (m_id m ∉ m_id <$> manual)
          /\ m_date m = dateInput /\ JS.isEmpty dateInput = false
          /\ m_description m = JS.trim descriptionInput
          /\ JS.isEmpty (m_description m) = false
          /\ (if String.eqb signInput "-" then isNegative (m_amount m)
              else isPositive (m_amount m)) = true
          /\ m_category_id m
             = categoryIdByName db
                 (resultCategory
                    (applyTransactionRules db (JS.trim descriptionInput) None))
          /\ categoryRefValid db (m_category_id m)).
Proof.
  unfold addManualTransaction.
  destruct (JS.isEmpty dateInput) eqn:Hd; [by left|].
  destruct (notPositive (JS.parseFloat amountInput)) eqn:Ha; [by left|].
  destruct (JS.isEmpty (JS.trim descriptionInput)) eqn:He; [by left|].
  right. split; [done|]. eexists. split; [reflexivity|].
  cbn [m_id m_date m_description m_amount m_category_id].
  rewrite resultCategory_nonempty.
  destruct (abs_signs _ Ha) as [Hp Hn].
  repeat split; try done.
  - apply nextId_fresh.
  - by destruct (String.eqb signInput "-").
  - destruct (categoryIdByName db _) as [n|] eqn:E; [|done]. simpl.
    destruct (categoryIdByName_elem _ _ _ E) as (c & Hc & <- & _).
    by apply list_elem_of_fmap_2.
Qed.

(** ** The explicit numeric formats *)

Lemma split_tokens sep a b c :
  JS.isDigit sep = false ->
  JS.allChars JS.isDigit a = true -> JS.allChars JS.isDigit b = true ->
  JS.allChars JS.isDigit c = true ->
  JS.split sep (threeParts sep a b c) = [a; b; c].
Proof.
  intros Hs Ha Hb Hc. unfold threeParts.
  by rewrite !split_app, (split_plain sep c) by (by apply digits_notChar).
Qed.

Ltac format_constants :=
  repeat match goal with
         | |- context [JS.includesChar "/" ?F] =>
             let v := eval vm_compute in (JS.includesChar "/" F) in
             change (JS.includesChar "/" F) with v
         end;
  cbv iota.

Lemma explicitNumericDate_parts f a b c va vb vc :
  f ∈ numericFormats ->
  DateToken a va -> DateToken b vb -> DateToken c vc ->
  explicitNumericDate (threeParts (separatorOf f) a b c) f
  = match readAs f va vb vc with
    | (y, m, d) =>
        if (d =? 0) || (m =? 0) || (y =? 0) then None
        else Some (fmtDate y m d)
    end.
Proof.
  intros Hf [Haa Hea Hva] [Hab Heb Hvb] [Hac Hec Hvc].
  unfold numericFormats in Hf.
  repeat (apply elem_of_cons in Hf as [->|Hf]);
    [ .. | by apply elem_of_nil in Hf ];
    unfold explicitNumericDate, separatorOf; format_constants;
    rewrite split_tokens by done;
    match goal with
    | |- context [JS.split ?s ?F] =>
        let v := eval vm_compute in (JS.split s F) in
        change (JS.split s F) with v
    end;
    cbn; rewrite ?Hva, ?Hvb, ?Hvc; reflexivity.
Qed.

Lemma numericToken_DateToken t v :
  numericToken t = true -> JS.parseInt10 t = Some v -> DateToken t v.
Proof.
  unfold numericToken. intros [[He Ha]%andb_prop _]%andb_prop Hv.
  apply negb_true_iff in He. by constructor.
Qed.

(** X19: the explicit numeric formats read a date by position and check
    no range.  For a date of three digit groups (of at most fifteen digits)
    around the format's separator, the result is built from the values of
    the groups in the order of the format's tokens (a two-digit year
    through the pivot), and it is null only when a field is zero: a month
    above 12 or a day above 31 is accepted, and the same string read under
    [DD/MM/YYYY] and [MM/DD/YYYY] gives two different dates. *)
Theorem explicit_format_positional
    (browserDate : string -> option (Z * Z * Z)) (f a b c : string)
    (va vb vc : Z) :
  f ∈ numericFormats ->
  numericToken a = true -> numericToken b = true -> numericToken c = true ->
  JS.parseInt10 a = Some va -> JS.parseInt10 b = Some vb ->
  JS.parseInt10 c = Some vc ->
  normalizeDate browserDate (Some (threeParts (separatorOf f) a b c)) f
  = match readAs f va vb vc with
    | (y, m, d) =>
        if (d =? 0) || (m =? 0) || (y =? 0) then None
        else Some (fmtDate y m d)
    end.
Proof.
  intros Hf Na Nb Nc Pa Pb Pc.
  pose proof (numericToken_DateToken a va Na Pa) as Ta.
  pose proof (numericToken_DateToken b vb Nb Pb) as Tb.
  pose proof (numericToken_DateToken c vc Nc Pc) as Tc.
  rewrite <- (explicitNumericDate_parts f a b c va vb vc Hf Ta Tb Tc).
  destruct Ta as [Haa Hea Hva], Tb as [Hab Heb Hvb], Tc as [Hac Hec Hvc].
  assert (Hsep : notSpace (separatorOf f) = true).
  { unfold separatorOf. by destruct (JS.includesChar "/" f). }
  assert (Ht : JS.trim (threeParts (separatorOf f) a b c)
               = threeParts (separatorOf f) a b c).
  { apply trim_plain. unfold threeParts.
    rewrite allChars_app. cbn [JS.allChars]. rewrite allChars_app.
    cbn [JS.allChars].
    by rewrite !digits_notSpace, Hsep by done. }
  rewrite normalizeDate_some
    by (unfold threeParts; rewrite isEmpty_app; by rewrite Hea).
  rewrite Ht. unfold numericFormats in Hf.
  repeat (apply elem_of_cons in Hf as [->|Hf]);
    [ .. | by apply elem_of_nil in Hf ]; reflexivity.
Qed.

(** The string 13/01/2024 under [MM/DD/YYYY]: month 13 is stored. *)
Lemma explicit_format_positional_witness :
  normalizeDate noBrowserDate (Some "13/01/2024") "MM/DD/YYYY"
  = Some "2024-13-01".
Proof.
  apply (explicit_format_positional noBrowserDate "MM/DD/YYYY" "13" "01"
           "2024" 13 1 2024);
    [compute_done | reflexivity ..].
Defined.

(** ** Automatic detection *)

Lemma digit_of_mod n : JS.isDigit (JS.digitChar (n mod 10)) = true.
Proof.
  apply digitChar_spec. pose proof (Z.mod_pos_bound n 10 ltac:(lia)). lia.
Qed.

Lemma digit_notSpace c : JS.isDigit c = true -> notSpace c = true.
Proof.
  intros H. unfold notSpace. by destruct (digit_plain c H) as [-> _].
Qed.

(** The decimal form of a number of four digits, and of one or two. *)
Lemma numToString_four y :
  1000 <= y <= 9999 ->
  exists c1 c2 c3 c4,
    JS.numToString y = String c1 (String c2 (String c3 (String c4 EmptyString)))
    /\ forallb JS.isDigit [c1; c2; c3; c4] = true.
Proof.
  intros Hy. unfold JS.numToString, JS.digits.
  rewrite (proj2 (Z.ltb_ge y 0)) by lia.
  assert (Hl : 9 <= Z.log2 y).
  { change 9 with (Z.log2 1000). apply Z.log2_le_mono. lia. }
  destruct (Z.to_nat (Z.log2 y)) as [|[|[|k]]] eqn:E; try lia.
  cbn [JS.digitsAux].
  rewrite (proj2 (Z.eqb_neq (y / 10) 0)) by (Z.div_mod_to_equations; lia).
  rewrite (proj2 (Z.eqb_neq (y / 10 / 10) 0))
    by (Z.div_mod_to_equations; lia).
  rewrite (proj2 (Z.eqb_neq (y / 10 / 10 / 10) 0))
    by (Z.div_mod_to_equations; lia).
  rewrite (proj2 (Z.eqb_eq (y / 10 / 10 / 10 / 10) 0))
    by (Z.div_mod_to_equations; lia).
  do 4 eexists. split; [reflexivity|].
  cbn [forallb]. by rewrite !digit_of_mod.
Qed.

Lemma padStart2_two n :
  1 <= n <= 99 ->
  exists c1 c2,
    JS.padStart2 (JS.numToString n) = String c1 (String c2 EmptyString)
    /\ forallb JS.isDigit [c1; c2] = true.
Proof.
  intros Hn. unfold JS.numToString, JS.digits.
  rewrite (proj2 (Z.ltb_ge n 0)) by lia.
  destruct (Z_lt_le_dec n 10) as [Hs|Hb].
  - cbn [JS.digitsAux].
    rewrite (proj2 (Z.eqb_eq (n / 10) 0)) by (Z.div_mod_to_equations; lia).
    do 2 eexists. split; [reflexivity|]. cbn [forallb].
    by rewrite digit_of_mod.
  - assert (Hl : 3 <= Z.log2 n).
    { change 3 with (Z.log2 10). apply Z.log2_le_mono. lia. }
    destruct (Z.to_nat (Z.log2 n)) as [|k] eqn:E; try lia.
    cbn [JS.digitsAux].
    rewrite (proj2 (Z.eqb_neq (n / 10) 0)) by (Z.div_mod_to_equations; lia).
    rewrite (proj2 (Z.eqb_eq (n / 10 / 10) 0))
      by (Z.div_mod_to_equations; lia).
    do 2 eexists. split; [reflexivity|]. cbn [forallb].
    by rewrite !digit_of_mod.
Qed.

(** X20: a canonical date with a four-digit year passes through the
    normaliser unchanged in automatic mode, with no format, and under
    [YYYY-MM-DD], and the browser's date parser has no part in it.  (With
    fewer or more digits in the year the automatic mode falls through to
    the browser's parser.) *)
Theorem auto_keeps_canonical (browserDate : string -> option (Z * Z * Z))
    (y m d : Z) (f : string) :
  1000 <= y <= 9999 -> 1 <= m <= 99 -> 1 <= d <= 99 ->
  f ∈ ["auto"; ""; "YYYY-MM-DD"] ->
  normalizeDate browserDate (Some (fmtDate y m d)) f = Some (fmtDate y m d).
Proof.
  intros Hy Hm Hd Hf.
  assert (Hauto : normalizeDate browserDate (Some (fmtDate y m d)) "auto"
                  = Some (fmtDate y m d)
                  /\ normalizeDate browserDate (Some (fmtDate y m d)) ""
                     = Some (fmtDate y m d)).
  { unfold fmtDate.
    destruct (numToString_four y Hy) as (y1 & y2 & y3 & y4 & -> & Hdy).
    destruct (padStart2_two m Hm) as (m1 & m2 & -> & Hdm).
    destruct (padStart2_two d Hd) as (d1 & d2 & -> & Hdd).
    cbn [forallb] in Hdy, Hdm, Hdd.
    repeat match goal with
           | H : _ && _ = true |- _ => apply andb_prop in H as [? H]
           end.
    assert (Ht : JS.trim
                   (String y1 (String y2 (String y3 (String y4
                      (String "-" (String m1 (String m2
                         (String "-" (String d1 (String d2 EmptyString))))))))))
                 = String y1 (String y2 (String y3 (String y4
                      (String "-" (String m1 (String m2
                         (String "-" (String d1 (String d2 EmptyString)))))))))).
    { apply trim_plain. cbn [JS.allChars].
      repeat match goal with
             | H : JS.isDigit ?c = true |- _ => rewrite (digit_notSpace c H)
             end.
      reflexivity. }
    split; (rewrite normalizeDate_some by reflexivity);
      cbn [JS.isEmpty String.eqb negb andb];
      change (String y1 (String y2 (String y3 (String y4 EmptyString))) +:+ "-"
              +:+ String m1 (String m2 EmptyString) +:+ "-"
              +:+ String d1 (String d2 EmptyString))
        with (String y1 (String y2 (String y3 (String y4
                (String "-" (String m1 (String m2
                   (String "-" (String d1 (String d2 EmptyString))))))))));
      rewrite Ht; unfold autoDetectDate, matchIsoPrefix; cbn [forallb];
      repeat match goal with
             | H : JS.isDigit _ = true |- _ => rewrite H; clear H
             end;
      reflexivity. }
  repeat (apply elem_of_cons in Hf as [->|Hf]);
    [apply Hauto | apply Hauto | apply normalizeDate_canonical; lia
    | by apply elem_of_nil in Hf].
Qed.

Lemma auto_keeps_canonical_witness :
  normalizeDate noBrowserDate (Some (fmtDate 2024 1 15)) "auto"
  = Some (fmtDate 2024 1 15).
Proof.
  apply (auto_keeps_canonical noBrowserDate 2024 1 15 "auto");
    [lia | lia | lia | compute_done].
Defined.

(** A string the month-name pattern matches has no ISO prefix. *)
Lemma dayMonYear_not_iso s g :
  matchDayMonYear s = Some g -> matchIsoPrefix s = None.
Proof.
  intros H. destruct (matchIsoPrefix s) as [p|] eqn:E; [|done]. exfalso.
  unfold matchIsoPrefix in E.
  repeat match type of E with
         | context [match ?x with _ => _ end] =>
             is_var x; destruct x; try discriminate E
         end.
  cbn [forallb] in E.
  repeat match type of E with
         | context [JS.isDigit ?c && _] =>
             destruct (JS.isDigit c) eqn:?; cbn [andb] in E;
             try discriminate E
         end.
  unfold matchDayMonYear in H. cbn [JS.spanDigits] in H.
  repeat match goal with
         | Hd : JS.isDigit _ = true |- _ => rewrite Hd in H; clear Hd
         end.
  repeat match type of H with
         | context [JS.spanDigits ?r] =>
             destruct (JS.spanDigits r) as [? ?]
         end.
  discriminate H.
Qed.

(** X21: the two month-name formats are one: [DD-Mon-YY] and
    [DD-Mon-YYYY] give every input the same result (the width of the year
    is not checked), and whatever date they give, the automatic mode and
    the empty format give as well, without the browser's parser. *)
Theorem month_name_formats (browserDate : string -> option (Z * Z * Z))
    (dateStr : option string) :
  normalizeDate browserDate dateStr "DD-Mon-YY"
  = normalizeDate browserDate dateStr "DD-Mon-YYYY"
  /\ forall r,
       normalizeDate browserDate dateStr "DD-Mon-YY" = Some r ->
       normalizeDate browserDate dateStr "auto" = Some r
       /\ normalizeDate browserDate dateStr "" = Some r.
Proof.
  unfold normalizeDate. destruct (negb (JS.truthy dateStr)); [done|].
  cbn [JS.isEmpty String.eqb Ascii.eqb Bool.eqb negb andb orb].
  split; [done|]. intros r H. unfold autoDetectDate.
  unfold dayMonYearMatch in H |- *.
  destruct (matchDayMonYear _) as [g|] eqn:E; [|done].
  by rewrite (dayMonYear_not_iso _ _ E), H.
Qed.

(** 16-Feb-26 in automatic mode, through the two-digit-year pivot. *)
Lemma month_name_formats_witness :
  normalizeDate noBrowserDate (Some "16-Feb-26") "auto" = Some "2026-02-16".
Proof.
  destruct (month_name_formats noBrowserDate (Some "16-Feb-26")) as [_ H].
  apply (H "2026-02-16"). reflexivity.
Defined.

(** ** The import preview *)

Lemma previewRow_cells browserDate row profile choice :
  previewRow browserDate row profile choice
  = previewCells browserDate (cellOf row profile) profile choice.
Proof. unfold previewRow, cellOf. by destruct (hasHeader profile). Qed.

Lemma orElse_nonempty a b : JS.isEmpty a = false -> JS.orElse a b = a.
Proof. intros H. unfold JS.orElse. by rewrite H. Qed.

(** The preview and the import of one row. *)
Lemma preview_row_agrees browserDate row profile importId choice t :
  JS.isEmpty choice = false ->
  mapTransaction browserDate row profile importId
    (JS.orElse choice (JS.orElse (dateFormat profile) "auto")) = Some t ->
  pv_parsed (previewRow browserDate row profile choice) = date t
  /\ pv_amount (previewRow browserDate row profile choice) = amount t.
Proof.
  intros Hc. rewrite mapTransaction_cells, previewRow_cells.
  unfold mapCells, previewCells. cbn [pv_parsed pv_amount].
  rewrite !(orElse_nonempty choice) by done.
  destruct (negb (JS.isEmpty (creditColumn profile))
            && negb (JS.isEmpty (debitColumn profile))).
  - destruct (cellOf row profile (dateColumn profile)) as [s|]; [|done].
    simpl. destruct (JS.isEmpty s); [done|]. simpl. by intros [= <-].
  - destruct (blankCell _); [done|].
    destruct (cellOf row profile (dateColumn profile)) as [s|]; [|done].
    simpl. destruct (JS.isEmpty s); [done|]. simpl. by intros [= <-].
Qed.

(** X22: the preview shows what the import will compute.  When the
    date-format dropdown holds a value, every previewed row that the import
    maps gets, in the import, the parsed date and the amount the preview
    shows for it; so when the preview reports no unparseable date, every
    candidate the import builds from the previewed rows has a date.  (With
    an empty dropdown value the preview detects the format automatically,
    while the import uses the profile's format.) *)
Theorem preview_agrees_with_import
    (browserDate : string -> option (Z * Z * Z)) (data : list Row)
    (profile : BankProfile) (importId : Z) (choice : string) :
  JS.isEmpty choice = false ->
  Forall (fun row =>
            forall t,
              mapTransaction browserDate row profile importId
                (JS.orElse choice (JS.orElse (dateFormat profile) "auto"))
              = Some t ->
              pv_parsed (previewRow browserDate row profile choice) = date t
              /\ pv_amount (previewRow browserDate row profile choice)
                 = amount t)
    (take 5 data)
  /\ (badDates (previewRows browserDate data profile choice) = 0%nat ->
      Forall (fun t => is_Some (date t))
        (mappedRows browserDate profile importId
           (JS.orElse choice (JS.orElse (dateFormat profile) "auto"))
           (take 5 data))).
Proof.
  intros Hc. split.
  - apply Forall_forall. intros row _ t Ht.
    by apply (preview_row_agrees browserDate row profile importId).
  - unfold badDates, previewRows. intros Hb.
    apply length_zero_iff_nil in Hb.
    apply Forall_forall. intros t Ht. unfold mappedRows in Ht.
    apply list_elem_of_omap in Ht as (row & Hrow & Hm).
    destruct (preview_row_agrees _ _ _ _ _ _ Hc Hm) as [Hd _].
    rewrite <- Hd.
    assert (Hin : previewRow browserDate row profile choice
                  ∈ (fun row => previewRow browserDate row profile choice)
                      <$> take 5 data)
      by exact (list_elem_of_fmap_2
                  (fun row => previewRow browserDate row profile choice)
                  _ _ Hrow).
    destruct (pv_parsed (previewRow browserDate row profile choice)) as [p|]
      eqn:Ep; [by eexists|].
    exfalso. eapply (not_elem_of_nil (previewRow browserDate row profile choice)).
    rewrite <- Hb. apply list_elem_of_filter. split; [|done].
    by rewrite Ep.
Qed.

(** The first two rows of the example file with the dropdown on
    DD/MM/YYYY: the preview reports no unparseable date, and both import
    candidates have a date. *)
Lemma preview_agrees_with_import_witness :
  Forall (fun t => is_Some (date t))
    (mappedRows noBrowserDate exampleProfile 1
       (JS.orElse "DD/MM/YYYY"
          (JS.orElse (dateFormat exampleProfile) "auto"))
       (take 5 (take 2 (file_data exampleFile)))).
Proof.
  destruct (preview_agrees_with_import noBrowserDate
              (take 2 (file_data exampleFile)) exampleProfile 1 "DD/MM/YYYY"
              eq_refl) as [_ H].
  apply H. reflexivity.
Defined.

(** ** The count an import reports and the rows it stores *)






(** ** Amounts *)

Lemma startsWith_digit p c s :
  JS.isDigit c = true -> JS.startsWith (String "I" p) (String c s) = false.
Proof.
  intros H. cbn [JS.startsWith]. destruct (Ascii.eqb "I" c) eqn:E; [|done].
  apply Ascii.eqb_eq in E as <-. discriminate.
Qed.

(** [parseFloat] on the digits of a natural number. *)
Lemma readNumber_digits neg s v :
  JS.allChars JS.isDigit s = true -> JS.isEmpty s = false ->
  JS.readDigits None s = Some v ->
  JS.readNumber neg s = JS.ofZ (JS.applySign neg v).
Proof.
  intros Ha He Hv. unfold JS.readNumber.
  destruct s as [|c s]; [done|].
  rewrite startsWith_digit by (simpl in Ha; by apply andb_prop in Ha as [? _]).
  rewrite <- (app_empty_r (String c s)) at 1.
  rewrite spanDigits_app by done. cbn [JS.isEmpty andb].
  rewrite !app_empty_r. unfold JS.digitsValue. rewrite Hv.
  cbn [default JS.readExponent String.length Z.of_nat Z.sub Z.opp]. unfold JS.ofZ.
  apply num_proper. simpl. ring.
Qed.

(** X24: amounts written as whole numbers are read exactly, with
    thousands separators wherever they stand: a cell that is the decimal
    form of an integer once its commas are removed parses to that
    integer.  The integer is one a JavaScript number holds exactly (at most
    2^53 in absolute value). *)
Theorem parseAmount_integer (s : string) (z : Z) :
  Z.abs z <= 9007199254740992 ->
  JS.removeCommas s = JS.numToString z ->
  parseAmount (Some s) = JS.ofZ z.
Proof.
  intros _ Hs. unfold parseAmount. rewrite Hs.
  assert (Hp : JS.parseFloat (JS.numToString z) = JS.ofZ z).
  { unfold JS.numToString. destruct (z <? 0) eqn:Ez.
    - apply Z.ltb_lt in Ez.
      destruct (digits_spec (- z) ltac:(lia)) as (Ha & He & Hr).
      unfold JS.parseFloat.
      change (JS.readSign (JS.trimStart (String "-" (JS.digits (- z)))))
        with (true, JS.digits (- z)).
      cbv iota. rewrite (readNumber_digits true _ (- z)) by done.
      simpl. by rewrite Z.opp_involutive.
    - apply Z.ltb_ge in Ez.
      destruct (digits_spec z Ez) as (Ha & He & Hr).
      destruct (JS.digits z) as [|c r] eqn:Ed; [done|].
      pose proof Ha as Ha'. simpl in Ha'. apply andb_prop in Ha' as [Hc _].
      destruct (digit_plain c Hc) as (Hw & Hm & Hpl & _).
      unfold JS.parseFloat. cbn [JS.trimStart]. rewrite Hw.
      rewrite readSign_plain by done.
      by rewrite (readNumber_digits false _ z). }
  rewrite Hp. unfold JS.ofZ, JS.num, JS.orZero.
  destruct (Qeq_bool (Qred (inject_Z z)) 0) eqn:E; [|done].
  apply Qeq_bool_iff in E. rewrite Qred_correct in E.
  assert (z = 0) as -> by (unfold Qeq in E; simpl in E; lia). done.
Qed.

Lemma parseAmount_integer_witness :
  parseAmount (Some "3,142") = JS.ofZ 3142
  /\ parseAmount (Some "-1,000,000") = JS.ofZ (-1000000).
Proof.
  split; [apply (parseAmount_integer "3,142" 3142)
         | apply (parseAmount_integer "-1,000,000" (-1000000))];
    (lia || reflexivity).
Defined.

(** ** Bank profiles *)

Lemma profile_row_round_trip i p :
  profileOfRow (rowOfProfile i p)
  = mkStoredProfile (Some i) (sp_name p) (reloadedProfile (sp_profile p)).
Proof.
  unfold profileOfRow, rowOfProfile, reloadedProfile. simpl.
  assert (E : JS.orElse (JS.orElse (dateFormat (sp_profile p)) "auto") "auto"
              = JS.orElse (dateFormat (sp_profile p)) "auto").
  { unfold JS.orElse.
    destruct (JS.isEmpty (dateFormat (sp_profile p))) eqn:Ee; [done|].
    by rewrite Ee. }
  rewrite E. by destruct (hasHeader (sp_profile p)).
Qed.

Section ReloadedProfile.

Variable browserDate : string -> option (Z * Z * Z).

Lemma mapTransaction_reloaded row p importId fmt :
  JS.isEmpty fmt = false ->
  mapTransaction browserDate row (reloadedProfile p) importId fmt
  = mapTransaction browserDate row p importId fmt.
Proof.
  intros Hf. unfold mapTransaction, mapCells, reloadedProfile. simpl.
  by rewrite !(orElse_nonempty fmt).
Qed.

Lemma importRows_reloaded rows p importId fmt db n :
  JS.isEmpty fmt = false ->
  importRows browserDate rows (reloadedProfile p) importId fmt db n
  = importRows browserDate rows p importId fmt db n.
Proof.
  intros Hf. revert db n. induction rows as [|row rows IH]; intros db n;
    [done|].
  cbn [importRows]. rewrite mapTransaction_reloaded by done.
  destruct (mapTransaction browserDate row p importId fmt); apply IH.
Qed.

Lemma importFiles_reloaded files p accountId fmt db n :
  JS.isEmpty fmt = false ->
  importFiles browserDate files (reloadedProfile p) accountId fmt db n
  = importFiles browserDate files p accountId fmt db n.
Proof.
  intros Hf. revert db n. induction files as [|file files IH]; intros db n;
    [done|].
  cbn [importFiles]. destruct (createImportRecord _ _ _) as [db1 importId].
  rewrite importRows_reloaded by done.
  destruct (importRows _ _ _ _ _ _ _) as [db2 k]. apply IH.
Qed.

End ReloadedProfile.

Lemma effective_format_nonempty choice f :
  JS.isEmpty (JS.orElse choice (JS.orElse f "auto")) = false.
Proof.
  unfold JS.orElse. destruct (JS.isEmpty choice) eqn:E1; [|done].
  by destruct (JS.isEmpty f) eqn:E2.
Qed.

(** X25: a bank profile survives the round trip through the [banks]
    table.  A new profile saved under a name the table does not hold is
    among the profiles [loadBankProfiles] returns, with an id no row had,
    its name and its mapping, an empty date format being read as [auto];
    and an import with the reloaded profile does what an import with the
    profile as entered does. *)
Theorem profile_round_trip (browserDate : string -> option (Z * Z * Z))
    (p : StoredProfile) (banks : list BankRow)
    (accountId choice : string) (files : list UploadedFile) (db : DB) :
  storedId p = None ->
  sp_name p ∉ bank_name <$> banks ->
  (exists i,
      (i ∉ bank_id <$> banks)
      /\ mkStoredProfile (Some i) (sp_name p) (reloadedProfile (sp_profile p))
         ∈ (loadBankProfiles (saveBankProfileToDB p banks)).2)
  /\ processUploadedFiles browserDate (reloadedProfile (sp_profile p))
       accountId choice files db
     = processUploadedFiles browserDate (sp_profile p) accountId choice
         files db.
Proof.
  intros Hid Hname. split.
  - exists (nextId (bank_id <$> banks)). split; [apply nextId_fresh|].
    unfold saveBankProfileToDB. rewrite Hid.
    rewrite bool_decide_eq_false_2 by done.
    unfold loadBankProfiles.
    destruct (banks ++ [rowOfProfile (nextId (bank_id <$> banks)) p])
      as [|b bs] eqn:E; [by destruct banks|].
    cbn [snd]. rewrite <- profile_row_round_trip.
    apply list_elem_of_fmap_2. rewrite merge_sort_Permutation, <- E.
    apply elem_of_app. right. by constructor.
  - unfold processUploadedFiles.
    replace (dateFormat (reloadedProfile (sp_profile p)))
      with (JS.orElse (dateFormat (sp_profile p)) "auto") by reflexivity.
    assert (E : JS.orElse (JS.orElse (dateFormat (sp_profile p)) "auto") "auto"
                = JS.orElse (dateFormat (sp_profile p)) "auto").
    { unfold JS.orElse.
      destruct (JS.isEmpty (dateFormat (sp_profile p))) eqn:Ee; [done|].
      by rewrite Ee. }
    rewrite E. destruct (JS.isEmpty accountId); [done|].
    by rewrite importFiles_reloaded by apply effective_format_nonempty.
Qed.

(** The first default profile, saved into an empty table and loaded, and
    an import of the example file with it. *)
Lemma profile_round_trip_witness :
  (exists i,
      (i ∉ bank_id <$> [])
      /\ mkStoredProfile (Some i) "Chase"
           (mkProfile true 0 "Transaction Date" "Description" "Amount" "" ""
              "auto")
         ∈ (loadBankProfiles (saveBankProfileToDB
               (mkStoredProfile None "Chase"
                  (mkProfile true 0 "Transaction Date" "Description"
                     "Amount" "" "" "")) [])).2)
  /\ processUploadedFiles noBrowserDate
       (mkProfile true 0 "Transaction Date" "Description" "Amount" "" ""
          "auto") "1" "" [exampleFile] exampleEmptyStore
     = processUploadedFiles noBrowserDate
         (mkProfile true 0 "Transaction Date" "Description" "Amount" "" "" "")
         "1" "" [exampleFile] exampleEmptyStore.
Proof.
  apply (profile_round_trip noBrowserDate
           (mkStoredProfile None "Chase"
              (mkProfile true 0 "Transaction Date" "Description" "Amount"
                 "" "" "")) [] "1" "" [exampleFile] exampleEmptyStore);
    [reflexivity | apply not_elem_of_nil].
Defined.

(** ** Deleting a category *)

Lemma find_category_deleted (id j : Z) (l : list CategoryRow) :
  List.find (fun c => cat_id c =? j) (filter (fun c => cat_id c <> id) l)
  = if j =? id then None else List.find (fun c => cat_id c =? j) l.
Proof.
  induction l as [|c l IH]; [by destruct (j =? id)|].
  rewrite filter_cons. destruct (decide (cat_id c <> id)) as [Hc|Hc].
  - cbn [List.find]. rewrite IH.
    destruct (cat_id c =? j) eqn:E; [|done].
    apply Z.eqb_eq in E. by rewrite (proj2 (Z.eqb_neq j id)) by lia.
  - rewrite IH. cbn [List.find].
    destruct (j =? id) eqn:Ej; [done|].
    apply Z.eqb_neq in Ej.
    by rewrite (proj2 (Z.eqb_neq (cat_id c) j)) by lia.
Qed.

Lemma categoryNameById_deleteCategory id db c :
  categoryNameById (deleteCategory true id db) c
  = if bool_decide (c = Some id) then None else categoryNameById db c.
Proof.
  destruct c as [j|]; [|done]. unfold categoryNameById, deleteCategory.
  simpl. rewrite find_category_deleted.
  destruct (j =? id) eqn:E.
  - apply Z.eqb_eq in E as ->. by rewrite bool_decide_eq_true_2.
  - apply Z.eqb_neq in E. rewrite bool_decide_eq_false_2; [done|].
    by intros [= ->].
Qed.

Lemma ruleMatches_view db db' r d :
  ruleMatches (viewOf db' r) d = ruleMatches (viewOf db r) d.
Proof. reflexivity. Qed.

Lemma existsb_fmap_ext {A B} (f : B -> bool) (g g' : A -> B) (l : list A) :
  (forall x, f (g x) = f (g' x)) ->
  existsb f (g <$> l) = existsb f (g' <$> l).
Proof.
  intros H. induction l as [|x l IH]; [done|].
  rewrite !fmap_cons. cbn [existsb]. by rewrite H, IH.
Qed.

(** Two readings of the same rule rows give the same slots when they differ
    only on rows that are no categorize hit in either. *)
Lemma slots_ext d fb (g g' : RuleRow -> RuleView) (l : list RuleRow) :
  (forall r, r ∈ l ->
     ignoreHit d (g r) = ignoreHit d (g' r)
     /\ (g r = g' r
         \/ (categorizeHit d (g r) = false
             /\ categorizeHit d (g' r) = false))) ->
  ignoreSlot (g <$> l) d = ignoreSlot (g' <$> l) d
  /\ categorySlot (g <$> l) d fb = categorySlot (g' <$> l) d fb.
Proof.
  induction l as [|r l IH]; intros H; [done|].
  destruct (H r ltac:(by constructor)) as [Hi Hc].
  destruct IH as [IHi IHc]; [intros r' Hr'; apply H; by constructor|].
  rewrite !fmap_cons. unfold ignoreSlot, categorySlot in *.
  cbn [existsb List.find]. rewrite Hi, IHi. split; [done|].
  destruct Hc as [-> | [-> ->]]; [|done].
  by destruct (categorizeHit d (g' r)).
Qed.

(** X26: deleting a category.  Transactions, rules and import records stay
    as they are, so transactions and rules may go on naming the deleted
    category; such a rule no longer assigns anything.  Rule resolution
    ignores what it ignored before; it gives a description the result it
    gave before unless an enabled categorize rule that matches it named
    the deleted category; and a category a rule assigns afterwards is one a
    rule naming another, remaining category assigned before. *)
Theorem deleteCategory_resolution (categoryId : Z) (db : DB) :
  transactions (deleteCategory true categoryId db) = transactions db
  /\ transaction_rules (deleteCategory true categoryId db)
     = transaction_rules db
  /\ imports (deleteCategory true categoryId db) = imports db
  /\ (forall description defaultCategory,
        shouldIgnore
          (applyTransactionRules (deleteCategory true categoryId db)
             description defaultCategory)
        = shouldIgnore
            (applyTransactionRules db description defaultCategory))
  /\ (forall description defaultCategory,
        (forall r, r ∈ transaction_rules db -> rule_enabled r = 1 ->
                   rule_action r = "categorize" ->
                   ruleMatches (viewOf db r) description = true ->
                   rule_category_value r <> Some categoryId) ->
        applyTransactionRules (deleteCategory true categoryId db)
          description defaultCategory
        = applyTransactionRules db description defaultCategory)
  /\ (forall description name,
        categorizedByRule (deleteCategory true categoryId db) description
          name ->
        exists r,
          r ∈ transaction_rules db /\ rule_enabled r = 1
          /\ rule_action r = "categorize"
          /\ ruleMatches (viewOf db r) description = true
          /\ rule_category_value r <> Some categoryId
          /\ categoryNameById db (rule_category_value r) = Some name).
Proof.
  set (db' := deleteCategory true categoryId db).
  assert (Hq : rulesQuery db'
               = viewOf db' <$> merge_sort ruleOrder (enabledRules db))
    by reflexivity.
  assert (Hview : forall r, rule_category_value r <> Some categoryId ->
                            viewOf db' r = viewOf db r).
  { intros r Hr. unfold viewOf, db'.
    rewrite categoryNameById_deleteCategory.
    by rewrite bool_decide_eq_false_2. }
  assert (Hdead : forall r d, rule_category_value r = Some categoryId ->
                              categorizeHit d (viewOf db' r) = false).
  { intros r d Hr. unfold categorizeHit, viewOf, db'. cbn [categoryValue].
    rewrite categoryNameById_deleteCategory, bool_decide_eq_true_2 by done.
    simpl. apply andb_false_r. }
  split; [done|]. split; [done|]. split; [done|]. split; [|split].
  - intros d dc. unfold applyTransactionRules.
    rewrite !applyRules_slots, Hq. unfold rulesQuery.
    destruct (JS.isEmpty d); [done|]. cbn [shouldIgnore].
    unfold ignoreSlot.
    by apply (existsb_fmap_ext (ignoreHit d) (viewOf db') (viewOf db)).
  - intros d dc Hno. unfold applyTransactionRules.
    rewrite !applyRules_slots, Hq. unfold rulesQuery.
    destruct (JS.isEmpty d); [done|].
    destruct (slots_ext d (fallbackOf dc) (viewOf db') (viewOf db)
                (merge_sort ruleOrder (enabledRules db))) as [-> ->]; [|done].
    intros r Hr. split; [done|].
    rewrite merge_sort_Permutation in Hr.
    apply enabledRules_elem in Hr as [Hr He].
    destruct (decide (rule_category_value r = Some categoryId)) as [Hc|Hc];
      [|left; by apply Hview].
    right. split; [by apply Hdead|].
    unfold categorizeHit.
    destruct (ruleMatches (viewOf db r) d) eqn:Em; [|done].
    destruct (String.eqb (action (viewOf db r)) "categorize") eqn:Ea; [|done].
    apply String.eqb_eq in Ea. by destruct (Hno r Hr He Ea Em).
  - intros d name (r & Hr & He & Ha & Hm & Hn).
    assert (Hc : rule_category_value r <> Some categoryId).
    { intros Hc. unfold db' in Hn.
      rewrite categoryNameById_deleteCategory, bool_decide_eq_true_2 in Hn;
        done. }
    exists r. repeat split; try done.
    unfold db' in Hn.
    by rewrite categoryNameById_deleteCategory, bool_decide_eq_false_2 in Hn.
Qed.

(** The example store without the category Food (id 3), which no rule
    names: GROCERY STORE still resolves to Groceries. *)
Lemma deleteCategory_resolution_witness :
  applyTransactionRules (deleteCategory true 3 exampleStore) "GROCERY STORE"
    None
  = mkRuleResult false "Groceries".
Proof.
  destruct (deleteCategory_resolution 3 exampleStore)
    as (_ & _ & _ & _ & H & _).
  rewrite H; [reflexivity|].
  intros r Hr _ _ _. apply list_elem_of_singleton in Hr as ->. done.
Defined.

(** ** Adding a category *)

Lemma find_app_fresh {A} (f : A -> bool) (l : list A) (x : A) :
  (forall y, y ∈ l -> f y = false) -> f x = true ->
  List.find f (l ++ [x]) = Some x.
Proof.
  intros Hl Hx. induction l as [|y l IH]; simpl; [by rewrite Hx|].
  rewrite (Hl y) by constructor. apply IH. intros z Hz. apply Hl.
  by constructor.
Qed.

Lemma categoryName_accepted name :
  validators.categoryName name = None ->
  JS.isEmpty name = false /\ (String.length name <= 50)%nat
  /\ JS.allChars validators.categoryChar name = true.
Proof.
  unfold validators.categoryName, blankInput, MAX_CATEGORY_NAME_LENGTH.
  destruct (JS.isEmpty name) eqn:E1; [done|]. simpl.
  destruct (String.length (JS.trim name) =? 0)%nat; [done|].
  destruct (50 <? String.length name)%nat eqn:E3; [done|].
  destruct (JS.allChars validators.categoryChar name) eqn:E4; [|done].
  intros _. split; [done|]. split; [|done]. by apply Nat.ltb_ge.
Qed.

(** X27: [addCategory] stores a validated, new name and the category can
    be looked up.  A call either reports an error and leaves the database
    as it was (also when the name is taken), or appends exactly one
    category whose name is the trimmed input, not empty, at most 50
    characters from letters, digits, underscore, white space and [-&.'],
    and carried by no other category; looking the name up yields the new
    id, and the id yields the name.  Names and ids that were unique stay
    unique, and the other tables are never touched. *)
Theorem addCategory_validated (nameInput : string) (db : DB) :
  transaction_rules (addCategory nameInput db).1 = transaction_rules db
  /\ transactions (addCategory nameInput db).1 = transactions db
  /\ imports (addCategory nameInput db).1 = imports db
  /\ (NoDup (cat_name <$> categories db) ->
      NoDup (cat_name <$> categories (addCategory nameInput db).1))
  /\ (NoDup (cat_id <$> categories db) ->
      NoDup (cat_id <$> categories (addCategory nameInput db).1))
  /\ (((addCategory nameInput db).2.1 = "error"
       /\ (addCategory nameInput db).1 = db)
      \/ ((addCategory nameInput db).2.1 = "success"
          /\ exists c,
              categories (addCategory nameInput db).1 = categories db ++ [c]
              /\ cat_name c = JS.trim nameInput
              /\ (cat_name c ∉ cat_name <$> categories db)
              /\ (cat_id c ∉ cat_id <$> categories db)
              /\ JS.isEmpty (cat_name c) = false
              /\ (String.length (cat_name c) <= 50)%nat
              /\ JS.allChars validators.categoryChar (cat_name c) = true
              /\ categoryIdByName (addCategory nameInput db).1 (cat_name c)
                 = Some (cat_id c)
              /\ categoryNameById (addCategory nameInput db).1
                   (Some (cat_id c))
                 = Some (cat_name c))).
Proof.
  unfold addCategory.
  destruct (validators.categoryName (JS.trim nameInput)) eqn:Ev.
  { repeat split; try done. by left. }
  destruct (bool_decide (JS.trim nameInput ∈ cat_name <$> categories db))
    eqn:Eu.
  { repeat split; try done. by left. }
  apply bool_decide_eq_false in Eu.
  destruct (categoryName_accepted _ Ev) as (Hne & Hlen & Hch).
  cbn [fst snd categories transaction_rules transactions imports
       withCategories].
  split; [done|]. split; [done|]. split; [done|]. split; [|split].
  - intros Hnd. rewrite fmap_app. apply NoDup_app. split; [done|].
    split; [|apply NoDup_singleton].
    intros x Hx Hin. apply list_elem_of_singleton in Hin. simpl in Hin.
    by subst x.
  - intros Hnd. rewrite fmap_app. by apply NoDup_snoc_fresh.
  - right. split; [done|]. eexists. split; [reflexivity|].
    cbn [cat_id cat_name]. repeat split; try done.
    + apply nextId_fresh.
    + unfold categoryIdByName, withCategories. cbn [categories].
      rewrite find_app_fresh; [done| |by apply String.eqb_refl].
      intros y Hy. cbn. apply String.eqb_neq. intros E. apply Eu.
      rewrite <- E. by apply list_elem_of_fmap_2.
    + unfold categoryNameById, withCategories. cbn [categories].
      rewrite find_app_fresh; [done| |by apply Z.eqb_refl].
      intros y Hy. cbn. apply Z.eqb_neq. intros E.
      apply (nextId_fresh (cat_id <$> categories db)). rewrite <- E.
      by apply list_elem_of_fmap_2.
Qed.

(** A category Travel added to the example store: names stay unique. *)
Lemma addCategory_validated_witness :
  NoDup (cat_name <$> categories (addCategory "  Travel " exampleStore).1).
Proof.
  destruct (addCategory_validated "  Travel " exampleStore)
    as (_ & _ & _ & Hn & _).
  apply Hn. compute_done.
Defined.

(** ** Import and bulk re-application agree *)

Lemma insertTransaction_row db t :
  insertTransaction db t
  = match date t with
    | Some d =>
        if storable t
        then withTransactions db (transactions db ++ [insertedRow db t d])
        else db
    | None => db
    end.
Proof.
  unfold insertTransaction, insertRow, storable, insertedRow.
  destruct (date t) as [d|]; [|done]. by destruct (amount t).
Qed.

(** Two defaults: the same category, or each its own fallback. *)
Lemma resultCategory_default db d c1 c2 :
  resultCategory (applyTransactionRules db d c1)
  = resultCategory (applyTransactionRules db d c2)
  \/ (resultCategory (applyTransactionRules db d c1) = fallbackOf c1
      /\ resultCategory (applyTransactionRules db d c2) = fallbackOf c2).
Proof.
  unfold applyTransactionRules. rewrite !applyRules_slots.
  destruct (JS.isEmpty d); [by right|]. cbn [resultCategory].
  unfold categorySlot.
  destruct (List.find (categorizeHit d) (rulesQuery db)); [by left | by right].
Qed.

Lemma categoryNameById_uncategorized db u :
  NoDup (cat_id <$> categories db) ->
  categoryIdByName db "Uncategorized" = Some u ->
  fallbackOf (categoryNameById db (Some u)) = "Uncategorized"
  /\ categoryNameById db (Some u) = Some "Uncategorized".
Proof.
  intros Hnd Hu. by rewrite (categoryNameById_of_name _ _ _ Hnd Hu).
Qed.

(** The row an import stores is as the rules leave it. *)
Lemma insertedRow_stable db t d :
  NoDup (cat_id <$> categories db) ->
  updatedByRules db (insertedRow db t d) = insertedRow db t d.
Proof.
  intros Hnd. unfold updatedByRules, insertedRow.
  cbn [tx_id tx_import_id tx_date tx_description tx_amount tx_category_id
       tx_ignored tx_auto_ignored tx_manual_category default].
  unfold id.
  set (res := applyTransactionRules db (description t) (Some (category t))).
  rewrite (orElse_nonempty (resultCategory res))
    by apply resultCategory_nonempty.
  set (c := if falsyNum (categoryIdByName db (resultCategory res))
            then categoryIdByName db "Uncategorized"
            else categoryIdByName db (resultCategory res)).
  rewrite (shouldIgnore_default db (description t) (categoryNameById db c)
             (Some (category t))).
  fold res.
  assert (Hc : (if bool_decide
                      (Some
                         (resultCategory
                            (applyTransactionRules db (description t)
                               (categoryNameById db c)))
                       = categoryNameById db c)
                then c
                else match
                       categoryIdByName db
                         (resultCategory
                            (applyTransactionRules db (description t)
                               (categoryNameById db c)))
                     with
                     | Some newCategoryId =>
                         if newCategoryId =? 0 then c else Some newCategoryId
                     | None => c
                     end) = c).
  { destruct (bool_decide _) eqn:Eb; [done|].
    apply bool_decide_eq_false in Eb.
    destruct (falsyNum (categoryIdByName db (resultCategory res))) eqn:Ef.
    - (* the resolved category has no usable id *)
      destruct (resultCategory_default db (description t)
                  (categoryNameById db c) (Some (category t)))
        as [E | [E _]]; rewrite E in Eb |- *; fold res.
      + destruct (categoryIdByName db (resultCategory res)) as [n|]; [|done].
        simpl in Ef. by rewrite Ef.
      + subst c. destruct (categoryIdByName db "Uncategorized") as [u|] eqn:Eu.
        * destruct (categoryNameById_uncategorized db u Hnd Eu) as [Hf Hn].
          rewrite Hf in Eb |- *. by rewrite Hn in Eb.
        * change (fallbackOf (categoryNameById db None)) with "Uncategorized".
          by rewrite Eu.
    - (* the resolved category exists *)
      subst c. destruct (categoryIdByName db (resultCategory res)) as [n|] eqn:En;
        [|done].
      rewrite (categoryNameById_of_name _ _ _ Hnd En) in Eb.
      unfold res in Eb. rewrite resultCategory_again in Eb. done. }
  rewrite Hc. f_equal. by destruct (shouldIgnore res).
Qed.

(** X28: the import and the bulk re-application resolve alike.  A row that
    [insertTransaction] has just stored is left exactly as it is by
    [applyRulesToExisting]: the category and the ignore flag the import
    gave it are the ones the rules give it again.  Transaction and category
    ids are primary keys. *)
Theorem imported_row_stable (confirmed : bool) (db : DB) (t : Transaction)
    (i : nat) :
  NoDup (tx_id <$> transactions db) ->
  NoDup (cat_id <$> categories db) ->
  (length (transactions db) <= i)%nat ->
  transactions (applyRulesToExisting confirmed (insertTransaction db t)) !! i
  = transactions (insertTransaction db t) !! i.
Proof.
  intros Hnd Hc Hi.
  assert (Hnd' : NoDup (tx_id <$> transactions (insertTransaction db t))).
  { rewrite insertTransaction_row. destruct (date t) as [d|]; [|done].
    destruct (storable t); [|done]. simpl. rewrite fmap_app.
    by apply NoDup_snoc_fresh. }
  destruct (transactions (insertTransaction db t) !! i) as [r|] eqn:Er.
  - assert (Hcfg : sameConfig db (insertTransaction db t)).
    { rewrite insertTransaction_row. destruct (date t); [|by split].
      destruct (storable t); by split. }
    rewrite (applyRulesToExisting_lookup confirmed db (insertTransaction db t)
               i r Hcfg Hnd' Er).
    f_equal. rewrite insertTransaction_row in Er.
    assert (Hold : transactions db !! i = None)
      by (by apply lookup_ge_None_2).
    destruct (date t) as [d|]; [|congruence].
    destruct (storable t); [|congruence]. simpl in Er.
    rewrite lookup_app_r in Er by done.
    apply list_lookup_singleton_Some in Er as [_ <-].
    rewrite insertedRow_stable by done. by destruct (_ && _).
  - rewrite (applyRulesToExisting_rows confirmed _ Hnd').
    destruct (confirmed && _); [|done]. simpl.
    by rewrite list_lookup_fmap, Er.
Qed.

(** GROCERY MART imported into the store whose rule sends GROCERY to
    Groceries, then the rules applied in bulk. *)
Lemma imported_row_stable_witness :
  transactions
    (applyRulesToExisting true
       (insertTransaction exampleRuleStore
          (mkTransaction 1 (Some "2024-01-15") "GROCERY MART" (JS.Num (-45))
             "Uncategorized"))) !! 0%nat
  = Some (mkTx 1 1 "2024-01-15" (Some "GROCERY MART") (JS.Num (-45)) (Some 2)
            0 0 0).
Proof.
  rewrite (imported_row_stable true exampleRuleStore
             (mkTransaction 1 (Some "2024-01-15") "GROCERY MART"
                (JS.Num (-45)) "Uncategorized") 0);
    [reflexivity | compute_done | compute_done | simpl; lia].
Defined.
